(** * CloudBioLinux provisioning: a shallow embedding of the install
      orchestration ([fabfile.py]), the Chef property builder
      ([cloudbio/chef_utils.py]) and the CloudMan launcher
      ([cloudbio/deploy/cloudman.py]), with the properties of its
      specification stated and proved over the embedding. *)

From stdpp Require Import gmap strings list pretty sorting.
From Stdlib Require Import Ascii String.

Set Warnings "-register-all".
Set Default Proof Using "Type".
Open Scope string_scope.

(** ** Python strings

    Python 2 [str] values are byte strings; they are modelled by [string].
    The functions below are the [str] methods the code calls. *)
Module PyStr.

Definition is_upper (c : ascii) : bool :=
  let n := nat_of_ascii c in (65 <=? n)%nat && (n <=? 90)%nat.

Definition lower_char (c : ascii) : ascii :=
  if is_upper c then ascii_of_nat (nat_of_ascii c + 32) else c.

(** [s.lower()] *)
Fixpoint lower (s : string) : string :=
  match s with
  | EmptyString => EmptyString
  | String c s' => String (lower_char c) (lower s')
  end.

(** [s.upper()] *)
Definition is_lower (c : ascii) : bool :=
  let n := nat_of_ascii c in (97 <=? n)%nat && (n <=? 122)%nat.

Definition upper_char (c : ascii) : ascii :=
  if is_lower c then ascii_of_nat (nat_of_ascii c - 32) else c.

Fixpoint upper (s : string) : string :=
  match s with
  | EmptyString => EmptyString
  | String c s' => String (upper_char c) (upper s')
  end.

(** [s.replace(a, b)] for one-character [a] and [b]. *)
Fixpoint replace (a b : ascii) (s : string) : string :=
  match s with
  | EmptyString => EmptyString
  | String c s' => String (if Ascii.eqb c a then b else c) (replace a b s')
  end.

(** [s.startswith(p)] *)
Definition startswith (p s : string) : bool := String.prefix p s.

(** [s.endswith(p)] *)
Fixpoint endswith (p s : string) : bool :=
  String.eqb p s ||
  match s with
  | EmptyString => false
  | String _ s' => endswith p s'
  end.

(** [s[n:]] *)
Fixpoint drop (n : nat) (s : string) : string :=
  match n, s with
  | O, _ => s
  | S n', String _ s' => drop n' s'
  | S _, EmptyString => EmptyString
  end.

(** [s[:n]] *)
Fixpoint take (n : nat) (s : string) : string :=
  match n, s with
  | S n', String c s' => String c (take n' s')
  | _, _ => EmptyString
  end.

(** [p in s] for two strings: [p] occurs in [s]. *)
Fixpoint contains (p s : string) : bool :=
  String.prefix p s ||
  match s with
  | EmptyString => false
  | String _ s' => contains p s'
  end.

(** [sep.join(l)] *)
Definition join (sep : string) (l : list string) : string :=
  String.concat sep l.

(** The double quote character, and [s] between double quotes. *)
Definition dquote : string := String (ascii_of_nat 34) EmptyString.
Definition quoted (s : string) : string := dquote ++ s ++ dquote.

(** The line feed character. *)
Definition nl : string := String (ascii_of_nat 10) EmptyString.

(** [sorted(l)] on strings: insertion into an already sorted list,
    comparing byte-wise as Python 2 does on [str]. *)
Fixpoint insert_sorted (x : string) (l : list string) : list string :=
  match l with
  | [] => [x]
  | y :: l' => if String.leb x y then x :: l else y :: insert_sorted x l'
  end.

Definition sorted (l : list string) : list string :=
  foldr insert_sorted [] l.

End PyStr.

(** ** Exceptions and results

    A Python call either returns a value or raises; the exceptions are the
    classes the code raises or lets through. *)
Inductive exn : Type :=
| KeyError (key : string)
| TypeError
| AttributeError
| IndexError
| ValueError
| IOError (path : string)
| ImportError (msg : string)
| Exception (msg : string)
| SystemExit (cmd : string).

Inductive res (A : Type) : Type :=
| Ok (a : A)
| Raise (e : exn).
Arguments Ok {A} a.
Arguments Raise {A} e.

Definition res_bind {A B} (r : res A) (f : A -> res B) : res B :=
  match r with
  | Ok a => f a
  | Raise e => Raise e
  end.

(** ** Loaded configuration values

    What [json.loads] and [yaml.load] return: [None], booleans, numbers,
    strings, lists and dicts keyed by strings.  A number with a fraction or
    an exponent is kept as its literal. *)
Inductive pyobj : Type :=
| PNone
| PBool (b : bool)
| PInt (z : Z)
| PFloat (literal : string)
| PStr (s : string)
| PList (l : list pyobj)
| PDict (m : gmap string pyobj).

Module Py.

(** [key in o] *)
Definition contains (key : string) (o : pyobj) : res bool :=
  match o with
  | PDict m => Ok (bool_decide (is_Some (m !! key)))
  | PList l =>
      Ok (existsb (fun x => match x with
                            | PStr s => String.eqb s key
                            | _ => false
                            end) l)
  | PStr s => Ok (PyStr.contains key s)
  | _ => Raise TypeError
  end.

(** [o[key] = value] for a string [key] *)
Definition setitem (o : pyobj) (key : string) (value : pyobj) : res pyobj :=
  match o with
  | PDict m => Ok (PDict (<[key := value]> m))
  | _ => Raise TypeError
  end.

(** [o[key]] for a string [key] *)
Definition getitem (o : pyobj) (key : string) : res pyobj :=
  match o with
  | PDict m =>
      match m !! key with
      | Some v => Ok v
      | None => Raise (KeyError key)
      end
  | _ => Raise TypeError
  end.

(** [o.get(key, default)]; only dicts have the method. *)
Definition get (o : pyobj) (key : string) (dflt : pyobj) : res pyobj :=
  match o with
  | PDict m => Ok (default dflt (m !! key))
  | _ => Raise AttributeError
  end.

(** [len(o)] *)
Definition len (o : pyobj) : res nat :=
  match o with
  | PList l => Ok (List.length l)
  | PDict m => Ok (size m)
  | PStr s => Ok (String.length s)
  | _ => Raise TypeError
  end.

(** [o[0]]; the dicts here have no integer key. *)
Definition first (o : pyobj) : res pyobj :=
  match o with
  | PList (x :: _) => Ok x
  | PList [] => Raise IndexError
  | PStr (String c _) => Ok (PStr (String c EmptyString))
  | PStr EmptyString => Raise IndexError
  | PDict _ => Raise (KeyError "0")
  | _ => Raise TypeError
  end.

(** Whether the literal of a float denotes zero: no digit of its
    mantissa differs from [0]. *)
Fixpoint mantissa_zero (s : string) : bool :=
  match s with
  | EmptyString => true
  | String c s' =>
      let n := nat_of_ascii c in
      if (n =? 101)%nat || (n =? 69)%nat then true
      else if (49 <=? n)%nat && (n <=? 57)%nat then false
      else mantissa_zero s'
  end.

(** Truth value of [o], as [if o] and [not o] take it. *)
Definition truthy (o : pyobj) : bool :=
  match o with
  | PNone => false
  | PBool b => b
  | PInt z => negb (z =? 0)%Z
  | PFloat lit => negb (mantissa_zero lit)
  | PStr s => negb (String.eqb s "")
  | PList l => negb (Nat.eqb (List.length l) 0)
  | PDict m => negb (Nat.eqb (size m) 0)
  end.

End Py.

(** ** The fabric environment

    [env] is a dict whose entries are also read as attributes.  It is
    modelled by the list of its items, in the order [env.iteritems()]
    yields them; a key occurs once.  Only [EStr] is an instance of [str]. *)
Inductive env_value : Type :=
| EStr (s : string)
| EUnicode (s : string)
| EBool (b : bool)
| EInt (z : Z)
| ENone
| EObject (name : string).

Definition fabric_env : Type := list (string * env_value).

Definition isinstance_str (v : env_value) : option string :=
  match v with
  | EStr s => Some s
  | _ => None
  end.

(** ** [cloudbio/chef_utils.py] *)
Module ChefUtils.

(** *** The comment pattern

    [_comment_re], compiled with [DOTALL] and [MULTILINE], is the
    sequence of
    - an optional group holding the anchor [^],
    - a greedy run of white space other than the line feed,
    - the character [/],
    - either a star, a lazy run of any characters (group 2), a star and
      a slash, and a greedy run of white space other than the line feed;
      or a slash and a greedy run of characters other than the line feed,
    - an optional group holding the anchor [$].
    The matcher below follows the pattern atom by atom, with the
    priorities of the backtracking engine. *)

(** A white space character other than the line feed.  On a byte string
    the white space class is space, tab, line feed, vertical tab, form feed
    and carriage return. *)
Definition hspace (c : ascii) : bool :=
  let n := nat_of_ascii c in
  (n =? 32)%nat || (n =? 9)%nat || (n =? 11)%nat || (n =? 12)%nat || (n =? 13)%nat.

(** A character other than the line feed. *)
Definition not_newline (c : ascii) : bool :=
  negb (nat_of_ascii c =? 10)%nat.

Definition is_slash (c : ascii) : bool := (nat_of_ascii c =? 47)%nat.
Definition is_star (c : ascii) : bool := (nat_of_ascii c =? 42)%nat.

(** A greedy [c*] over a character class: how many characters it takes,
    and what is left. *)
Fixpoint greedy (p : ascii -> bool) (s : string) : nat * string :=
  match s with
  | String c s' =>
      if p c then let '(n, r) := greedy p s' in (S n, r) else (O, s)
  | EmptyString => (O, s)
  end.

(** The lazy run followed by star and slash: with [DOTALL] the dot takes
    any character, and the lazy star stops at the first position where a
    star and a slash follow.  The
    result is the number of characters the group takes and what is left
    after the closing star and slash. *)
Fixpoint lazy_until_close (s : string) : option (nat * string) :=
  match s with
  | EmptyString => None
  | String c s' =>
      match s' with
      | String d s'' =>
          if is_star c && is_slash d then Some (O, s'')
          else match lazy_until_close s' with
               | Some (n, r) => Some (S n, r)
               | None => None
               end
      | EmptyString => None
      end
  end.

(** The pattern anchored at the head of [s]: the length of the match.
    The two optional groups take no character.  The first white space
    run is greedy and what follows it is the literal [/], which is
    not in its class, so giving characters back never helps.  After [/]
    the first alternative needs a star and the second needs a slash. *)
Definition match_here (s : string) : option nat :=
  let '(n1, r1) := greedy hspace s in
  match r1 with
  | String c1 (String c2 r2) =>
      if is_slash c1 then
        if is_star c2 then
          match lazy_until_close r2 with
          | Some (n2, r3) =>
              let '(n3, _) := greedy hspace r3 in
              Some (n1 + 2 + n2 + 2 + n3)%nat
          | None => None
          end
        else if is_slash c2 then
          let '(n2, _) := greedy not_newline r2 in
          Some (n1 + 2 + n2)%nat
        else None
      else None
  | _ => None
  end.

(** [_comment_re.search(content)]: the match at the leftmost position
    that has one, as [match.start()] and [match.end()]. *)
Fixpoint search_from (i : nat) (s : string) : option (nat * nat) :=
  match match_here s with
  | Some n => Some (i, (i + n)%nat)
  | None =>
      match s with
      | EmptyString => None
      | String _ s' => search_from (S i) s'
      end
  end.

Definition search (content : string) : option (nat * nat) :=
  search_from 0 content.

(** The [while match:] loop of [_parse_json].  Every match takes at least
    two characters, so [String.length content] rounds are enough
    ([strip_comments_done] below). *)
Fixpoint strip_loop (fuel : nat) (content : string) : string :=
  match fuel with
  | O => content
  | S fuel' =>
      match search content with
      | Some (st, en) =>
          strip_loop fuel' (PyStr.take st content ++ PyStr.drop en content)
      | None => content
      end
  end.

Definition strip_comments (content : string) : string :=
  strip_loop (String.length content) content.

Section ParseJson.
(** The standard library's [json.loads], and the files that [open] can
    read. *)
Variable json_loads : string -> res pyobj.
Variable files : string -> option string.

(** [_parse_json(filename)] *)
Definition _parse_json (filename : string) : res pyobj :=
  match files filename with
  | None => Raise (IOError filename)
  | Some content => json_loads (strip_comments content)
  end.

(** The key an environment entry is stored under. *)
Definition chef_key (key : string) : string :=
  if PyStr.startswith "chef_" key
  then PyStr.drop (String.length "chef_") key
  else "cloudbiolinux_" ++ key.

(** One round of the [for key, value in env.iteritems()] loop. *)
Definition chef_step (json_properties : pyobj) (kv : string * env_value)
  : res pyobj :=
  let '(key, value) := kv in
  res_bind (Py.contains key json_properties) (fun present =>
    match present, isinstance_str value with
    | true, _ => Ok json_properties
    | false, None => Ok json_properties
    | false, Some s => Py.setitem json_properties (chef_key key) (PStr s)
    end).

Fixpoint chef_loop (json_properties : pyobj) (env : fabric_env)
  : res pyobj :=
  match env with
  | [] => Ok json_properties
  | kv :: env' =>
      res_bind (chef_step json_properties kv) (fun j => chef_loop j env')
  end.

(** [build_chef_properties(env, config_file)]; [env] is the list of the
    environment's items in iteration order. *)
Definition build_chef_properties (env : fabric_env)
    (config_file : string) : res pyobj :=
  res_bind (_parse_json config_file) (fun json_properties =>
    chef_loop json_properties env).

End ParseJson.

End ChefUtils.

(** ** [cloudbio/deploy/cloudman.py] *)
Module Cloudman.

Definition DEFAULT_CLOUDMAN_PASSWORD : string := "adminpass".
Definition DEFAULT_CLOUDMAN_CLUSTER_NAME : string := "cloudman".

(** [os.path.join(a, b)] for a relative [b]; [a] must have the string
    methods. *)
Definition join (a : pyobj) (b : string) : res string :=
  match a with
  | PStr path =>
      if String.eqb path "" || PyStr.endswith "/" path
      then Ok (path ++ b)
      else Ok (path ++ "/" ++ b)
  | _ => Raise AttributeError
  end.

(** Whether [str(image_id).lower()] is [__use_snaps__].  The text of [None], of a
    boolean and of a number holds no underscore, and the text of a list or
    of a dict starts with a bracket, so only a string can pass. *)
Definition is_use_snaps (image_id : pyobj) : bool :=
  match image_id with
  | PStr s => String.eqb (PyStr.lower s) "__use_snaps__"
  | _ => false
  end.

Definition msg_no_snaps (snaps_path : string) : string :=
  "CloudMan AMI set to __use_snaps__ but now snaps.yaml file could be found with path "
    ++ snaps_path.
Definition msg_one_cloud : string :=
  "Exactly one cloud must be defined snaps.yaml for the deployer's CloudMan launch to work.".
Definition msg_one_region : string :=
  "Exactly one region must be defined snaps.yaml for the deployer's CloudMan launch to work.".
Definition msg_one_deployment : string :=
  "Exactly one deployment must be defined snaps.yaml for the deployer's CloudMan launch to work.".

(** The launcher object: its two accessors. *)
Record vm_launcher : Type := {
  access_id : pyobj;
  secret_key : pyobj
}.

(** The arguments [vm_launcher.create_node] receives. *)
Record node_request : Type := {
  node_name : string;
  image_id : pyobj;
  size_id : pyobj;
  ex_userdata : string
}.

Section Launch.
(** The local files that exist, with what [yaml.load] reads from them;
    [eval_template] of [cloudbio/deploy/util.py] and [yaml.dump]. *)
Variable yaml_files : string -> option pyobj.
Variable eval_template : fabric_env -> pyobj -> res pyobj.
Variable yaml_dump : pyobj -> string.
Variable env : fabric_env.

(** [_set_property_if_needed(user_data, property, value)] *)
Definition _set_property_if_needed (user_data : pyobj) (property : string)
    (value : pyobj) : res pyobj :=
  res_bind (Py.contains property user_data) (fun present =>
    if present then Ok user_data else Py.setitem user_data property value).

(** [_prepare_user_data(vm_launcher, options)] *)
Definition _prepare_user_data (launcher : vm_launcher) (options : pyobj)
  : res string :=
  res_bind (Py.get options "cloudman" PNone) (fun cloudman_options =>
  res_bind (Py.get cloudman_options "user_data" (PDict ∅)) (fun ud0 =>
  res_bind (Py.get cloudman_options "cluster_name"
              (PStr DEFAULT_CLOUDMAN_CLUSTER_NAME)) (fun cluster_name =>
  res_bind (Py.get cloudman_options "password"
              (PStr DEFAULT_CLOUDMAN_PASSWORD)) (fun password =>
  res_bind (_set_property_if_needed ud0 "access_key" (access_id launcher)) (fun ud1 =>
  res_bind (_set_property_if_needed ud1 "secret_key" (secret_key launcher)) (fun ud2 =>
  res_bind (eval_template env cluster_name) (fun cluster_name' =>
  res_bind (_set_property_if_needed ud2 "cluster_name" cluster_name') (fun ud3 =>
  res_bind (_set_property_if_needed ud3 "password" password) (fun ud4 =>
  res_bind (Py.get options "skip_cloudman" (PBool false)) (fun skip =>
  res_bind (if Py.truthy skip then Ok ud4
            else Py.setitem ud4 "skip_cloudman" (PBool true)) (fun ud5 =>
  Ok (yaml_dump ud5)))))))))))).

(** The [__use_snaps__] branch of [cloudman_launch]: the image id read
    from [snaps.yaml]. *)
Definition image_from_snaps (cloudman_options : pyobj) : res pyobj :=
  res_bind (Py.get cloudman_options "bucket_source" PNone) (fun bucket_source =>
  res_bind (join bucket_source "snaps.yaml") (fun snaps_path =>
  match yaml_files snaps_path with
  | None => Raise (Exception (msg_no_snaps snaps_path))
  | Some snaps =>
      res_bind (Py.getitem snaps "clouds") (fun clouds =>
      res_bind (Py.len clouds) (fun n_clouds =>
      if negb (Nat.eqb n_clouds 1) then Raise (Exception msg_one_cloud) else
      res_bind (Py.first clouds) (fun cloud =>
      res_bind (Py.getitem cloud "regions") (fun regions =>
      res_bind (Py.len regions) (fun n_regions =>
      if negb (Nat.eqb n_regions 1) then Raise (Exception msg_one_region) else
      res_bind (Py.first regions) (fun region =>
      res_bind (Py.getitem region "deployments") (fun deployments =>
      res_bind (Py.len deployments) (fun n_deployments =>
      if negb (Nat.eqb n_deployments 1)
      then Raise (Exception msg_one_deployment) else
      res_bind (Py.first deployments) (fun deployment =>
      Py.getitem deployment "default_mi")))))))))
  end)).

(** [cloudman_launch(vm_launcher, options)]: the request handed to
    [vm_launcher.create_node]. *)
Definition cloudman_launch (launcher : vm_launcher) (options : pyobj)
  : res node_request :=
  res_bind (Py.get options "cloudman" PNone) (fun cloudman_options =>
  res_bind (Py.get cloudman_options "image_id" PNone) (fun image_id0 =>
  res_bind (if is_use_snaps image_id0
            then image_from_snaps cloudman_options
            else Ok image_id0) (fun image_id' =>
  res_bind (Py.get cloudman_options "size_id" PNone) (fun size_id' =>
  res_bind (_prepare_user_data launcher options) (fun user_data =>
  Ok {| node_name := "cloudman";
        image_id := image_id';
        size_id := size_id';
        ex_userdata := user_data |}))))).

End Launch.

End Cloudman.

(** ** [fabfile.py] *)
Module Fabfile.

(** *** What a run does to the outside

    The code acts on the remote host, on the configuration files and on
    the rest of [cloudbio] only through calls; a run is observed as the
    list of these calls, in order. *)

(** A formatted text that is logged or appended: the template and the
    values put into it. *)
Record text : Type := Fmt { template : string; args : list pyobj }.

(** The calls.  The first ten are those of fabric, of the configuration
    files, of the flavor, of the logger and of the import machinery; the
    others are calls into modules of [cloudbio] and of [provision] that
    [fabfile.py] only imports. *)
Inductive event : Type :=
| EvRun (cmd : string)                       (* fabric's [run] *)
| EvSudo (cmd : string)                      (* fabric's [sudo] *)
| EvSafeSudo (cmd : string)                  (* [env.safe_sudo] *)
| EvExists (path : string)                   (* [fabric.contrib.files.exists] *)
| EvAppend (file : string) (content : text)  (* [fabric.contrib.files.append] *)
| EvLoadYaml (name : string)                 (* [get_config_file], [open], [yaml.load] *)
| EvRewrite (name : string) (items : pyobj)  (* [env.flavor.rewrite_config_items] *)
| EvLog (level : string) (msg : text)        (* [env.logger] *)
| EvImport (module : string)                 (* [__import__] *)
| EvInstall (module fn : string) (env : fabric_env)  (* the entry function applied to [env] *)
| EvSetupLogging
| EvConfigureFabricEnvironment (flavor : option string)
| EvNativePackages (pkg_install : pyobj)
| EvNixSources
| EvNixPackages (pkg_install : pyobj)
| EvUpdateBiolinuxLog (target flavor : option string)
| EvEditionPostInstall (pkg_install : pyobj)
| EvFlavorPostInstall
| EvCleanupSpace
| EvCleanupEc2
| EvMakeTmpDir
| EvRemoveTmpDir
| EvChefConfigure (json : pyobj) (cookbooks data_bags roles : string)
    (use_omnibus_installer : bool)
| EvChefAddRecipe (recipe : pyobj)
| EvProvision.

(** A command sent to the remote host. *)
Definition is_remote (e : event) : bool :=
  match e with
  | EvRun _ | EvSudo _ | EvSafeSudo _ | EvExists _ | EvAppend _ _ => true
  | _ => false
  end.

(** A call of the flavor's rewrite hook. *)
Definition is_rewrite (e : event) : bool :=
  match e with
  | EvRewrite _ _ => true
  | _ => false
  end.

(** The collaborators of a run.  What a call answers may depend on the
    calls made before it. *)
Record world : Type := {
  (** the call raises this exception instead of returning *)
  fails : list event -> event -> option exn;
  (** what [run] returns: the output of the command *)
  run_output : list event -> string -> string;
  (** what [exists] returns *)
  path_exists : list event -> string -> bool;
  (** the flavor's hook *)
  rewrite_config_items : string -> pyobj -> pyobj;
  (** the YAML files by logical name, parsed *)
  yaml_files : string -> option pyobj;
  (** the group files ([custom.yaml], [chef_recipes.yaml]) by logical
      name: the groups in file order, each with its members *)
  group_files : string -> option (list (string * list string));
  (** the modules under [cloudbio.custom], each with its attributes *)
  custom_modules : gmap string (list string);
  (** whether the [provision] library can be imported *)
  provision_installed : bool;
  (** [json.loads] and the text files *)
  json_loads : string -> res pyobj;
  files : string -> option string;
  (** [_pip_cmd(env)] and the directory [_make_tmp_dir] yields *)
  pip_cmd : string;
  tmp_dir : string;
  (** Python's [str] of a value that is not a string: a number, a
      boolean, [None], a list or a dict *)
  py_str : pyobj -> string
}.

(** A computation: from the calls made so far, to a result and the calls
    it makes. *)
Definition M (A : Type) : Type := list event -> res A * list event.

Definition ret {A} (a : A) : M A := fun _ => (Ok a, []).

Definition raise {A} (e : exn) : M A := fun _ => (Raise e, []).

Definition lift {A} (r : res A) : M A := fun _ => (r, []).

Definition bind {A B} (m : M A) (f : A -> M B) : M B :=
  fun h =>
    match m h with
    | (Ok a, t) => let '(r, t') := f a (h ++ t)%list in (r, (t ++ t')%list)
    | (Raise e, t) => (Raise e, t)
    end.

Notation "x <-- m ;; k" := (bind m (fun x => k))
  (at level 100, m at next level, right associativity).
Notation "m ;;; k" := (bind m (fun _ => k))
  (at level 100, right associativity).

Definition when (b : bool) (m : M unit) : M unit :=
  if b then m else ret tt.

(** [for x in l: body x] *)
Fixpoint for_each {A} (l : list A) (body : A -> M unit) : M unit :=
  match l with
  | [] => ret tt
  | x :: l' => body x ;;; for_each l' body
  end.

(** [try: body finally: cleanup] *)
Definition finally {A} (body : M A) (cleanup : M unit) : M A :=
  fun h =>
    let '(r, t) := body h in
    match cleanup (h ++ t)%list with
    | (Ok _, t') => (r, (t ++ t')%list)
    | (Raise e, t') => (Raise e, (t ++ t')%list)
    end.

(** Python's [str] of an environment value; an object shows as its
    name. *)
Definition env_text (v : env_value) : string :=
  match v with
  | EStr s | EUnicode s => s
  | EBool true => "True"
  | EBool false => "False"
  | EInt z => pretty z
  | ENone => "None"
  | EObject name => name
  end.

Definition env_truthy (v : env_value) : bool :=
  match v with
  | EStr s | EUnicode s => negb (String.eqb s "")
  | EBool b => b
  | EInt z => negb (z =? 0)%Z
  | ENone => false
  | EObject _ => true
  end.

(** [v == s] for a string [s] *)
Definition env_eq_str (v : env_value) (s : string) : bool :=
  match v with
  | EStr s' | EUnicode s' => String.eqb s' s
  | _ => false
  end.

(** [env.get(key)] as an option, and [env.key], which raises on a key
    that is not set. *)
Fixpoint env_get (env : fabric_env) (key : string) : option env_value :=
  match env with
  | [] => None
  | (k, v) :: env' => if String.eqb k key then Some v else env_get env' key
  end.

Definition env_attr (env : fabric_env) (key : string) : res env_value :=
  match env_get env key with
  | Some v => Ok v
  | None => Raise AttributeError
  end.

(** The members of a list of names, as [join] takes them: a list must
    hold strings, a string yields its characters, a dict its keys. *)
Fixpoint names_of_list (l : list pyobj) : res (list string) :=
  match l with
  | [] => Ok []
  | PStr s :: l' => res_bind (names_of_list l') (fun r => Ok (s :: r))
  | _ :: _ => Raise TypeError
  end.

Fixpoint chars (s : string) : list string :=
  match s with
  | EmptyString => []
  | String c s' => String c EmptyString :: chars s'
  end.

Definition iter_names (o : pyobj) : res (list string) :=
  match o with
  | PList l => names_of_list l
  | PStr s => Ok (chars s)
  | PDict m => Ok (map fst (map_to_list m))
  | _ => Raise TypeError
  end.

Definition names (l : list string) : pyobj := PList (map PStr l).

(** The members of a value as a [for] loop takes them, whatever they
    are: the entries of a list, the characters of a string, the keys of a
    dict; a number, a boolean and [None] are not iterable. *)
Definition iter_items (o : pyobj) : res (list pyobj) :=
  match o with
  | PList l => Ok l
  | PStr s => Ok (map PStr (chars s))
  | PDict m => Ok (map (fun kv => PStr (fst kv)) (map_to_list m))
  | _ => Raise TypeError
  end.

Section Run.
Variable w : world.
Variable env : fabric_env.

(** [str(o)], as [%s] and [format] put a value into a command: a string
    as it is. *)
Definition fmt_s (o : pyobj) : string :=
  match o with
  | PStr s => s
  | _ => py_str w o
  end.

(** A call to a collaborator. *)
Definition call (e : event) : M unit :=
  fun h =>
    (match fails w h e with
     | Some x => Raise x
     | None => Ok tt
     end, [e]).

Definition run (cmd : string) : M string :=
  fun h =>
    (match fails w h (EvRun cmd) with
     | Some x => Raise x
     | None => Ok (run_output w h cmd)
     end, [EvRun cmd]).

Definition sudo (cmd : string) : M unit := call (EvSudo cmd).
Definition safe_sudo (cmd : string) : M unit := call (EvSafeSudo cmd).
Definition append (file : string) (content : text) : M unit :=
  call (EvAppend file content).

Definition exists_ (path : string) : M bool :=
  fun h =>
    (match fails w h (EvExists path) with
     | Some x => Raise x
     | None => Ok (path_exists w h path)
     end, [EvExists path]).

(** A step that cannot raise: a line given to the logger, an attribute
    set on an object. *)
Definition record (e : event) : M unit := fun _ => (Ok tt, [e]).

Definition log (level : string) (msg : text) : M unit :=
  record (EvLog level msg).

(** [get_config_file(env, name).base], [open] and [yaml.load] *)
Definition load_yaml (name : string) : M pyobj :=
  fun h =>
    (match fails w h (EvLoadYaml name), yaml_files w name with
     | Some x, _ => Raise x
     | None, Some data => Ok data
     | None, None => Raise (IOError name)
     end, [EvLoadYaml name]).

(** [env.flavor.rewrite_config_items(name, items)] *)
Definition rewrite (name : string) (items : pyobj) : M pyobj :=
  fun h =>
    (match fails w h (EvRewrite name items) with
     | Some x => Raise x
     | None => Ok (rewrite_config_items w name items)
     end, [EvRewrite name items]).

(** [_print_time_stats(action, event, prev_time)]; the clock reading
    and the duration are left out of the logged line. *)
Definition _print_time_stats (action : text) (event : string) : M unit :=
  log "info" (Fmt "{0} {1} time: {2}"
                [PStr (template action); PList (args action); PStr event]).

(** [x if x else []] *)
Definition or_empty (x : pyobj) : pyobj :=
  if Py.truthy x then x else PList [].

(** [_read_main_config()] *)
Definition _read_main_config : M (pyobj * list string * pyobj) :=
  full_data <-- load_yaml "main.yaml" ;;
  packages <-- lift (Py.getitem full_data "packages") ;;
  let packages := or_empty packages in
  libraries <-- lift (Py.getitem full_data "libraries") ;;
  let libraries := or_empty libraries in
  custom_ignore <-- lift (Py.get full_data "custom_ignore" (PList [])) ;;
  package_names <-- lift (iter_names packages) ;;
  library_names <-- lift (iter_names libraries) ;;
  log "info"
    (Fmt ("Meta-package information from {2}" ++ PyStr.nl
            ++ "- Packages: {0}" ++ PyStr.nl ++ "- Libraries: {1}")
       [PStr (PyStr.join "," package_names);
        PStr (PyStr.join "," library_names);
        PStr "main.yaml"]) ;;;
  ret (packages, PyStr.sorted library_names, custom_ignore).


(** *** Library specific installation code *)

Definition R_out_file : string := "install_packages.R".

Definition R_repo_info : string :=
  PyStr.nl
  ++ "    cran.repos <- getOption(" ++ PyStr.quoted "repos" ++ ")" ++ PyStr.nl
  ++ "    cran.repos[" ++ PyStr.quoted "CRAN" ++ " ] <- " ++ PyStr.quoted "%s" ++ PyStr.nl
  ++ "    options(repos=cran.repos)" ++ PyStr.nl
  ++ "    source(" ++ PyStr.quoted "%s" ++ ")" ++ PyStr.nl
  ++ "    ".

Definition R_install_fn : string :=
  PyStr.nl
  ++ "    repo.installer <- function(repos, install.fn) {" ++ PyStr.nl
  ++ "      update.or.install <- function(pname) {" ++ PyStr.nl
  ++ "        if (pname %in% installed.packages())" ++ PyStr.nl
  ++ "          update.packages(lib.loc=c(pname), repos=repos, ask=FALSE)" ++ PyStr.nl
  ++ "        else" ++ PyStr.nl
  ++ "          install.fn(pname)" ++ PyStr.nl
  ++ "      }" ++ PyStr.nl
  ++ "    }" ++ PyStr.nl
  ++ "    ".

Definition R_std_install : string :=
  PyStr.nl
  ++ "    std.pkgs <- c(%s)" ++ PyStr.nl
  ++ "    std.installer = repo.installer(cran.repos, install.packages)" ++ PyStr.nl
  ++ "    lapply(std.pkgs, std.installer)" ++ PyStr.nl
  ++ "    ".

Definition R_bioc_install : string :=
  PyStr.nl
  ++ "    bioc.pkgs <- c(%s)" ++ PyStr.nl
  ++ "    bioc.installer = repo.installer(biocinstallRepos(), biocLite)" ++ PyStr.nl
  ++ "    lapply(bioc.pkgs, bioc.installer)" ++ PyStr.nl
  ++ "    ".

Definition R_final_update : string :=
  PyStr.nl
  ++ "    update.packages(repos=biocinstallRepos(), ask=FALSE)" ++ PyStr.nl
  ++ "    update.packages(ask=FALSE)" ++ PyStr.nl
  ++ "    ".

(** The packages, each formatted with [%s] between double quotes,
    joined by a comma and a space. *)
Definition R_vector (pkgs : list pyobj) : pyobj :=
  PStr (PyStr.join ", " (map (fun p => PyStr.quoted (fmt_s p)) pkgs)).

(** [_r_library_installer(config)] *)
Definition _r_library_installer (config : pyobj) : M unit :=
  present <-- exists_ R_out_file ;;
  when present (run ("rm -f " ++ R_out_file) ;;; ret tt) ;;;
  run ("touch " ++ R_out_file) ;;;
  cranrepo <-- lift (Py.getitem config "cranrepo") ;;
  biocrepo <-- lift (Py.getitem config "biocrepo") ;;
  append R_out_file (Fmt R_repo_info [cranrepo; biocrepo]) ;;;
  append R_out_file (Fmt R_install_fn []) ;;;
  cran <-- lift (Py.getitem config "cran") ;;
  cran_pkgs <-- lift (iter_items cran) ;;
  append R_out_file (Fmt R_std_install [R_vector cran_pkgs]) ;;;
  bioc <-- lift (Py.getitem config "bioc") ;;
  bioc_pkgs <-- lift (iter_items bioc) ;;
  append R_out_file (Fmt R_bioc_install [R_vector bioc_pkgs]) ;;;
  append R_out_file (Fmt R_final_update []) ;;;
  safe_sudo ("Rscript " ++ R_out_file) ;;;
  run ("rm -f " ++ R_out_file) ;;;
  ret tt.

Definition pip_install_cmd (pname : pyobj) : string :=
  pip_cmd w ++ " install --upgrade " ++ fmt_s pname.

(** [_python_library_installer(config)] *)
Definition _python_library_installer (config : pyobj) : M unit :=
  ext <-- lift (env_attr env "python_version_ext") ;;
  let version_ext := if env_truthy ext then "-" ++ env_text ext else "" in
  safe_sudo ("easy_install" ++ version_ext ++ " -U pip") ;;;
  pypi <-- lift (Py.getitem config "pypi") ;;
  items <-- rewrite "python" pypi ;;
  pnames <-- lift (iter_items items) ;;
  for_each pnames (fun pname => safe_sudo (pip_install_cmd pname)).

(** [l.rstrip(CR)]: the line without the carriage returns at its
    end. *)
Fixpoint rstrip_cr (l : string) : string :=
  match l with
  | EmptyString => EmptyString
  | String c l' =>
      match rstrip_cr l' with
      | EmptyString =>
          if (nat_of_ascii c =? 13)%nat then EmptyString
          else String c EmptyString
      | r => String c r
      end
  end.

(** [s.split(LF)] *)
Fixpoint split_lines (s : string) : list string :=
  match s with
  | EmptyString => [EmptyString]
  | String c s' =>
      if (nat_of_ascii c =? 10)%nat then EmptyString :: split_lines s'
      else match split_lines s' with
           | l :: ls => String c l :: ls
           | [] => [String c EmptyString]
           end
  end.

(** The list [_cur_gems] makes of the output of [gem list]. *)
Definition gem_lines (gem_info : string) : list string :=
  filter (fun l => l <> EmptyString) (map rstrip_cr (split_lines gem_info)).

(** [getattr] of [ruby_version_ext] on [env], the empty string by default *)
Definition gem_ext : string :=
  match env_get env "ruby_version_ext" with
  | Some v => env_text v
  | None => ""
  end.

Definition gem_list_cmd : string := "gem" ++ gem_ext ++ " list --no-versions".
Definition gem_update_cmd (gem : pyobj) : string :=
  "gem" ++ gem_ext ++ " update " ++ fmt_s gem.
Definition gem_install_cmd (gem : pyobj) : string :=
  "gem" ++ gem_ext ++ " install " ++ fmt_s gem.

(** [gem in installed], for a list of strings: only a string can be
    equal to one of them. *)
Definition gem_in (gem : pyobj) (installed : list string) : bool :=
  match gem with
  | PStr s => bool_decide (s ∈ installed)
  | _ => false
  end.

(** [_cur_gems()] *)
Definition _cur_gems : M (list string) :=
  gem_info <-- run gem_list_cmd ;;
  ret (gem_lines gem_info).

(** The [for gem in ...] loop of [_ruby_library_installer], with the
    variable [installed] it updates. *)
Fixpoint ruby_loop (installed : list string) (gems : list pyobj) : M unit :=
  match gems with
  | [] => ret tt
  | gem :: gems' =>
      installed' <-- (if gem_in gem installed then ret installed
                      else _cur_gems) ;;
      (if gem_in gem installed'
       then safe_sudo (gem_update_cmd gem)
       else safe_sudo (gem_install_cmd gem)) ;;;
      ruby_loop installed' gems'
  end.

(** [_ruby_library_installer(config)] *)
Definition _ruby_library_installer (config : pyobj) : M unit :=
  installed <-- _cur_gems ;;
  gems <-- lift (Py.getitem config "gems") ;;
  items <-- rewrite "ruby" gems ;;
  gem_names <-- lift (iter_items items) ;;
  ruby_loop installed gem_names.

(** A command run inside [with cd(dir)]. *)
Definition in_dir (dir cmd : string) : string := "cd " ++ dir ++ " && " ++ cmd.

Definition cpanm_url : string :=
  "https://raw.github.com/miyagawa/cpanminus/master/cpanm".

Definition cpanm_cmd (sudo_str : string) (lib : pyobj) : string :=
  "cpanm " ++ sudo_str ++ " --skip-installed --notest " ++ fmt_s lib
    ++ " < /dev/null".

(** [_perl_library_installer(config)] *)
Definition _perl_library_installer (config : pyobj) : M unit :=
  call EvMakeTmpDir ;;;
  finally
    (run (in_dir (tmp_dir w)
            ("wget --no-check-certificate -O cpanm " ++ cpanm_url)) ;;;
     run (in_dir (tmp_dir w) "chmod a+rwx cpanm") ;;;
     system_install <-- lift (env_attr env "system_install") ;;
     safe_sudo (in_dir (tmp_dir w)
                  ("mv cpanm " ++ env_text system_install ++ "/bin")))
    (call EvRemoveTmpDir) ;;;
  use_sudo <-- lift (env_attr env "use_sudo") ;;
  let sudo_str := if env_truthy use_sudo then "--sudo" else "" in
  cpan <-- lift (Py.getitem config "cpan") ;;
  items <-- rewrite "perl" cpan ;;
  libs <-- lift (iter_items items) ;;
  for_each libs (fun lib => run (cpanm_cmd sudo_str lib) ;;; ret tt).

(** [_clojure_library_installer(config)] *)
Definition _clojure_library_installer (config : pyobj) : M unit :=
  cljr <-- lift (Py.getitem config "cljr") ;;
  libs <-- lift (iter_items cljr) ;;
  for_each libs (fun lib => run ("cljr install " ++ fmt_s lib) ;;; ret tt).

Definition cabal_cmd (sudo_str : string) (lib : pyobj) : string :=
  "cabal install " ++ sudo_str ++ " --global " ++ fmt_s lib.

(** [_haskell_library_installer(config)] *)
Definition _haskell_library_installer (config : pyobj) : M unit :=
  run "cabal update" ;;;
  cabal <-- lift (Py.getitem config "cabal") ;;
  libs <-- lift (iter_items cabal) ;;
  for_each libs (fun lib =>
    use_sudo <-- lift (env_attr env "use_sudo") ;;
    let sudo_str := if env_truthy use_sudo then "--root-cmd=sudo" else "" in
    run (cabal_cmd sudo_str lib) ;;; ret tt).

(** The dispatch table [lib_installers]. *)
Definition lib_installers : list (string * (pyobj -> M unit)) :=
  [ ("r-libs", _r_library_installer);
    ("python-libs", _python_library_installer);
    ("ruby-libs", _ruby_library_installer);
    ("perl-libs", _perl_library_installer);
    ("clojure-libs", _clojure_library_installer);
    ("haskell-libs", _haskell_library_installer) ].

Fixpoint lookup_installer (table : list (string * (pyobj -> M unit)))
    (iname : string) : res (pyobj -> M unit) :=
  match table with
  | [] => Raise (KeyError iname)
  | (k, f) :: table' =>
      if String.eqb k iname then Ok f else lookup_installer table' iname
  end.

(** [_do_library_installs(to_install)] *)
Definition _do_library_installs (to_install : list string) : M unit :=
  for_each to_install (fun iname =>
    config <-- load_yaml (iname ++ ".yaml") ;;
    installer <-- lift (lookup_installer lib_installers iname) ;;
    installer config).


(** *** Custom programs and chef recipes *)

(** [k in to_install], or true when [to_install] is [None]. *)
Definition wanted (to_install : option pyobj) (k : string) : res bool :=
  match to_install with
  | None => Ok true
  | Some l => Py.contains k l
  end.

Fixpoint select_groups (to_install : option pyobj)
    (groups : list (string * list string))
  : res (list (string * list string)) :=
  match groups with
  | [] => Ok []
  | (k, members) :: groups' =>
      res_bind (wanted to_install k) (fun keep =>
      res_bind (select_groups to_install groups') (fun rest =>
      Ok (if keep then (k, members) :: rest else rest)))
  end.

Definition flatten_groups (groups : list (string * list string))
  : list string :=
  List.concat (map snd groups).

Definition reverse_mapping (groups : list (string * list string))
  : gmap string string :=
  foldl (fun m '(k, members) => foldl (fun m p => <[p := k]> m) m members)
    ∅ groups.

(** Modelled from the spec: [_yaml_to_packages] of
    [cloudbio/package/shared.py], which is not among the sources.  Given
    the manifest of group names ([None] for every group) and the mapping
    of the group file (group name to member list), it yields the
    flattened list of the members of the selected groups, in the order
    of the file, and the reverse mapping from each member to its owning
    group. *)
Definition _yaml_to_packages (name : string) (to_install : option pyobj)
  : M (list string * gmap string string) :=
  call (EvLoadYaml name) ;;;
  match group_files w name with
  | None => raise (IOError name)
  | Some groups =>
      selected <-- lift (select_groups to_install groups) ;;
      ret (flatten_groups selected, reverse_mapping selected)
  end.

(** [[p for p in packages if ignore is None or p not in ignore]] *)
Fixpoint drop_ignored (ignore : pyobj) (packages : list string)
  : res (list string) :=
  match packages with
  | [] => Ok []
  | p :: packages' =>
      res_bind (match ignore with
                | PNone => Ok true
                | _ => res_bind (Py.contains p ignore) (fun b => Ok (negb b))
                end) (fun keep =>
      res_bind (drop_ignored ignore packages') (fun rest =>
      Ok (if keep then p :: rest else rest)))
  end.

(** [__import__] of a module under [cloudbio.custom]: its attributes, or
    [None] when the import raises [ImportError]. *)
Definition import_custom (mod_name : string) : M (option (list string)) :=
  fun h =>
    let e := EvImport ("cloudbio.custom." ++ mod_name) in
    (match fails w h e with
     | Some (ImportError _) => Ok None
     | Some x => Raise x
     | None => Ok (custom_modules w !! mod_name)
     end, [e]).

(** [pkg_to_group[p]] *)
Definition group_of (pkg_to_group : gmap string string) (p : string)
  : res string :=
  match pkg_to_group !! p with
  | Some g => Ok g
  | None => Raise (KeyError p)
  end.

Definition hyphen : ascii := ascii_of_nat 45.
Definition underscore : ascii := ascii_of_nat 95.

Definition msg_no_module (group : string) : string :=
  "Need to write a " ++ group ++ " module in custom.".
Definition msg_no_function (p group : string) : string :=
  "Need to write a install_" ++ p ++ " function in custom." ++ group.

(** [install_custom(p, automated, pkg_to_group, flavor)] *)
Definition install_custom (p : string) (automated : bool)
    (pkg_to_group : option (gmap string string)) (flavor : option string)
  : M unit :=
  call EvSetupLogging ;;;
  let p := PyStr.lower p in
  _print_time_stats (Fmt "Custom install for '{0}'" [PStr p]) "start" ;;;
  pkg_to_group <--
    (if automated then ret pkg_to_group
     else
       call (EvConfigureFabricEnvironment flavor) ;;;
       r <-- _yaml_to_packages "custom.yaml" None ;;
       ret (Some (snd r))) ;;
  log "debug" (Fmt "Import %s" [PStr p]) ;;;
  match pkg_to_group with
  | None => raise TypeError
  | Some pkg_to_group =>
      let mod_name := default p (pkg_to_group !! p) in
      imported <-- import_custom mod_name ;;
      match imported with
      | None =>
          g <-- lift (group_of pkg_to_group p) ;;
          raise (ImportError (msg_no_module g))
      | Some attributes =>
          let p := PyStr.replace hyphen underscore p in
          if bool_decide (("install_" ++ p) ∈ attributes) then
            call (EvInstall mod_name ("install_" ++ p) env) ;;;
            _print_time_stats (Fmt "Custom install for '%s'" [PStr p]) "end"
          else
            g <-- lift (group_of pkg_to_group p) ;;
            raise (ImportError (msg_no_function p g))
      end
  end.

(** The first statement of [_custom_installs]: the directory
    [env.local_install] is made when it is not there. *)
Definition ensure_local_install : M unit :=
  local_install <-- lift (env_attr env "local_install") ;;
  present <-- exists_ (env_text local_install) ;;
  when (negb present)
    (run ("mkdir -p " ++ env_text local_install) ;;; ret tt).

(** [install_custom(p, True, pkg_to_group)] on a member of what the hook
    returned: a member that is not a string has no [lower], which
    [install_custom] calls right after the logging setup. *)
Definition install_custom_item (pkg_to_group : gmap string string)
    (p : pyobj) : M unit :=
  match p with
  | PStr s => install_custom s true (Some pkg_to_group) None
  | _ => call EvSetupLogging ;;; raise AttributeError
  end.

(** [_custom_installs(to_install, ignore)] *)
Definition _custom_installs (to_install : pyobj) (ignore : pyobj) : M unit :=
  ensure_local_install ;;;
  r <-- _yaml_to_packages "custom.yaml" (Some to_install) ;;
  let '(packages, pkg_to_group) := r in
  packages <-- lift (drop_ignored ignore packages) ;;
  items <-- rewrite "custom" (names packages) ;;
  ps <-- lift (iter_items items) ;;
  for_each ps (install_custom_item pkg_to_group).

(** [os.path.join(a, b)] for a relative [b] *)
Definition os_path_join (a b : string) : string :=
  if String.eqb a "" || PyStr.endswith "/" a then a ++ b else a ++ "/" ++ b.

(** A value of [env] used as a string: only strings have the string
    methods. *)
Definition env_string (v : env_value) : res string :=
  match v with
  | EStr s | EUnicode s => Ok s
  | _ => Raise AttributeError
  end.

(** [_configure_chef(env, chef)] *)
Definition _configure_chef : M unit :=
  json <-- lift (ChefUtils.build_chef_properties (json_loads w) (files w)
                   env "node_extra.json") ;;
  chef_dir <-- lift (match env_get env "chef_dir" with
                     | Some v => env_string v
                     | None => Ok (os_path_join "config" "chef")
                     end) ;;
  omnibus <-- lift (match env_get env "use_chef_omnibus_installer" with
                    | Some v => env_string v
                    | None => Ok "false"
                    end) ;;
  record (EvChefConfigure json
            (os_path_join chef_dir "cookbooks")
            (os_path_join chef_dir "data_bags")
            (os_path_join chef_dir "roles")
            (bool_decide (PyStr.upper omnibus ∈ ["TRUE"; "YES"]))).

Definition msg_no_provision : string :=
  "Failed to import fabric-provision library, please install fabric-provision (`pip install fabric-provision`). %s".

(** [install_chef_recipe(recipe, automated, flavor)] *)
Definition install_chef_recipe (recipe : pyobj) (automated : bool)
    (flavor : option string) : M unit :=
  call EvSetupLogging ;;;
  when (negb automated) (call (EvConfigureFabricEnvironment flavor)) ;;;
  _print_time_stats (Fmt "Chef provision for recipe(s) '{0}'" [recipe]) "start" ;;;
  if provision_installed w then
    _configure_chef ;;;
    let recipes := match recipe with
                   | PList l => l
                   | _ => [recipe]
                   end in
    for_each recipes (fun recipe_to_add => call (EvChefAddRecipe recipe_to_add)) ;;;
    call EvProvision ;;;
    _print_time_stats (Fmt "Chef provision for recipe(s) '%s'" [recipe]) "end"
  else
    log "error" (Fmt msg_no_provision [PStr "ImportError"]).

(** [_provision_chef_recipes(to_install, ignore)] *)
Definition _provision_chef_recipes (to_install : pyobj) (ignore : pyobj)
  : M unit :=
  r <-- _yaml_to_packages "chef_recipes.yaml" (Some to_install) ;;
  packages <-- lift (drop_ignored ignore (fst r)) ;;
  items <-- rewrite "chef_recipes" (names packages) ;;
  recipes <-- lift (iter_items items) ;;
  when (negb (Nat.eqb (List.length recipes) 0))
    (install_chef_recipe (PList recipes) true None).

(** *** The phases *)

(** [target is None or target == phase] *)
Definition selected (target : option string) (phase : string) : bool :=
  match target with
  | None => true
  | Some t => String.eqb t phase
  end.

Definition cloud_init_deb : string := "cloud-init_0.7.1-0ubuntu4_all.deb".

(** The bodies of the six [if] blocks of [_perform_install], in the
    order of the source. *)
Definition packages_phase (target flavor : option string)
    (pkg_install : pyobj) : M unit :=
  call (EvNativePackages pkg_install) ;;;
  nixpkgs <-- lift (env_attr env "nixpkgs") ;;
  when (env_truthy nixpkgs)
    (call EvNixSources ;;; call (EvNixPackages pkg_install)) ;;;
  call (EvUpdateBiolinuxLog target flavor).

Definition post_install_phase (pkg_install : pyobj) : M unit :=
  call (EvEditionPostInstall pkg_install) ;;; call EvFlavorPostInstall.

Definition cleanup_phase : M unit :=
  call EvCleanupSpace ;;;
  is_ec2 <-- lift (match env_get env "is_ec2_image" with
                   | None => Ok false
                   | Some v =>
                       res_bind (env_string v) (fun s =>
                       Ok (bool_decide (PyStr.upper s ∈ ["TRUE"; "YES"])))
                   end) ;;
  when is_ec2
    (distribution <-- lift (env_attr env "distribution") ;;
     when (env_eq_str distribution "ubuntu")
       (sudo ("wget --output-document=" ++ cloud_init_deb ++ " "
                ++ "https://launchpad.net/ubuntu/+archive/primary/+files/"
                ++ cloud_init_deb) ;;;
        sudo ("dpkg -i " ++ cloud_init_deb) ;;;
        sudo ("rm -f " ++ cloud_init_deb)) ;;;
     call EvCleanupEc2).

(** [_perform_install(target, flavor)] *)
Definition _perform_install (target flavor : option string) : M unit :=
  config <-- _read_main_config ;;
  let '(pkg_install, lib_install, custom_ignore) := config in
  when (selected target "packages")
    (packages_phase target flavor pkg_install) ;;;
  when (selected target "custom")
    (_custom_installs pkg_install custom_ignore) ;;;
  when (selected target "chef_recipes")
    (_provision_chef_recipes pkg_install custom_ignore) ;;;
  when (selected target "libraries")
    (_do_library_installs lib_install) ;;;
  when (selected target "post_install")
    (post_install_phase pkg_install) ;;;
  when (selected target "cleanup")
    cleanup_phase.

(** *** The orchestrator as the specification words it

    The phases in their fixed order; the target selects one of them or,
    when it is [None], all; each selected phase runs once. *)
Inductive phase : Type :=
| Packages | Custom | ChefRecipes | Libraries | PostInstall | Cleanup.

Definition all_phases : list phase :=
  [Packages; Custom; ChefRecipes; Libraries; PostInstall; Cleanup].

Definition phase_name (p : phase) : string :=
  match p with
  | Packages => "packages"
  | Custom => "custom"
  | ChefRecipes => "chef_recipes"
  | Libraries => "libraries"
  | PostInstall => "post_install"
  | Cleanup => "cleanup"
  end.

Definition phases_for (target : option string) : list phase :=
  List.filter (fun p => selected target (phase_name p)) all_phases.

Definition run_phase (target flavor : option string)
    (config : pyobj * list string * pyobj) (p : phase) : M unit :=
  let '(pkg_install, lib_install, custom_ignore) := config in
  match p with
  | Packages => packages_phase target flavor pkg_install
  | Custom => _custom_installs pkg_install custom_ignore
  | ChefRecipes => _provision_chef_recipes pkg_install custom_ignore
  | Libraries => _do_library_installs lib_install
  | PostInstall => post_install_phase pkg_install
  | Cleanup => cleanup_phase
  end.

Definition orchestrate (target flavor : option string) : M unit :=
  config <-- _read_main_config ;;
  for_each (phases_for target) (run_phase target flavor config).

End Run.

End Fabfile.

(** ** A reader of JSON text

    The examples need a [json.loads] to run the parser on.  [loads] reads
    the JSON texts made of objects, arrays, strings with the one-character
    escapes, numbers and the three literals; anything else is a
    [ValueError]. *)
Module JsonReader.

Definition code (c : ascii) : nat := nat_of_ascii c.

Definition is_ws (c : ascii) : bool :=
  (code c =? 32)%nat || (code c =? 9)%nat || (code c =? 10)%nat || (code c =? 13)%nat.

Definition is_digit (c : ascii) : bool :=
  (48 <=? code c)%nat && (code c <=? 57)%nat.

Fixpoint skip_ws (s : string) : string :=
  match s with
  | String c s' => if is_ws c then skip_ws s' else s
  | EmptyString => s
  end.

(** The characters of a string literal after its opening quote. *)
Fixpoint read_string (s : string) : option (string * string) :=
  match s with
  | EmptyString => None
  | String c s' =>
      if (code c =? 34)%nat then Some (EmptyString, s')
      else if (code c =? 92)%nat then
        match s' with
        | String e s'' =>
            let unescaped :=
              if (code e =? 110)%nat then Some (ascii_of_nat 10)
              else if (code e =? 116)%nat then Some (ascii_of_nat 9)
              else if (code e =? 114)%nat then Some (ascii_of_nat 13)
              else if (code e =? 98)%nat then Some (ascii_of_nat 8)
              else if (code e =? 102)%nat then Some (ascii_of_nat 12)
              else if (code e =? 34)%nat || (code e =? 92)%nat || (code e =? 47)%nat
              then Some e
              else None in
            match unescaped, read_string s'' with
            | Some u, Some (body, r) => Some (String u body, r)
            | _, _ => None
            end
        | EmptyString => None
        end
      else
        match read_string s' with
        | Some (body, r) => Some (String c body, r)
        | None => None
        end
  end.

Fixpoint read_digits (s : string) (acc : Z) : Z * string :=
  match s with
  | String c s' =>
      if is_digit c then read_digits s' (acc * 10 + Z.of_nat (code c - 48))%Z
      else (acc, s)
  | EmptyString => (acc, s)
  end.

Definition is_float_char (c : ascii) : bool :=
  is_digit c || (code c =? 46)%nat || (code c =? 101)%nat || (code c =? 69)%nat
  || (code c =? 43)%nat || (code c =? 45)%nat.

Fixpoint read_float (s : string) : string * string :=
  match s with
  | String c s' =>
      if is_float_char c then let '(lit, r) := read_float s' in (String c lit, r)
      else (EmptyString, s)
  | EmptyString => (EmptyString, s)
  end.

Definition starts_fraction (s : string) : bool :=
  match s with
  | String c _ => (code c =? 46)%nat || (code c =? 101)%nat || (code c =? 69)%nat
  | EmptyString => false
  end.

(** A number at the head of [s], whose first character is a digit or the
    minus sign. *)
Definition read_number (s : string) : option (pyobj * string) :=
  let '(negative, body) :=
    match s with
    | String c s' => if (code c =? 45)%nat then (true, s') else (false, s)
    | EmptyString => (false, s)
    end in
  match body with
  | String d _ =>
      if is_digit d then
        let '(z, r) := read_digits body 0%Z in
        if starts_fraction r then
          let '(lit, r') := read_float s in Some (PFloat lit, r')
        else Some (PInt (if negative then - z else z)%Z, r)
      else None
  | EmptyString => None
  end.

Section Containers.
(** The reader of the values inside a container. *)
Variable read_inner : string -> option (pyobj * string).

(** The elements of an array after its opening bracket. *)
Fixpoint read_elements (fuel : nat) (s : string) (acc : list pyobj)
  : option (pyobj * string) :=
  match fuel with
  | O => None
  | S fuel' =>
      match read_inner s with
      | Some (v, r) =>
          match skip_ws r with
          | String c r' =>
              if (code c =? 44)%nat then read_elements fuel' r' (acc ++ [v])%list
              else if (code c =? 93)%nat then Some (PList (acc ++ [v])%list, r')
              else None
          | EmptyString => None
          end
      | None => None
      end
  end.

(** The members of an object after its opening brace. *)
Fixpoint read_members (fuel : nat) (s : string) (acc : gmap string pyobj)
  : option (pyobj * string) :=
  match fuel with
  | O => None
  | S fuel' =>
      match skip_ws s with
      | String q s1 =>
          if (code q =? 34)%nat then
            match read_string s1 with
            | Some (key, s2) =>
                match skip_ws s2 with
                | String colon s3 =>
                    if (code colon =? 58)%nat then
                      match read_inner s3 with
                      | Some (v, r) =>
                          match skip_ws r with
                          | String c r' =>
                              if (code c =? 44)%nat
                              then read_members fuel' r' (<[key := v]> acc)
                              else if (code c =? 125)%nat
                              then Some (PDict (<[key := v]> acc), r')
                              else None
                          | EmptyString => None
                          end
                      | None => None
                      end
                    else None
                | EmptyString => None
                end
            | None => None
            end
          else None
      | EmptyString => None
      end
  end.
End Containers.

Definition first_is (n : nat) (s : string) : bool :=
  match s with
  | String c _ => (code c =? n)%nat
  | EmptyString => false
  end.

Fixpoint read_value (fuel : nat) (s : string) : option (pyobj * string) :=
  match fuel with
  | O => None
  | S fuel' =>
      match skip_ws s with
      | EmptyString => None
      | String c r as s' =>
          if (code c =? 123)%nat then
            if first_is 125 (skip_ws r) then Some (PDict ∅, PyStr.drop 1 (skip_ws r))
            else read_members (read_value fuel') (String.length r) r ∅
          else if (code c =? 91)%nat then
            if first_is 93 (skip_ws r) then Some (PList [], PyStr.drop 1 (skip_ws r))
            else read_elements (read_value fuel') (String.length r) r []
          else if (code c =? 34)%nat then
            match read_string r with
            | Some (body, r') => Some (PStr body, r')
            | None => None
            end
          else if String.prefix "true" s' then Some (PBool true, PyStr.drop 4 s')
          else if String.prefix "false" s' then Some (PBool false, PyStr.drop 5 s')
          else if String.prefix "null" s' then Some (PNone, PyStr.drop 4 s')
          else read_number s'
      end
  end.

Definition loads (s : string) : res pyobj :=
  match read_value (String.length s) s with
  | Some (v, r) =>
      match skip_ws r with
      | EmptyString => Ok v
      | _ => Raise ValueError
      end
  | None => Raise ValueError
  end.

End JsonReader.

(** ** The property builder on a dict

    When [node_extra.json] holds an object, the loop of
    [build_chef_properties] is a fold over the environment's items. *)
Module ChefFold.
Import ChefUtils.

(** What one item does to the mapping. *)
Definition store (m : gmap string pyobj) (kv : string * env_value)
  : gmap string pyobj :=
  match m !! kv.1, isinstance_str kv.2 with
  | None, Some s => <[chef_key kv.1 := PStr s]> m
  | _, _ => m
  end.

Definition fold (m : gmap string pyobj) (env : fabric_env)
  : gmap string pyobj :=
  foldl store m env.

(** The items whose value is an instance of [str]. *)
Definition is_string_entry (kv : string * env_value) : bool :=
  match isinstance_str kv.2 with
  | Some _ => true
  | None => false
  end.

End ChefFold.

(** ** Observations on a run *)
Module Traces.
Import Fabfile.

(** No call made by [m] is a call of the rewrite hook. *)
Definition quiet {A} (m : M A) : Prop :=
  forall h, Forall (fun e => is_rewrite e = false) (snd (m h)).

(** How many times the rewrite hook is called in a list of calls. *)
Definition hook_calls (t : list event) : nat :=
  List.length (List.filter is_rewrite t).

(** The installers of the dispatch table that go through the rewrite
    hook, each with the name it gives to the hook and the key of its
    package list. *)
Definition hooked_installers : list (string * (string * string)) :=
  [ ("python-libs", ("python", "pypi"));
    ("ruby-libs", ("ruby", "gems"));
    ("perl-libs", ("perl", "cpan")) ].

(** The installers of the dispatch table that do not. *)
Definition unhooked_installers : list string :=
  [ "r-libs"; "clojure-libs"; "haskell-libs" ].

(** The text a value leaves in a command: a string as it is, any other
    value as Python's [str] writes it. *)
Definition shown (w : world) (o : pyobj) : string :=
  match o with
  | PStr s => s
  | _ => py_str w o
  end.

(** The suffix of the [gem] command: [env.ruby_version_ext], or nothing
    when the environment has none. *)
Definition ruby_ext (env : fabric_env) : string :=
  match env_get env "ruby_version_ext" with
  | Some v => env_text v
  | None => EmptyString
  end.

(** The set a query of the installed gems reports, after the calls
    [h]: the lines of the output of [gem list]. *)
Definition gems_listed (w : world) (env : fabric_env) (h : list event)
  : list string :=
  gem_lines (run_output w h ("gem" ++ ruby_ext env ++ " list --no-versions")).

(** The gem is in a set of installed gems: it is a string, and the set
    has that string. *)
Definition has_gem (installed : list string) (gem : pyobj) : Prop :=
  exists s, gem = PStr s /\ s ∈ installed.

(** The Ruby installer as the specification words it: the calls of the
    rounds over the configured gems, given the set of installed gems at
    hand and the calls made so far.  [ext] is the suffix of the [gem]
    command, [text] gives the text of a gem in a command, and [listed]
    the set a query made after the given calls reports.  A gem found in
    the set at hand is updated without a new query; a gem that is not
    found makes the installer query the set again, and the gem is then
    updated when the new set has it and installed when it has not. *)
Inductive ruby_rounds (ext : string) (text : pyobj -> string)
    (listed : list event -> list string)
  : list string -> list event -> list pyobj -> list event -> Prop :=
| rounds_done (installed : list string) (h : list event) :
    ruby_rounds ext text listed installed h [] []
| rounds_known (installed : list string) (h : list event) (gem : pyobj)
      (gems : list pyobj) (t : list event) :
    has_gem installed gem ->
    ruby_rounds ext text listed installed
      (h ++ [EvSafeSudo ("gem" ++ ext ++ " update " ++ text gem)])%list
      gems t ->
    ruby_rounds ext text listed installed h (gem :: gems)
      (EvSafeSudo ("gem" ++ ext ++ " update " ++ text gem) :: t)
| rounds_found (installed : list string) (h : list event) (gem : pyobj)
      (gems : list pyobj) (t : list event) :
    ~ has_gem installed gem ->
    has_gem (listed h) gem ->
    ruby_rounds ext text listed (listed h)
      (h ++ [EvRun ("gem" ++ ext ++ " list --no-versions");
             EvSafeSudo ("gem" ++ ext ++ " update " ++ text gem)])%list
      gems t ->
    ruby_rounds ext text listed installed h (gem :: gems)
      (EvRun ("gem" ++ ext ++ " list --no-versions")
         :: EvSafeSudo ("gem" ++ ext ++ " update " ++ text gem) :: t)
| rounds_missing (installed : list string) (h : list event) (gem : pyobj)
      (gems : list pyobj) (t : list event) :
    ~ has_gem installed gem ->
    ~ has_gem (listed h) gem ->
    ruby_rounds ext text listed (listed h)
      (h ++ [EvRun ("gem" ++ ext ++ " list --no-versions");
             EvSafeSudo ("gem" ++ ext ++ " install " ++ text gem)])%list
      gems t ->
    ruby_rounds ext text listed installed h (gem :: gems)
      (EvRun ("gem" ++ ext ++ " list --no-versions")
         :: EvSafeSudo ("gem" ++ ext ++ " install " ++ text gem) :: t).

End Traces.

(** ** Concrete inputs *)
Module Examples.
Import PyStr.

(** Python's [str] of the integers, the booleans and [None]. *)
Definition show (o : pyobj) : string :=
  match o with
  | PInt z => pretty z
  | PBool true => "True"
  | PBool false => "False"
  | PNone => "None"
  | _ => EmptyString
  end.

(** The object with [a] at 1, followed by the block comment [x], and [b] at
    2, followed by the line comment [y] and a line feed. *)
Definition commented_json : string :=
  "{" ++ quoted "a" ++ ": 1 /* x */, " ++ quoted "b" ++ ": 2 // y" ++ nl ++ "}".

Definition clean_json : string :=
  "{" ++ quoted "a" ++ ": 1, " ++ quoted "b" ++ ": 2" ++ nl ++ "}".

(** A block comment over three lines, between two members. *)
Definition multiline_json : string :=
  "{" ++ quoted "a" ++ ": 1, /* first" ++ nl ++ "  second * / " ++ nl
    ++ "  third */" ++ nl ++ quoted "b" ++ ": 2}".

Definition multiline_clean : string :=
  "{" ++ quoted "a" ++ ": 1," ++ nl ++ quoted "b" ++ ": 2}".

(** A string literal that holds two slashes. *)
Definition url_json : string :=
  "{" ++ quoted "url" ++ ": " ++ quoted "http://host/path" ++ "}".

Definition url_stripped : string :=
  "{" ++ quoted "url" ++ ": " ++ dquote ++ "http:".

Definition one_file (content : string) : string -> option string :=
  fun _ => Some content.

(** A [node_extra.json] with the key [foo], and an environment with the
    entries [foo] and [chef_foo]. *)
Definition foo_json : string := "{" ++ quoted "foo" ++ ": 1}".
Definition chef_foo_env : fabric_env :=
  [("foo", EStr "x"); ("chef_foo", EStr "bar")].

(** An environment with a string entry, a prefixed one and a flag. *)
Definition small_env : fabric_env :=
  [("user", EStr "ubuntu"); ("use_sudo", EBool true);
   ("chef_apache_dir", EStr "/opt/apache")].
Definition port_json : string := "{" ++ quoted "port" ++ ": 80}".

(** Deployer options that ask for the image of the snapshot manifest
    under [/bucket]. *)
Definition snaps_options : pyobj :=
  PDict {[ "cloudman" :=
             PDict {[ "image_id" := PStr "__USE_SNAPS__";
                      "bucket_source" := PStr "/bucket";
                      "size_id" := PStr "m1.large" ]} ]}.

Definition deployment_of (mi : string) : pyobj :=
  PDict {[ "default_mi" := PStr mi ]}.
Definition region_of (deployments : list pyobj) : pyobj :=
  PDict {[ "deployments" := PList deployments ]}.
Definition cloud_of (regions : list pyobj) : pyobj :=
  PDict {[ "regions" := PList regions ]}.
Definition snaps_of (clouds : list pyobj) : pyobj :=
  PDict {[ "clouds" := PList clouds ]}.

(** A manifest with one cloud, one region and one deployment, and one
    with two clouds. *)
Definition snaps_single : pyobj :=
  snaps_of [cloud_of [region_of [deployment_of "ami-1"]]].
Definition snaps_two_clouds : pyobj :=
  snaps_of [cloud_of [region_of [deployment_of "ami-1"]];
            cloud_of [region_of [deployment_of "ami-2"]]].

Definition snaps_at (snaps : pyobj) : string -> option pyobj :=
  fun path => if String.eqb path "/bucket/snaps.yaml" then Some snaps else None.

Definition plain_template : fabric_env -> pyobj -> res pyobj :=
  fun _ o => Ok o.
Definition no_dump : pyobj -> string := fun _ => "user-data".
Definition some_launcher : Cloudman.vm_launcher :=
  {| Cloudman.access_id := PStr "id"; Cloudman.secret_key := PStr "key" |}.

(** A world in which every call returns, the hook changes nothing, and
    there is one YAML file. *)
Definition world_with_yaml (name : string) (data : pyobj) : Fabfile.world :=
  {| Fabfile.fails := fun _ _ => None;
     Fabfile.run_output := fun _ _ => "";
     Fabfile.path_exists := fun _ _ => true;
     Fabfile.rewrite_config_items := fun _ items => items;
     Fabfile.yaml_files :=
       fun n => if String.eqb n name then Some data else None;
     Fabfile.group_files := fun _ => None;
     Fabfile.custom_modules := ∅;
     Fabfile.provision_installed := false;
     Fabfile.json_loads := JsonReader.loads;
     Fabfile.files := fun _ => None;
     Fabfile.pip_cmd := "pip";
     Fabfile.tmp_dir := "/tmp/cbl";
     Fabfile.py_str := show |}.

(** A [main.yaml] without the key [packages]; one whose [packages] and
    [libraries] are null; one whose [custom_ignore] is null. *)
Definition main_no_packages : pyobj :=
  PDict {[ "libraries" := Fabfile.names ["python-libs"] ]}.
Definition main_nulls : pyobj :=
  PDict {[ "packages" := PNone; "libraries" := PNone ]}.
Definition main_null_ignore : pyobj :=
  PDict {[ "packages" := Fabfile.names ["minimal"];
           "libraries" := Fabfile.names ["ruby-libs"; "python-libs"];
           "custom_ignore" := PNone ]}.

(** Library configurations. *)
Definition clojure_config : pyobj :=
  PDict {[ "cljr" := Fabfile.names ["incanter"] ]}.
Definition python_config : pyobj :=
  PDict {[ "pypi" := Fabfile.names ["numpy"; "biopython"] ]}.
Definition ruby_config : pyobj :=
  PDict {[ "gems" := Fabfile.names ["rake"; "bio"; "rake"] ]}.

(** The gems a run has installed so far. *)
Fixpoint gems_installed (h : list Fabfile.event) : list string :=
  match h with
  | [] => []
  | Fabfile.EvSafeSudo cmd :: h' =>
      if String.prefix "gem install " cmd
      then PyStr.drop (String.length "gem install ") cmd :: gems_installed h'
      else gems_installed h'
  | _ :: h' => gems_installed h'
  end.

(** A host that starts with the gem [rake] and on which [gem install]
    adds a gem; [gem list] prints one gem a line. *)
Definition gem_world : Fabfile.world :=
  {| Fabfile.fails := fun _ _ => None;
     Fabfile.run_output :=
       fun h cmd =>
         if String.eqb cmd "gem list --no-versions"
         then PyStr.join PyStr.nl ("rake" :: gems_installed h)
         else "";
     Fabfile.path_exists := fun _ _ => true;
     Fabfile.rewrite_config_items := fun _ items => items;
     Fabfile.yaml_files :=
       fun n => if String.eqb n "ruby-libs.yaml" then Some ruby_config else None;
     Fabfile.group_files := fun _ => None;
     Fabfile.custom_modules := ∅;
     Fabfile.provision_installed := false;
     Fabfile.json_loads := JsonReader.loads;
     Fabfile.files := fun _ => None;
     Fabfile.pip_cmd := "pip";
     Fabfile.tmp_dir := "/tmp/cbl";
     Fabfile.py_str := show |}.

Definition python_env : fabric_env := [("python_version_ext", EStr "")].

(** A [custom.yaml] with two groups, and the modules of [cloudbio.custom]
    that go with them. *)
Definition custom_groups : list (string * list string) :=
  [ ("bio_general", ["emboss"; "bwa"; "samtools-dev"]);
    ("cloudman", ["cloudman"]) ].

Definition custom_world : Fabfile.world :=
  {| Fabfile.fails := fun _ _ => None;
     Fabfile.run_output := fun _ _ => "";
     Fabfile.path_exists := fun _ _ => true;
     Fabfile.rewrite_config_items := fun _ items => items;
     Fabfile.yaml_files := fun _ => None;
     Fabfile.group_files :=
       fun n => if String.eqb n "custom.yaml" then Some custom_groups else None;
     Fabfile.custom_modules :=
       {[ "bio_general" := ["install_emboss"; "install_bwa"; "install_samtools_dev"];
          "cloudman" := ["install_cloudman"];
          "galaxy" := ["install_galaxy"] ]};
     Fabfile.provision_installed := false;
     Fabfile.json_loads := JsonReader.loads;
     Fabfile.files := fun _ => None;
     Fabfile.pip_cmd := "pip";
     Fabfile.tmp_dir := "/tmp/cbl";
     Fabfile.py_str := show |}.

Definition custom_env : fabric_env := [("local_install", EStr "/opt/install")].

(** The same world without any module under [cloudbio.custom], and one
    whose module [bio_general] lacks the entry function of
    [samtools-dev]. *)
Definition world_with_modules (modules : gmap string (list string))
  : Fabfile.world :=
  {| Fabfile.fails := fun _ _ => None;
     Fabfile.run_output := fun _ _ => "";
     Fabfile.path_exists := fun _ _ => true;
     Fabfile.rewrite_config_items := fun _ items => items;
     Fabfile.yaml_files := fun _ => None;
     Fabfile.group_files :=
       fun n => if String.eqb n "custom.yaml" then Some custom_groups else None;
     Fabfile.custom_modules := modules;
     Fabfile.provision_installed := false;
     Fabfile.json_loads := JsonReader.loads;
     Fabfile.files := fun _ => None;
     Fabfile.pip_cmd := "pip";
     Fabfile.tmp_dir := "/tmp/cbl";
     Fabfile.py_str := show |}.

Definition no_modules_world : Fabfile.world := world_with_modules ∅.

Definition partial_module_world : Fabfile.world :=
  world_with_modules {[ "bio_general" := ["install_emboss"; "install_bwa"] ]}.


(** A world with a [main.yaml] that names one package group and the
    Clojure libraries, and with the configuration of those. *)
Definition main_config : pyobj :=
  PDict {[ "packages" := Fabfile.names ["minimal"];
           "libraries" := Fabfile.names ["clojure-libs"] ]}.

Definition libraries_world : Fabfile.world :=
  {| Fabfile.fails := fun _ _ => None;
     Fabfile.run_output := fun _ _ => "";
     Fabfile.path_exists := fun _ _ => true;
     Fabfile.rewrite_config_items := fun _ items => items;
     Fabfile.yaml_files :=
       fun n => if String.eqb n "main.yaml" then Some main_config
                else if String.eqb n "clojure-libs.yaml" then Some clojure_config
                else None;
     Fabfile.group_files := fun _ => Some [];
     Fabfile.custom_modules := ∅;
     Fabfile.provision_installed := false;
     Fabfile.json_loads := JsonReader.loads;
     Fabfile.files := fun _ => None;
     Fabfile.pip_cmd := "pip";
     Fabfile.tmp_dir := "/tmp/cbl";
     Fabfile.py_str := show |}.

Definition plain_env : fabric_env :=
  [("nixpkgs", EBool false); ("local_install", EStr "/opt/install")].

Definition main_log : Fabfile.event :=
  Fabfile.EvLog "info"
    (Fabfile.Fmt
       ("Meta-package information from {2}" ++ nl
          ++ "- Packages: {0}" ++ nl ++ "- Libraries: {1}")
       [PStr "minimal"; PStr "clojure-libs"; PStr "main.yaml"]).

End Examples.

(** ** Kinds of calls *)
Module Calls.
Import Fabfile.

(** No call made by [m] is of the kind [P]. *)
Definition avoids {A} (P : event -> bool) (m : M A) : Prop :=
  forall h, Forall (fun e => P e = false) (snd (m h)).

Definition is_sudo (e : event) : bool :=
  match e with
  | EvSudo _ => true
  | _ => false
  end.

Definition is_safe_sudo (e : event) : bool :=
  match e with
  | EvSafeSudo _ => true
  | _ => false
  end.

Definition is_run (e : event) : bool :=
  match e with
  | EvRun _ => true
  | _ => false
  end.

(** A step of the preparation of an EC2 image. *)
Definition is_ec2_step (e : event) : bool :=
  match e with
  | EvSudo _ | EvCleanupEc2 => true
  | _ => false
  end.

(** [env.is_ec2_image] is set to a string that reads [true] or [yes], in
    any case of the letters. *)
Definition ec2_image (env : fabric_env) : Prop :=
  exists v s,
    env_get env "is_ec2_image" = Some v
    /\ env_string v = Ok s
    /\ PyStr.upper s ∈ ["TRUE"; "YES"].

(** [env.distribution] is [ubuntu]. *)
Definition ubuntu (env : fabric_env) : Prop :=
  exists d, env_get env "distribution" = Some d /\ env_eq_str d "ubuntu" = true.

(** The line [_print_time_stats] gives to the logger. *)
Definition time_stats (action : text) (moment : string) : event :=
  EvLog "info" (Fmt "{0} {1} time: {2}"
                  [PStr (template action); PList (args action); PStr moment]).

(** [recipe if isinstance(recipe, list) else [recipe]] *)
Definition recipe_list (recipe : pyobj) : list pyobj :=
  match recipe with
  | PList l => l
  | _ => [recipe]
  end.

(** The character of code [n] occurs in [s]. *)
Fixpoint has_char (n : nat) (s : string) : bool :=
  match s with
  | EmptyString => false
  | String c s' => (nat_of_ascii c =? n)%nat || has_char n s'
  end.

(** The carriage return character. *)
Definition cr : string := String (ascii_of_nat 13) EmptyString.

(** A line that [_cur_gems] keeps as it is: not empty, without a line
    feed, and without a carriage return at its end. *)
Definition plain_line (s : string) : Prop :=
  s <> EmptyString /\ has_char 10 s = false /\ rstrip_cr s = s.

(** The install functions called in a list of calls, each with its
    module. *)
Definition install_calls (t : list event) : list (string * string) :=
  omap (fun e => match e with
                 | EvInstall module fn _ => Some (module, fn)
                 | _ => None
                 end) t.

(** The packages as [_r_library_installer] writes them into its script:
    each between double quotes, joined by a comma and a space. *)
Definition quoted_list (w : world) (pkgs : list pyobj) : pyobj :=
  PStr (PyStr.join ", "
          (map (fun p => PyStr.dquote ++ Traces.shown w p ++ PyStr.dquote)
             pkgs)).

(** The command that updates or installs a gem, given to [safe_sudo]. *)
Definition gem_command (w : world) (env : fabric_env) (gem : pyobj)
    (e : event) : Prop :=
  e = EvSafeSudo ("gem" ++ Traces.ruby_ext env ++ " update "
                    ++ Traces.shown w gem)
  \/ e = EvSafeSudo ("gem" ++ Traces.ruby_ext env ++ " install "
                       ++ Traces.shown w gem).

(** The query of the installed gems. *)
Definition gem_query (env : fabric_env) : event :=
  EvRun ("gem" ++ Traces.ruby_ext env ++ " list --no-versions").

(** The argument of [--root-cmd] that [_haskell_library_installer] gives
    to [cabal]. *)
Definition cabal_sudo (env : fabric_env) : string :=
  match env_get env "use_sudo" with
  | Some v => if env_truthy v then "--root-cmd=sudo" else ""
  | None => ""
  end.

(** A call that loads the environment, reads a configuration file or
    reaches the machine. *)
Definition is_setup_or_remote (e : event) : bool :=
  match e with
  | EvConfigureFabricEnvironment _ | EvLoadYaml _ => true
  | _ => is_remote e
  end.

(** A call that sets up or runs the Chef provisioner. *)
Definition is_chef (e : event) : bool :=
  match e with
  | EvChefConfigure _ _ _ _ _ | EvChefAddRecipe _ | EvProvision => true
  | _ => false
  end.

(** A call that installs or configures something: anything but logging,
    reading a configuration file and the hook. *)
Definition is_install (e : event) : bool :=
  match e with
  | EvLoadYaml _ | EvRewrite _ _ | EvLog _ _ | EvSetupLogging => false
  | _ => true
  end.

(** The names of the dispatch table. *)
Definition installer_names : list string :=
  [ "r-libs"; "python-libs"; "ruby-libs"; "perl-libs"; "clojure-libs";
    "haskell-libs" ].

End Calls.

(** ** [bundle_cloudman] of [cloudbio/deploy/cloudman.py] *)
Module Bundle.

(** What [bundle_cloudman] does on the local machine: [mkdtemp], and
    fabric's [local] with the directory that [lcd] has set, which is the
    empty string outside of [lcd]. *)
Inductive action : Type :=
| Mkdtemp
| Local (cwd : string) (cmd : string).

(** The local machine: whether an action raises, given the actions so
    far; the directory [mkdtemp] returns; and Python's [%] on a template
    and the values given to it. *)
Record machine : Type := {
  raises : list action -> action -> option exn;
  temp_directory : string;
  format : string -> list pyobj -> res string
}.

Definition L (A : Type) : Type := list action -> res A * list action.

Definition lret {A} (a : A) : L A := fun _ => (Ok a, []).

Definition llift {A} (r : res A) : L A := fun _ => (r, []).

Definition lbind {A B} (m : L A) (f : A -> L B) : L B :=
  fun h =>
    match m h with
    | (Ok a, t) => let '(r, t') := f a (h ++ t)%list in (r, (t ++ t')%list)
    | (Raise e, t) => (Raise e, t)
    end.

Notation "x <~~ m ;; k" := (lbind m (fun x => k))
  (at level 100, m at next level, right associativity).
Notation "m ~~> k" := (lbind m (fun _ => k))
  (at level 100, right associativity).

(** [try: body finally: cleanup] *)
Definition lfinally {A} (body : L A) (cleanup : L unit) : L A :=
  fun h =>
    let '(r, t) := body h in
    match cleanup (h ++ t)%list with
    | (Ok _, t') => (r, (t ++ t')%list)
    | (Raise e, t') => (Raise e, (t ++ t')%list)
    end.

Section Machine.
Variable w : machine.

Definition perform (a : action) : L unit :=
  fun h =>
    (match raises w h a with
     | Some x => Raise x
     | None => Ok tt
     end, [a]).

(** A value used through the string methods [startswith] and
    [endswith]. *)
Definition as_string (o : pyobj) : res string :=
  match o with
  | PStr s => Ok s
  | _ => Raise AttributeError
  end.

Definition tar_cmd : string := "tar czvf cm.tar.gz *".
Definition rm_archive_cmd : string := "rm -f cm.tar.gz".

(** The template of the clone command for a repository that is not a
    local path. *)
Definition clone_command (cloudman_options : pyobj) (repository : string)
  : res string :=
  if PyStr.endswith ".git" repository then
    res_bind (Py.get cloudman_options "repository_branch" PNone)
      (fun repository_branch =>
    res_bind (if Py.truthy repository_branch
              then format w "-b '%s'" [repository_branch]
              else Ok "") (fun branch_opts =>
    Ok ("git clone " ++ branch_opts ++ " '%s' '%s'")))
  else Ok "hg clone '%s' '%s'".

(** The statements of [bundle_cloudman] before its [try]: the directory
    to archive, and whether it is a clone to delete. *)
Definition fetch_repository (cloudman_options : pyobj) (repository : string)
  : L (string * bool) :=
  if PyStr.startswith "http" repository then
    perform Mkdtemp ~~>
    template <~~ llift (clone_command cloudman_options repository) ;;
    cmd <~~ llift (format w template
                     [PStr repository; PStr (temp_directory w)]) ;;
    perform (Local "" cmd) ~~>
    lret (temp_directory w, true)
  else lret (repository, false).

(** [bundle_cloudman(options)] *)
Definition bundle_cloudman (options : pyobj) : L unit :=
  cloudman_options <~~ llift (Py.get options "cloudman" PNone) ;;
  cloudman_repository <~~
    llift (Py.getitem cloudman_options "cloudman_repository") ;;
  bucket_source <~~ llift (Py.get cloudman_options "bucket_source" PNone) ;;
  repository <~~ llift (as_string cloudman_repository) ;;
  fetched <~~ fetch_repository cloudman_options repository ;;
  let '(cloudman_repository_path, delete_repository) := fetched in
  lfinally
    (lfinally
       (perform (Local cloudman_repository_path tar_cmd) ~~>
        cmd <~~ llift (format w "mv cm.tar.gz '%s'" [bucket_source]) ;;
        perform (Local cloudman_repository_path cmd))
       (perform (Local cloudman_repository_path rm_archive_cmd)))
    (if delete_repository then
       cmd <~~ llift (format w "rm -rf '%s'" [PStr cloudman_repository_path]) ;;
       perform (Local "" cmd)
     else lret tt).

End Machine.

End Bundle.

(** ** The entry points of [fabfile.py] *)
Module Entry.
Import Fabfile.

(** [_check_fabric_version] raises [NotImplementedError]; the entry points
    raise that or what the rest raises. *)
Inductive entry_exn : Type :=
| Std (e : exn)
| NotImplementedError (msg : string).

Inductive eres (A : Type) : Type :=
| EOk (a : A)
| ERaise (e : entry_exn).
Arguments EOk {A} a.
Arguments ERaise {A} e.

Definition E (A : Type) : Type := list event -> eres A * list event.

Definition elift {A} (m : M A) : E A :=
  fun h =>
    match m h with
    | (Ok a, t) => (EOk a, t)
    | (Raise e, t) => (ERaise (Std e), t)
    end.

Definition epure {A} (r : eres A) : E A := fun _ => (r, []).

Definition ebind {A B} (m : E A) (f : A -> E B) : E B :=
  fun h =>
    match m h with
    | (EOk a, t) => let '(r, t') := f a (h ++ t)%list in (r, (t ++ t')%list)
    | (ERaise e, t) => (ERaise e, t)
    end.

Notation "m >>> k" := (ebind m (fun _ => k))
  (at level 100, right associativity).

(** White space, as [int] skips it around a numeral. *)
Definition is_space (c : ascii) : bool :=
  let n := nat_of_ascii c in
  (n =? 32)%nat || ((9 <=? n)%nat && (n <=? 13)%nat).

Definition is_digit (c : ascii) : bool :=
  let n := nat_of_ascii c in (48 <=? n)%nat && (n <=? 57)%nat.

Fixpoint lstrip (s : string) : string :=
  match s with
  | String c s' => if is_space c then lstrip s' else s
  | EmptyString => s
  end.

Fixpoint rstrip (s : string) : string :=
  match s with
  | EmptyString => EmptyString
  | String c s' =>
      match rstrip s' with
      | EmptyString => if is_space c then EmptyString else String c EmptyString
      | r => String c r
      end
  end.

Fixpoint digits_value (s : string) (acc : Z) : option Z :=
  match s with
  | EmptyString => Some acc
  | String c s' =>
      if is_digit c
      then digits_value s' (acc * 10 + Z.of_nat (nat_of_ascii c - 48))%Z
      else None
  end.

(** [int(s)] for a string: white space, a sign if any, digits, white
    space; [None] stands for [ValueError]. *)
Definition py_int (s : string) : option Z :=
  match lstrip (rstrip s) with
  | EmptyString => None
  | String c body as numeral =>
      if (nat_of_ascii c =? 45)%nat then
        match body with
        | EmptyString => None
        | _ => option_map Z.opp (digits_value body 0%Z)
        end
      else if (nat_of_ascii c =? 43)%nat then
        match body with
        | EmptyString => None
        | _ => digits_value body 0%Z
        end
      else digits_value numeral 0%Z
  end.

(** [version.split(".")[0]]: what stands before the first dot. *)
Fixpoint major_component (version : string) : string :=
  match version with
  | EmptyString => EmptyString
  | String c version' =>
      if (nat_of_ascii c =? 46)%nat then EmptyString
      else String c (major_component version')
  end.

Definition msg_old_fabric : string :=
  "Please install fabric version 1 or higher".

(** [_check_fabric_version()] *)
Definition _check_fabric_version (env : fabric_env) : eres unit :=
  match env_attr env "version" with
  | Raise e => ERaise (Std e)
  | Ok v =>
      match env_string v with
      | Raise e => ERaise (Std e)
      | Ok version =>
          match py_int (major_component version) with
          | None => ERaise (Std ValueError)
          | Some major =>
              if (major <? 1)%Z then ERaise (NotImplementedError msg_old_fabric)
              else EOk tt
          end
      end
  end.

(** [None] or a string, as a value given to a format. *)
Definition optional (o : option string) : pyobj :=
  match o with
  | Some s => PStr s
  | None => PNone
  end.

Section Entries.
Variable w : world.
(** The environment as [_configure_fabric_environment(env, flavor)]
    leaves it. *)
Variable configure : fabric_env -> option string -> fabric_env.
Variable env : fabric_env.

(** [install_biolinux(target, flavor)] *)
Definition install_biolinux (target flavor : option string) : E unit :=
  elift (call w EvSetupLogging) >>>
  elift (_print_time_stats (Fmt "Config" []) "start") >>>
  epure (_check_fabric_version env) >>>
  elift (call w (EvConfigureFabricEnvironment flavor)) >>>
  elift (log "debug" (Fmt "Target is '%s'" [optional target])) >>>
  elift (_perform_install w (configure env flavor) target flavor) >>>
  elift (_print_time_stats (Fmt "Config" []) "end").

(** [install_libraries(language)] *)
Definition install_libraries (language : string) : E unit :=
  elift (call w EvSetupLogging) >>>
  epure (_check_fabric_version env) >>>
  elift (call w (EvConfigureFabricEnvironment None)) >>>
  elift (_do_library_installs w (configure env None) [language ++ "-libs"]).

End Entries.

End Entry.

(** ** Further inputs *)
Module MoreExamples.
Import PyStr Examples.

(** An environment with two string entries, and the same in the other
    order. *)
Definition two_entries : fabric_env :=
  [("user", EStr "ubuntu"); ("chef_apache_dir", EStr "/opt/apache")].
Definition two_entries_swapped : fabric_env :=
  [("chef_apache_dir", EStr "/opt/apache"); ("user", EStr "ubuntu")].

(** A reader that finds a list in every file. *)
Definition list_reader : string -> res pyobj :=
  fun _ => Ok (PList [PStr "user"; PInt 3]).

(** Deployer options that name an image, with a password of their own. *)
Definition plain_cloudman : gmap string pyobj :=
  {[ "image_id" := PStr "ami-7"; "size_id" := PStr "m1.large";
     "password" := PStr "secret" ]}.
Definition plain_options : gmap string pyobj :=
  {[ "cloudman" := PDict plain_cloudman ]}.

(** A world in which every call returns, with the [provision] library
    and a [node_extra.json]. *)
Definition chef_world : Fabfile.world :=
  {| Fabfile.fails := fun _ _ => None;
     Fabfile.run_output := fun _ _ => "";
     Fabfile.path_exists := fun _ _ => false;
     Fabfile.rewrite_config_items := fun _ items => items;
     Fabfile.yaml_files := fun _ => None;
     Fabfile.group_files := fun _ => None;
     Fabfile.custom_modules := ∅;
     Fabfile.provision_installed := true;
     Fabfile.json_loads := JsonReader.loads;
     Fabfile.files := one_file port_json;
     Fabfile.pip_cmd := "pip";
     Fabfile.tmp_dir := "/tmp/cbl";
     Fabfile.py_str := show |}.

(** The world of [custom_world] with a flavor whose hook adds [bwa] to
    every list. *)
Definition adding_hook (name : string) (items : pyobj) : pyobj :=
  match items with
  | PList l => PList (l ++ [PStr "bwa"])
  | _ => items
  end.

Definition hooked_world : Fabfile.world :=
  {| Fabfile.fails := fun _ _ => None;
     Fabfile.run_output := fun _ _ => "";
     Fabfile.path_exists := fun _ _ => true;
     Fabfile.rewrite_config_items := adding_hook;
     Fabfile.yaml_files := fun _ => None;
     Fabfile.group_files :=
       fun n => if String.eqb n "custom.yaml" then Some custom_groups else None;
     Fabfile.custom_modules :=
       {[ "bio_general" := ["install_emboss"; "install_bwa"; "install_samtools_dev"];
          "cloudman" := ["install_cloudman"] ]};
     Fabfile.provision_installed := false;
     Fabfile.json_loads := JsonReader.loads;
     Fabfile.files := fun _ => None;
     Fabfile.pip_cmd := "pip";
     Fabfile.tmp_dir := "/tmp/cbl";
     Fabfile.py_str := show |}.

(** Library configurations with members that are not strings. *)
Definition mixed_clojure_config : pyobj :=
  PDict {[ "cljr" := PList [PStr "incanter"; PInt 5] ]}.
Definition mixed_r_config : pyobj :=
  PDict {[ "cranrepo" := PStr "http://cran";
           "biocrepo" := PStr "http://bioc";
           "cran" := PList [PStr "ggplot2"; PInt 7];
           "bioc" := PList [PStr "limma"] ]}.
Definition mixed_ruby_config : pyobj :=
  PDict {[ "gems" := PList [PStr "rake"; PInt 3] ]}.

Definition haskell_config : pyobj :=
  PDict {[ "cabal" := Fabfile.names ["pandoc"; "hlint"] ]}.
Definition sudo_env : fabric_env := [("use_sudo", EBool true)].

(** A [main.yaml] that lists the libraries out of order. *)
Definition main_unsorted : gmap string pyobj :=
  {[ "packages" := Fabfile.names ["minimal"];
     "libraries" := Fabfile.names ["ruby-libs"; "python-libs"] ]}.

(** Environments of an old and of a current fabric. *)
Definition old_fabric : fabric_env := [("version", EStr "0.9.3")].
Definition current_fabric : fabric_env := [("version", EStr "1.4.3")].
Definition keep_env : fabric_env -> option string -> fabric_env :=
  fun env _ => env.

(** Python's [%] for templates that hold only [%s], on strings. *)
Fixpoint percent (template : string) (values : list pyobj) : res string :=
  match template with
  | EmptyString =>
      match values with
      | [] => Ok EmptyString
      | _ :: _ => Raise TypeError
      end
  | String c rest =>
      if (nat_of_ascii c =? 37)%nat then
        match rest with
        | String c' rest' =>
            if (nat_of_ascii c' =? 115)%nat then
              match values with
              | PStr v :: values' =>
                  res_bind (percent rest' values') (fun r => Ok (v ++ r))
              | _ => Raise TypeError
              end
            else Raise ValueError
        | EmptyString => Raise ValueError
        end
      else res_bind (percent rest values) (fun r => Ok (String c r))
  end.

(** A machine on which every command succeeds, and one on which [git]
    cannot clone. *)
Definition quiet_machine : Bundle.machine :=
  {| Bundle.raises := fun _ _ => None;
     Bundle.temp_directory := "/tmp/cm";
     Bundle.format := percent |}.

Definition offline_machine : Bundle.machine :=
  {| Bundle.raises :=
       fun _ a =>
         match a with
         | Bundle.Local _ cmd =>
             if String.prefix "git clone" cmd
             then Some (Exception "git clone failed") else None
         | Bundle.Mkdtemp => None
         end;
     Bundle.temp_directory := "/tmp/cm";
     Bundle.format := percent |}.

Definition local_bundle : pyobj :=
  PDict {[ "cloudman" :=
             PDict {[ "cloudman_repository" := PStr "/src/cloudman";
                      "bucket_source" := PStr "/bucket" ]} ]}.

Definition remote_cloudman : pyobj :=
  PDict {[ "cloudman_repository" := PStr "http://host/cloudman.git";
           "bucket_source" := PStr "/bucket" ]}.
Definition remote_bundle : pyobj :=
  PDict {[ "cloudman" := remote_cloudman ]}.

End MoreExamples.

(** * Properties *)

(** ** Strings *)
Section StringFacts.

Lemma append_cons (c : ascii) (s t : string) :
  String c s ++ t = String c (s ++ t).
Proof. reflexivity. Qed.

Lemma append_empty_l (t : string) : EmptyString ++ t = t.
Proof. reflexivity. Qed.

Lemma length_append (s t : string) :
  String.length (s ++ t) = (String.length s + String.length t)%nat.
Proof.
  induction s as [|c s IH]; [reflexivity|].
  rewrite append_cons. simpl. now rewrite IH.
Qed.

Lemma length_take (n : nat) (s : string) :
  (n <= String.length s)%nat -> String.length (PyStr.take n s) = n.
Proof.
  revert s. induction n as [|n IH]; intros [|c s] H; simpl in *; try lia.
  rewrite IH; lia.
Qed.

Lemma length_drop (n : nat) (s : string) :
  String.length (PyStr.drop n s) = (String.length s - n)%nat.
Proof.
  revert s. induction n as [|n IH]; intros [|c s]; simpl; try lia.
  apply IH.
Qed.

End StringFacts.

(** ** The comment pattern and the parser *)
Section CommentFacts.
Import ChefUtils.

Lemma greedy_length (p : ascii -> bool) (s : string) :
  String.length s = (fst (greedy p s) + String.length (snd (greedy p s)))%nat.
Proof.
  induction s as [|c s IH]; simpl; [reflexivity|].
  destruct (p c); [|reflexivity].
  destruct (greedy p s) as [n r]. simpl in *. lia.
Qed.

Lemma lazy_until_close_length (s : string) (n : nat) (r : string) :
  lazy_until_close s = Some (n, r) ->
  String.length s = (n + 2 + String.length r)%nat.
Proof.
  revert n r. induction s as [|c s IH]; intros n r H; simpl in H; [discriminate|].
  destruct s as [|d s']; [discriminate|].
  destruct (is_star c && is_slash d).
  - inversion H; subst. reflexivity.
  - destruct (lazy_until_close (String d s')) as [[n' r']|]; [|discriminate].
    inversion H; subst. specialize (IH n' r eq_refl).
    change (String.length (String c (String d s')))
      with (S (String.length (String d s'))).
    rewrite IH. lia.
Qed.

(** A match takes at least two characters, and stays inside the text. *)
Lemma match_here_bounds (s : string) (n : nat) :
  match_here s = Some n -> (2 <= n <= String.length s)%nat.
Proof.
  unfold match_here. intros H.
  pose proof (greedy_length hspace s) as Hg.
  destruct (greedy hspace s) as [n1 r1]. simpl in Hg.
  destruct r1 as [|c1 [|c2 r2]]; try discriminate.
  destruct (is_slash c1); [|discriminate].
  destruct (is_star c2).
  - destruct (lazy_until_close r2) as [[n2 r3]|] eqn:Hl; [|discriminate].
    apply lazy_until_close_length in Hl.
    pose proof (greedy_length hspace r3) as Hg3.
    destruct (greedy hspace r3) as [n3 r4]. simpl in Hg3.
    inversion H; subst. simpl in Hg. lia.
  - destruct (is_slash c2); [|discriminate].
    pose proof (greedy_length not_newline r2) as Hg2.
    destruct (greedy not_newline r2) as [n2 r3]. simpl in Hg2.
    inversion H; subst. simpl in Hg. lia.
Qed.

Lemma search_from_bounds (s : string) (i st en : nat) :
  search_from i s = Some (st, en) ->
  (i <= st /\ st + 2 <= en /\ en <= i + String.length s)%nat.
Proof.
  revert i. induction s as [|c s IH]; intros i H; simpl in H.
  - destruct (match_here EmptyString) as [n|] eqn:Hm; [|discriminate].
    apply match_here_bounds in Hm. simpl in Hm. lia.
  - destruct (match_here (String c s)) as [n|] eqn:Hm.
    + apply match_here_bounds in Hm. inversion H; subst. simpl in *. lia.
    + apply IH in H. simpl. lia.
Qed.

(** Removing a match makes the text shorter. *)
Lemma search_shrinks (content : string) (st en : nat) :
  search content = Some (st, en) ->
  (String.length (PyStr.take st content ++ PyStr.drop en content)
     < String.length content)%nat.
Proof.
  intros H. apply search_from_bounds in H.
  rewrite length_append, length_take, length_drop; lia.
Qed.

Lemma strip_loop_done (fuel : nat) (content : string) :
  (String.length content <= fuel)%nat ->
  search (strip_loop fuel content) = None.
Proof.
  revert content. induction fuel as [|fuel IH]; intros content H; simpl.
  - destruct content; [reflexivity | simpl in H; lia].
  - destruct (search content) as [[st en]|] eqn:Hs; [|exact Hs].
    apply IH. apply search_shrinks in Hs. lia.
Qed.

(** The loop of [_parse_json] has ended when [strip_comments] returns: the
    pattern matches nowhere in the result. *)
Lemma strip_comments_done (content : string) :
  search (strip_comments content) = None.
Proof. apply strip_loop_done. lia. Qed.

Lemma lazy_until_close_finds (body rest : string) :
  lazy_until_close (body ++ "*/" ++ rest) <> None.
Proof.
  induction body as [|c body IH]; [discriminate|].
  rewrite append_cons. simpl.
  destruct (body ++ "*/" ++ rest) as [|d s'] eqn:E.
  - destruct body; discriminate.
  - destruct (is_star c && is_slash d); [discriminate|].
    destruct (lazy_until_close (String d s')) as [[n r]|]; [discriminate|].
    now contradiction IH.
Qed.

Lemma search_from_here (s : string) (i : nat) :
  match_here s <> None -> search_from i s <> None.
Proof.
  intros H. destruct (match_here s) as [n|] eqn:E; [|congruence].
  destruct s; cbn [search_from]; rewrite E; discriminate.
Qed.

Lemma search_from_later (pre s : string) (i : nat) :
  (forall j, search_from j s <> None) -> search_from i (pre ++ s) <> None.
Proof.
  intros H. revert i. induction pre as [|c pre IH]; intros i.
  - apply H.
  - rewrite append_cons. cbn [search_from].
    destruct (match_here (String c (pre ++ s))); [discriminate|]. apply IH.
Qed.

(** A text that holds a line comment has a match. *)
Lemma search_line_comment (pre post : string) :
  search (pre ++ "//" ++ post) <> None.
Proof.
  apply search_from_later. intros j. apply search_from_here.
  change ("//" ++ post) with (String "/" (String "/" post)).
  unfold match_here. simpl.
  destruct (greedy not_newline post). discriminate.
Qed.

(** A text that holds a block comment has a match. *)
Lemma search_block_comment (pre body post : string) :
  search (pre ++ "/*" ++ body ++ "*/" ++ post) <> None.
Proof.
  apply search_from_later. intros j. apply search_from_here.
  change ("/*" ++ body ++ "*/" ++ post)
    with (String "/" (String "*" (body ++ "*/" ++ post))).
  unfold match_here. simpl.
  pose proof (lazy_until_close_finds body post) as Hl.
  destruct (lazy_until_close (body ++ "*/" ++ post)) as [[n r]|]; [|congruence].
  destruct (greedy hspace r). discriminate.
Qed.

End CommentFacts.

(** ** [_parse_json] *)
Section ParseJsonFacts.
Import ChefUtils Examples.

(** C5.  [_parse_json] hands to [json.loads] the content with every match
    of the comment pattern removed, and what it hands over holds no line
    comment and no block comment any more, wherever they stood.  On the
    text [commented_json] of the specification the result is the
    mapping of [a] to 1 and [b] to 2; a block comment over several lines
    goes as a whole; and two slashes inside a string literal are taken
    for a comment like any others. *)
Theorem parse_json_strips_comments
    (json_loads : string -> res pyobj) (files : string -> option string) :
  (forall filename content,
      files filename = Some content ->
      _parse_json json_loads files filename
      = json_loads (strip_comments content))
  /\ (forall content pre post,
        strip_comments content <> pre ++ "//" ++ post)
  /\ (forall content pre body post,
        strip_comments content <> pre ++ "/*" ++ body ++ "*/" ++ post)
  /\ strip_comments commented_json = clean_json
  /\ (forall filename,
        files filename = Some commented_json ->
        json_loads clean_json = Ok (PDict {[ "a" := PInt 1; "b" := PInt 2 ]}) ->
        _parse_json json_loads files filename
        = Ok (PDict {[ "a" := PInt 1; "b" := PInt 2 ]}))
  /\ strip_comments multiline_json = multiline_clean
  /\ strip_comments url_json = url_stripped.
Proof.
  split; [|split; [|split; [|split; [|split; [|split]]]]].
  - intros filename content Hf. unfold _parse_json. now rewrite Hf.
  - intros content pre post E.
    pose proof (strip_comments_done content) as Hd. rewrite E in Hd.
    now apply (search_line_comment pre post).
  - intros content pre body post E.
    pose proof (strip_comments_done content) as Hd. rewrite E in Hd.
    now apply (search_block_comment pre body post).
  - vm_compute. reflexivity.
  - intros filename Hf Hl. unfold _parse_json. rewrite Hf.
    replace (strip_comments commented_json) with clean_json
      by (vm_compute; reflexivity).
    exact Hl.
  - vm_compute. reflexivity.
  - vm_compute. reflexivity.
Qed.

Lemma parse_json_strips_comments_witness :
  _parse_json JsonReader.loads (one_file commented_json) "node_extra.json"
  = Ok (PDict {[ "a" := PInt 1; "b" := PInt 2 ]}).
Proof.
  apply (proj1 (proj2 (proj2 (proj2 (proj2
           (parse_json_strips_comments JsonReader.loads
              (one_file commented_json))))))).
  - reflexivity.
  - vm_compute. reflexivity.
Defined.

End ParseJsonFacts.

(** ** [build_chef_properties] *)
Section ChefPropertiesFacts.
Import ChefUtils ChefFold Examples.

Lemma chef_loop_dict (m : gmap string pyobj) (env : fabric_env) :
  chef_loop (PDict m) env = Ok (PDict (fold m env)).
Proof.
  revert m. induction env as [|[key value] env IH]; intros m; [reflexivity|].
  cbn [chef_loop chef_step Py.contains res_bind]. unfold fold. cbn [foldl].
  unfold store at 2. cbn [fst snd].
  destruct (m !! key) as [v|] eqn:Hk.
  - rewrite bool_decide_true by eauto. cbn. apply IH.
  - rewrite bool_decide_false by (intros [? ?]; congruence).
    destruct (isinstance_str value); cbn; apply IH.
Qed.

Lemma store_other (m : gmap string pyobj) (key : string) (value : env_value)
    (k : string) :
  (forall s, value = EStr s -> chef_key key <> k) ->
  store m (key, value) !! k = m !! k.
Proof.
  intros H. unfold store. cbn [fst snd].
  destruct (m !! key); [reflexivity|].
  destruct value as [s| | | | |]; cbn; try reflexivity.
  apply lookup_insert_ne. now apply (H s).
Qed.

(** A key under which no string entry is stored keeps what it had. *)
Lemma fold_frame (env : fabric_env) (m : gmap string pyobj) (k : string) :
  (forall key s, (key, EStr s) ∈ env -> chef_key key <> k) ->
  fold m env !! k = m !! k.
Proof.
  revert m. induction env as [|[key value] env IH]; intros m H; [reflexivity|].
  unfold fold. cbn [foldl]. fold (fold (store m (key, value)) env).
  rewrite IH.
  - apply store_other. intros s ->. apply (H key s). left.
  - intros key' s' Hin. apply (H key' s'). now right.
Qed.

(** A value that every entry stored under [k] agrees with stays. *)
Lemma fold_same (env : fabric_env) (m : gmap string pyobj) (k s : string) :
  m !! k = Some (PStr s) ->
  (forall key s', (key, EStr s') ∈ env -> chef_key key = k -> s' = s) ->
  fold m env !! k = Some (PStr s).
Proof.
  revert m. induction env as [|[key value] env IH]; intros m Hm H; [exact Hm|].
  unfold fold. cbn [foldl]. fold (fold (store m (key, value)) env).
  apply IH.
  - unfold store. cbn [fst snd].
    destruct (m !! key); [exact Hm|].
    destruct value as [s0| | | | |]; cbn; try exact Hm.
    destruct (decide (chef_key key = k)) as [E|E].
    + rewrite (H key s0 ltac:(left) E), E. apply lookup_insert_eq.
    + now rewrite lookup_insert_ne.
  - intros key' s' Hin. apply (H key' s'). now right.
Qed.

(** A string entry whose key is free when its turn comes is stored, and
    what is stored stays if the entries stored under the same key agree. *)
Lemma fold_stored (env : fabric_env) (m : gmap string pyobj) (key s : string) :
  (key, EStr s) ∈ env ->
  m !! key = None ->
  (forall key' s', (key', EStr s') ∈ env -> chef_key key' <> key) ->
  (forall key' s', (key', EStr s') ∈ env -> chef_key key' = chef_key key -> s' = s) ->
  fold m env !! chef_key key = Some (PStr s).
Proof.
  revert m. induction env as [|[key0 value0] env IH]; intros m Hin Hm Hne Hsame.
  - now apply not_elem_of_nil in Hin.
  - unfold fold. cbn [foldl]. fold (fold (store m (key0, value0)) env).
    apply elem_of_cons in Hin as [Hhd|Htl].
    + inversion Hhd; subst key0 value0.
      apply fold_same.
      * unfold store. cbn [fst snd]. rewrite Hm. cbn. apply lookup_insert_eq.
      * intros key' s' Hin'. apply (Hsame key' s'). now right.
    + apply IH; trivial.
      * rewrite store_other; [exact Hm|].
        intros s0 ->. apply (Hne key0 s0). left.
      * intros key' s' Hin'. apply (Hne key' s'). now right.
      * intros key' s' Hin'. apply (Hsame key' s'). now right.
Qed.

(** Entries that are not strings change nothing. *)
Lemma fold_strings_only (env : fabric_env) (m : gmap string pyobj) :
  fold m (List.filter is_string_entry env) = fold m env.
Proof.
  revert m. induction env as [|[key value] env IH]; intros m; [reflexivity|].
  cbn [List.filter]. unfold is_string_entry at 1. cbn [snd].
  unfold fold at 2. cbn [foldl]. fold (fold (store m (key, value)) env).
  destruct (isinstance_str value) as [s|] eqn:Hs.
  - unfold fold at 1. cbn [foldl]. apply IH.
  - rewrite IH. f_equal. unfold store. cbn [fst snd]. rewrite Hs.
    now destruct (m !! key).
Qed.

Lemma store_keeps (m : gmap string pyobj) (kv : string * env_value) (k : string) :
  is_Some (m !! k) -> is_Some (store m kv !! k).
Proof.
  intros H. unfold store. destruct (m !! kv.1); [exact H|].
  destruct (isinstance_str kv.2); [|exact H].
  rewrite lookup_insert_is_Some'. now right.
Qed.

Lemma fold_keeps (env : fabric_env) (m : gmap string pyobj) (k : string) :
  is_Some (m !! k) -> is_Some (fold m env !! k).
Proof.
  revert m. induction env as [|kv env IH]; intros m H; [exact H|].
  unfold fold. cbn [foldl]. apply IH. now apply store_keeps.
Qed.

(** An entry whose own key is in the mapping when its turn comes is
    skipped. *)
Lemma fold_skips (env1 env2 : fabric_env) (m : gmap string pyobj)
    (key : string) (value : env_value) :
  is_Some (fold m env1 !! key) ->
  fold m (env1 ++ (key, value) :: env2)%list = fold m (env1 ++ env2)%list.
Proof.
  intros [v Hv]. unfold fold in *. rewrite !foldl_app. cbn [foldl].
  f_equal. unfold store at 1. cbn [fst snd]. now rewrite Hv.
Qed.

(** C10, as amended.  When [node_extra.json] holds an object,
    [build_chef_properties] skips an entry of the environment whose own
    key is in the mapping when its turn comes, as every key of the file
    is: the result is the same without that entry.  In the mapping it
    returns, a key keeps what the file gave it as long as no string entry
    of the environment is stored under that key; the entries that are not
    strings are left out altogether; a string entry whose key is neither
    in the file nor the storage key of an entry ends up under its storage
    key, when the entries stored there agree; and the storage key is the
    key without its prefix [chef_], or else with the prefix
    [cloudbiolinux_]. *)
Theorem build_chef_properties_frame
    (json_loads : string -> res pyobj) (files : string -> option string)
    (env : fabric_env) (config_file : string) (m : gmap string pyobj) :
  _parse_json json_loads files config_file = Ok (PDict m) ->
  exists m' : gmap string pyobj,
    build_chef_properties json_loads files env config_file = Ok (PDict m')
    /\ (forall env1 key value env2 m1,
          env = (env1 ++ (key, value) :: env2)%list ->
          build_chef_properties json_loads files env1 config_file
          = Ok (PDict m1) ->
          is_Some (m1 !! key) ->
          build_chef_properties json_loads files (env1 ++ env2)%list
            config_file = Ok (PDict m'))
    /\ (forall env1 key value env2,
          env = (env1 ++ (key, value) :: env2)%list ->
          is_Some (m !! key) ->
          build_chef_properties json_loads files (env1 ++ env2)%list
            config_file = Ok (PDict m'))
    /\ (forall k,
          (forall key s, (key, EStr s) ∈ env -> chef_key key <> k) ->
          m' !! k = m !! k)
    /\ build_chef_properties json_loads files
         (List.filter is_string_entry env) config_file = Ok (PDict m')
    /\ (forall key s,
          (key, EStr s) ∈ env ->
          m !! key = None ->
          (forall key' s', (key', EStr s') ∈ env -> chef_key key' <> key) ->
          (forall key' s', (key', EStr s') ∈ env ->
                           chef_key key' = chef_key key -> s' = s) ->
          m' !! chef_key key = Some (PStr s))
    /\ (forall key,
          chef_key key = if PyStr.startswith "chef_" key
                         then PyStr.drop 5 key
                         else "cloudbiolinux_" ++ key).
Proof.
  intros Hparse. exists (fold m env).
  unfold build_chef_properties. rewrite Hparse. cbn [res_bind].
  split; [apply chef_loop_dict|].
  split.
  { intros env1 key value env2 m1 -> Hm1 Hkey.
    rewrite chef_loop_dict in *. inversion Hm1; subst m1.
    now rewrite (fold_skips env1 env2 m key value Hkey). }
  split.
  { intros env1 key value env2 -> Hkey. rewrite chef_loop_dict.
    rewrite (fold_skips env1 env2 m key value); [reflexivity|].
    now apply fold_keeps. }
  split; [intros k; apply fold_frame|].
  split; [rewrite chef_loop_dict; now rewrite fold_strings_only|].
  split; [intros key s; apply fold_stored|].
  reflexivity.
Qed.

Lemma build_chef_properties_frame_witness :
  (exists m' : gmap string pyobj,
     build_chef_properties JsonReader.loads (one_file port_json) small_env
       "node_extra.json" = Ok (PDict m')
     /\ m' !! "port" = Some (PInt 80)
     /\ m' !! "cloudbiolinux_user" = Some (PStr "ubuntu")
     /\ m' !! "apache_dir" = Some (PStr "/opt/apache")
     /\ m' !! "cloudbiolinux_use_sudo" = None)
  /\ build_chef_properties JsonReader.loads (one_file foo_json)
       [("foo", EStr "x")] "node_extra.json"
     = Ok (PDict {[ "foo" := PInt 1 ]}).
Proof.
  split.
  2: { assert (Hparse : _parse_json JsonReader.loads (one_file foo_json)
                          "node_extra.json" = Ok (PDict {[ "foo" := PInt 1 ]}))
         by (vm_compute; reflexivity).
       destruct (build_chef_properties_frame JsonReader.loads
                   (one_file foo_json) [("foo", EStr "x")] "node_extra.json"
                   _ Hparse)
         as (m' & Hbuild & _ & Hskip & _).
       rewrite Hbuild.
       rewrite <- (Hskip [] "foo" (EStr "x") [] eq_refl);
         [vm_compute; reflexivity | vm_compute; eauto]. }
  assert (Hparse : _parse_json JsonReader.loads (one_file port_json)
                     "node_extra.json" = Ok (PDict {[ "port" := PInt 80 ]}))
    by (vm_compute; reflexivity).
  destruct (build_chef_properties_frame JsonReader.loads (one_file port_json)
              small_env "node_extra.json" _ Hparse)
    as (m' & Hbuild & _ & _ & Hframe & _ & Hstored & _).
  assert (Hkeys : forall key s k,
             (key, EStr s) ∈ small_env ->
             k <> "cloudbiolinux_user" -> k <> "apache_dir" ->
             chef_key key <> k).
  { intros key s k Hin H1 H2. unfold small_env in Hin.
    repeat (apply elem_of_cons in Hin as [Hin|Hin];
            [inversion Hin; subst; vm_compute; congruence|]).
    now apply not_elem_of_nil in Hin. }
  assert (Hagree : forall key key' s s',
             (key, EStr s) ∈ small_env -> (key', EStr s') ∈ small_env ->
             chef_key key' = chef_key key -> s' = s).
  { intros key key' s s' Hin Hin'. unfold small_env in Hin, Hin'.
    repeat (apply elem_of_cons in Hin as [Hin|Hin];
            [inversion Hin; subst|]);
      try (now apply not_elem_of_nil in Hin);
      repeat (apply elem_of_cons in Hin' as [Hin'|Hin'];
              [inversion Hin'; subst|]);
      try (now apply not_elem_of_nil in Hin');
      vm_compute; congruence. }
  exists m'. split; [exact Hbuild|].
  split.
  { rewrite Hframe; [reflexivity|].
    intros key s Hin. apply (Hkeys key s); [exact Hin| |]; discriminate. }
  split.
  { apply (Hstored "user" "ubuntu").
    - unfold small_env. apply elem_of_cons. now left.
    - reflexivity.
    - intros key' s' Hin. apply (Hkeys key' s'); [exact Hin| |]; discriminate.
    - intros key' s' Hin'. apply (Hagree "user" key' "ubuntu" s'); [|exact Hin'].
      unfold small_env. apply elem_of_cons. now left. }
  split.
  { apply (Hstored "chef_apache_dir" "/opt/apache").
    - unfold small_env. do 2 (apply elem_of_cons; right). apply elem_of_cons. now left.
    - reflexivity.
    - intros key' s' Hin. apply (Hkeys key' s'); [exact Hin| |]; discriminate.
    - intros key' s' Hin'.
      apply (Hagree "chef_apache_dir" key' "/opt/apache" s'); [|exact Hin'].
      unfold small_env. do 2 (apply elem_of_cons; right). apply elem_of_cons. now left. }
  rewrite Hframe; [reflexivity|].
  intros key s Hin. apply (Hkeys key s); [exact Hin| |]; discriminate.
Defined.

(** C10, as stated, fails: with [foo] in the file, and [foo] and
    [chef_foo] in the environment, the entry [foo] is skipped, and the
    value the file gave to [foo] is replaced by that of [chef_foo]. *)
Lemma build_chef_properties_overrides :
  _parse_json JsonReader.loads (one_file foo_json) "node_extra.json"
  = Ok (PDict {[ "foo" := PInt 1 ]})
  /\ build_chef_properties JsonReader.loads (one_file foo_json) chef_foo_env
       "node_extra.json"
     = Ok (PDict {[ "foo" := PStr "bar" ]}).
Proof. split; vm_compute; reflexivity. Qed.

End ChefPropertiesFacts.

(** ** [cloudman_launch] *)
Section CloudmanFacts.
Import Cloudman Examples.

Variable yaml_files : string -> option pyobj.
Variable eval_template : fabric_env -> pyobj -> res pyobj.
Variable yaml_dump : pyobj -> string.
Variable env : fabric_env.

(** A container of length one whose element can be subscripted by a
    string is a list of one dict. *)
Lemma single_element (o x v : pyobj) (k : string) :
  Py.len o = Ok 1%nat -> Py.first o = Ok x -> Py.getitem x k = Ok v ->
  o = PList [x].
Proof.
  intros Hlen Hfirst Hget. destruct o as [| | | |s|l|m]; try discriminate.
  - destruct s as [|c s]; [discriminate|].
    inversion Hfirst; subst. discriminate.
  - destruct l as [|y [|z l]]; try discriminate.
    inversion Hfirst; subst. reflexivity.
Qed.

Lemma eqb_one (n : nat) : negb (Nat.eqb n 1) = false -> n = 1%nat.
Proof.
  intros H. apply negb_false_iff in H. now apply Nat.eqb_eq in H.
Qed.

Lemma neqb_one (n : nat) : n <> 1%nat -> negb (Nat.eqb n 1) = true.
Proof.
  intros H. apply negb_true_iff. now apply Nat.eqb_neq.
Qed.

Ltac step_ok H :=
  match type of H with
  | res_bind ?x _ = Ok _ =>
      let E := fresh "E" in
      destruct x eqn:E; [cbn [res_bind] in H | discriminate H]
  end.

(** What [image_from_snaps] returns comes from a manifest with exactly
    one cloud, one region and one deployment. *)
Lemma image_from_snaps_ok (cloudman_options mi : pyobj) :
  image_from_snaps yaml_files cloudman_options = Ok mi ->
  exists bucket path snaps cloud region deployment,
    Py.get cloudman_options "bucket_source" PNone = Ok bucket
    /\ join bucket "snaps.yaml" = Ok path
    /\ yaml_files path = Some snaps
    /\ Py.getitem snaps "clouds" = Ok (PList [cloud])
    /\ Py.getitem cloud "regions" = Ok (PList [region])
    /\ Py.getitem region "deployments" = Ok (PList [deployment])
    /\ Py.getitem deployment "default_mi" = Ok mi.
Proof.
  unfold image_from_snaps. intros H.
  step_ok H. rename a into bucket. step_ok H. rename a into path.
  destruct (yaml_files path) as [snaps|] eqn:Hfile; [|discriminate].
  step_ok H. rename a into clouds. step_ok H. rename a into n1.
  destruct (negb (Nat.eqb n1 1)) eqn:H1; [discriminate|].
  apply eqb_one in H1. subst n1.
  step_ok H. rename a into cloud. step_ok H. rename a into regions.
  step_ok H. rename a into n2.
  destruct (negb (Nat.eqb n2 1)) eqn:H2; [discriminate|].
  apply eqb_one in H2. subst n2.
  step_ok H. rename a into region. step_ok H. rename a into deployments.
  step_ok H. rename a into n3.
  destruct (negb (Nat.eqb n3 1)) eqn:H3; [discriminate|].
  apply eqb_one in H3. subst n3.
  step_ok H. rename a into deployment.
  exists bucket, path, snaps, cloud, region, deployment.
  pose proof (single_element clouds cloud regions "regions" E2 E3 E4) as ->.
  pose proof (single_element regions region deployments "deployments"
                E5 E6 E7) as ->.
  pose proof (single_element deployments deployment mi "default_mi"
                E8 E9 H) as ->.
  repeat split; assumption.
Qed.

(** C8.  With [image_id] set to [__use_snaps__], [cloudman_launch] raises
    the exception that names the cloud, the region or the deployment as
    soon as the list of clouds in the manifest, the list of regions of its
    cloud, or the list of deployments of its region has a length other
    than one; a request that is made has come from a manifest with exactly
    one of each, and carries the [default_mi] of that deployment; and with
    exactly one of each, what is left to do is to prepare the user data
    and make the request with that image. *)
Theorem cloudman_launch_exactly_one
    (launcher : vm_launcher) (options cloudman_options image : pyobj) :
  Py.get options "cloudman" PNone = Ok cloudman_options ->
  Py.get cloudman_options "image_id" PNone = Ok image ->
  is_use_snaps image = true ->
  let launch := cloudman_launch yaml_files eval_template yaml_dump env
                  launcher options in
  (forall bucket path snaps,
      Py.get cloudman_options "bucket_source" PNone = Ok bucket ->
      join bucket "snaps.yaml" = Ok path ->
      yaml_files path = Some snaps ->
      (forall clouds n,
          Py.getitem snaps "clouds" = Ok clouds ->
          Py.len clouds = Ok n -> n <> 1%nat ->
          launch = Raise (Exception msg_one_cloud))
      /\ (forall cloud regions n,
            Py.getitem snaps "clouds" = Ok (PList [cloud]) ->
            Py.getitem cloud "regions" = Ok regions ->
            Py.len regions = Ok n -> n <> 1%nat ->
            launch = Raise (Exception msg_one_region))
      /\ (forall cloud region deployments n,
            Py.getitem snaps "clouds" = Ok (PList [cloud]) ->
            Py.getitem cloud "regions" = Ok (PList [region]) ->
            Py.getitem region "deployments" = Ok deployments ->
            Py.len deployments = Ok n -> n <> 1%nat ->
            launch = Raise (Exception msg_one_deployment))
      /\ (forall cloud region deployment mi,
            Py.getitem snaps "clouds" = Ok (PList [cloud]) ->
            Py.getitem cloud "regions" = Ok (PList [region]) ->
            Py.getitem region "deployments" = Ok (PList [deployment]) ->
            Py.getitem deployment "default_mi" = Ok mi ->
            launch
            = res_bind (Py.get cloudman_options "size_id" PNone) (fun size =>
              res_bind (_prepare_user_data eval_template yaml_dump env
                          launcher options) (fun user_data =>
              Ok {| node_name := "cloudman"; image_id := mi;
                    size_id := size; ex_userdata := user_data |}))))
  /\ (forall request,
        launch = Ok request ->
        exists bucket path snaps cloud region deployment,
          Py.get cloudman_options "bucket_source" PNone = Ok bucket
          /\ join bucket "snaps.yaml" = Ok path
          /\ yaml_files path = Some snaps
          /\ Py.getitem snaps "clouds" = Ok (PList [cloud])
          /\ Py.getitem cloud "regions" = Ok (PList [region])
          /\ Py.getitem region "deployments" = Ok (PList [deployment])
          /\ Py.getitem deployment "default_mi" = Ok (image_id request)).
Proof.
  intros Hopts Himage Hsnaps launch. subst launch.
  unfold cloudman_launch. rewrite Hopts. cbn [res_bind].
  rewrite Himage. cbn [res_bind]. rewrite Hsnaps.
  split.
  - intros bucket path snaps Hbucket Hpath Hfile.
    unfold image_from_snaps. rewrite Hbucket. cbn [res_bind].
    rewrite Hpath. cbn [res_bind]. rewrite Hfile.
    repeat split.
    + intros clouds n Hc Hn Hne. rewrite Hc. cbn [res_bind].
      rewrite Hn. cbn [res_bind]. now rewrite (neqb_one n Hne).
    + intros cloud regions n Hc Hr Hn Hne. rewrite Hc. cbn.
      rewrite Hr. cbn [res_bind]. rewrite Hn. cbn [res_bind].
      now rewrite (neqb_one n Hne).
    + intros cloud region deployments n Hc Hr Hd Hn Hne. rewrite Hc. cbn.
      rewrite Hr. cbn. rewrite Hd. cbn [res_bind]. rewrite Hn. cbn [res_bind].
      now rewrite (neqb_one n Hne).
    + intros cloud region deployment mi Hc Hr Hd Hmi. rewrite Hc. cbn.
      rewrite Hr. cbn. rewrite Hd. cbn. rewrite Hmi. reflexivity.
  - intros request H.
    destruct (image_from_snaps yaml_files cloudman_options) as [mi|] eqn:Himg;
      [cbn [res_bind] in H | discriminate H].
    step_ok H. step_ok H. inversion H; subst request. cbn [image_id].
    now apply image_from_snaps_ok.
Qed.

End CloudmanFacts.

Section CloudmanExamples.
Import Cloudman Examples.

Lemma cloudman_launch_exactly_one_witness :
  cloudman_launch (snaps_at snaps_two_clouds) plain_template no_dump []
    some_launcher snaps_options
  = Raise (Exception msg_one_cloud)
  /\ image_id <$> match cloudman_launch (snaps_at snaps_single) plain_template
                          no_dump [] some_launcher snaps_options with
                  | Ok request => Some request
                  | Raise _ => None
                  end
     = Some (PStr "ami-1").
Proof.
  split.
  - refine (proj1 (proj1 (cloudman_launch_exactly_one
              (snaps_at snaps_two_clouds) plain_template no_dump []
              some_launcher snaps_options _ (PStr "__USE_SNAPS__")
              eq_refl eq_refl eq_refl)
              (PStr "/bucket") "/bucket/snaps.yaml" snaps_two_clouds
              eq_refl eq_refl eq_refl) _ 2%nat eq_refl eq_refl _).
    lia.
  - rewrite (proj2 (proj2 (proj2 (proj1 (cloudman_launch_exactly_one
              (snaps_at snaps_single) plain_template no_dump []
              some_launcher snaps_options _ (PStr "__USE_SNAPS__")
              eq_refl eq_refl eq_refl)
              (PStr "/bucket") "/bucket/snaps.yaml" snaps_single
              eq_refl eq_refl eq_refl)))
              _ _ _ (PStr "ami-1") eq_refl eq_refl eq_refl eq_refl).
    reflexivity.
Defined.

End CloudmanExamples.

(** ** Computations *)
Section MonadFacts.
Import Fabfile.

Lemma bind_ok {A B} (m : M A) (f : A -> M B) (h t : list event) (a : A) :
  m h = (Ok a, t) ->
  bind m f h = (fst (f a (h ++ t)%list), (t ++ snd (f a (h ++ t)%list))%list).
Proof.
  intros H. unfold bind. rewrite H. now destruct (f a (h ++ t)%list).
Qed.

Lemma bind_raise {A B} (m : M A) (f : A -> M B) (h t : list event) (e : exn) :
  m h = (Raise e, t) -> bind m f h = (Raise e, t).
Proof. intros H. unfold bind. now rewrite H. Qed.

Lemma bind_ret_l {A B} (a : A) (f : A -> M B) (h : list event) :
  bind (ret a) f h = f a h.
Proof.
  unfold bind, ret. rewrite app_nil_r. now destruct (f a h).
Qed.

Lemma bind_lift_ok {A B} (a : A) (f : A -> M B) (h : list event) :
  bind (lift (Ok a)) f h = f a h.
Proof. apply (bind_ret_l a f h). Qed.

Lemma bind_lift_raise {A B} (e : exn) (f : A -> M B) (h : list event) :
  bind (lift (Raise e)) f h = (Raise e, []).
Proof. reflexivity. Qed.

Lemma bind_ret_r (m : M unit) (h : list event) :
  bind m (fun _ => ret tt) h = m h.
Proof.
  unfold bind, ret. destruct (m h) as [[[]|e] t]; [|reflexivity].
  now rewrite app_nil_r.
Qed.

Lemma bind_ext {A B} (m : M A) (f g : A -> M B) (h : list event) :
  (forall a h', f a h' = g a h') -> bind m f h = bind m g h.
Proof.
  intros H. unfold bind. destruct (m h) as [[a|e] t]; [|reflexivity].
  now rewrite H.
Qed.

Lemma when_false_then {B} (m : M unit) (k : unit -> M B) (h : list event) :
  bind (when false m) k h = k tt h.
Proof. apply bind_ret_l. Qed.

Lemma for_each_one {A} (x : A) (body : A -> M unit) (h : list event) :
  for_each [x] body h = body x h.
Proof. cbn [for_each]. apply bind_ret_r. Qed.

Lemma iter_names_names (l : list string) : iter_names (names l) = Ok l.
Proof.
  unfold names. cbn [iter_names].
  induction l as [|x l IH]; [reflexivity|].
  cbn [map names_of_list]. now rewrite IH.
Qed.

End MonadFacts.

(** ** [_read_main_config] *)
Section ReadMainConfigFacts.
Import Fabfile Examples.

(** What [_read_main_config] returns on a [main.yaml] that holds a dict. *)
Lemma read_main_config_result (w : world) (h : list event)
    (m : gmap string pyobj) :
  fails w h (EvLoadYaml "main.yaml") = None ->
  yaml_files w "main.yaml" = Some (PDict m) ->
  fst (_read_main_config w h)
  = res_bind (Py.getitem (PDict m) "packages") (fun packages =>
    res_bind (Py.getitem (PDict m) "libraries") (fun libraries =>
    res_bind (iter_names (or_empty packages)) (fun _ =>
    res_bind (iter_names (or_empty libraries)) (fun library_names =>
    Ok (or_empty packages, PyStr.sorted library_names,
        default (PList []) (m !! "custom_ignore")))))).
Proof.
  intros Hf Hy. unfold _read_main_config.
  erewrite bind_ok by (unfold load_yaml; rewrite Hf, Hy; reflexivity).
  cbn [fst]. cbn [Py.getitem].
  destruct (m !! "packages") as [packages|]; [|reflexivity].
  rewrite bind_lift_ok. cbn [res_bind].
  destruct (m !! "libraries") as [libraries|]; [|reflexivity].
  rewrite bind_lift_ok. cbn [res_bind Py.get]. rewrite bind_lift_ok.
  destruct (iter_names (or_empty packages)) as [pn|e]; [|reflexivity].
  rewrite bind_lift_ok. cbn [res_bind].
  destruct (iter_names (or_empty libraries)) as [ln|e]; [|reflexivity].
  rewrite bind_lift_ok. reflexivity.
Qed.

(** C9, as amended.  On a [main.yaml] whose [packages] or [libraries]
    holds a null, [_read_main_config] returns the empty list for it, and
    without the key [custom_ignore] it returns the empty list for that
    one; without the key [packages] or [libraries] it raises [KeyError],
    and a null [custom_ignore] is returned as [None]. *)
Theorem read_main_config_defaults (w : world) (h : list event)
    (m : gmap string pyobj) :
  fails w h (EvLoadYaml "main.yaml") = None ->
  yaml_files w "main.yaml" = Some (PDict m) ->
  let result := fst (_read_main_config w h) in
  (forall libraries library_names,
      m !! "packages" = Some PNone ->
      m !! "libraries" = Some libraries ->
      iter_names (or_empty libraries) = Ok library_names ->
      result = Ok (PList [], PyStr.sorted library_names,
                   default (PList []) (m !! "custom_ignore")))
  /\ (forall packages package_names,
        m !! "packages" = Some packages ->
        iter_names (or_empty packages) = Ok package_names ->
        m !! "libraries" = Some PNone ->
        result = Ok (or_empty packages, [],
                     default (PList []) (m !! "custom_ignore")))
  /\ (forall packages libraries,
        m !! "packages" = Some (names packages) ->
        m !! "libraries" = Some (names libraries) ->
        m !! "custom_ignore" = None ->
        result = Ok (or_empty (names packages), PyStr.sorted libraries,
                     PList []))
  /\ (m !! "packages" = None -> result = Raise (KeyError "packages"))
  /\ (forall packages,
        m !! "packages" = Some packages -> m !! "libraries" = None ->
        result = Raise (KeyError "libraries"))
  /\ (forall packages libraries,
        m !! "packages" = Some (names packages) ->
        m !! "libraries" = Some (names libraries) ->
        m !! "custom_ignore" = Some PNone ->
        result = Ok (or_empty (names packages), PyStr.sorted libraries,
                     PNone)).
Proof.
  intros Hf Hy result. subst result.
  rewrite (read_main_config_result w h m Hf Hy). cbn [Py.getitem].
  assert (Hempty : forall l, iter_names (or_empty (names l)) = Ok l).
  { intros l. unfold or_empty.
    destruct (Py.truthy (names l)) eqn:Ht; [apply iter_names_names|].
    destruct l; [reflexivity | discriminate Ht]. }
  repeat split.
  - intros libraries ln Hp Hl Hi. rewrite Hp, Hl. cbn [res_bind].
    change (or_empty PNone) with (PList []).
    cbn [iter_names names_of_list res_bind].
    rewrite Hi. reflexivity.
  - intros packages pn Hp Hi Hl. rewrite Hp, Hl. cbn [res_bind].
    rewrite Hi. reflexivity.
  - intros packages libraries Hp Hl Hc. rewrite Hp, Hl, Hc. cbn [res_bind].
    rewrite !Hempty. cbn [res_bind]. reflexivity.
  - intros Hp. now rewrite Hp.
  - intros packages Hp Hl. now rewrite Hp, Hl.
  - intros packages libraries Hp Hl Hc. rewrite Hp, Hl, Hc. cbn [res_bind].
    rewrite !Hempty. cbn [res_bind]. reflexivity.
Qed.

Lemma read_main_config_defaults_witness :
  fst (_read_main_config (world_with_yaml "main.yaml" main_nulls) [])
  = Ok (PList [], [], PList []).
Proof.
  rewrite (proj1 (read_main_config_defaults
             (world_with_yaml "main.yaml" main_nulls) []
             {[ "packages" := PNone; "libraries" := PNone ]}
             eq_refl eq_refl) PNone [] eq_refl eq_refl eq_refl).
  reflexivity.
Defined.

(** A null [custom_ignore] comes back as [None], next to the sorted
    libraries. *)
Example read_main_config_null_ignore :
  fst (_read_main_config (world_with_yaml "main.yaml" main_null_ignore) [])
  = Ok (names ["minimal"], ["python-libs"; "ruby-libs"], PNone).
Proof. vm_compute. reflexivity. Qed.

(** C9, as stated, fails: without the key [packages] the loader raises
    [KeyError] and returns no list. *)
Lemma read_main_config_missing_packages :
  fst (_read_main_config (world_with_yaml "main.yaml" main_no_packages) [])
  = Raise (KeyError "packages").
Proof. vm_compute. reflexivity. Qed.

End ReadMainConfigFacts.

(** ** Runs without a call of the rewrite hook *)
Section QuietFacts.
Import Fabfile Traces.

Lemma quiet_ret {A} (a : A) : quiet (ret a).
Proof. intros h. constructor. Qed.

Lemma quiet_raise {A} (e : exn) : quiet (@raise A e).
Proof. intros h. constructor. Qed.

Lemma quiet_lift {A} (r : res A) : quiet (lift r).
Proof. intros h. constructor. Qed.

Lemma quiet_bind {A B} (m : M A) (f : A -> M B) :
  quiet m -> (forall a, quiet (f a)) -> quiet (bind m f).
Proof.
  intros Hm Hf h. unfold bind. specialize (Hm h).
  destruct (m h) as [[a|e] t]; [|exact Hm].
  specialize (Hf a (h ++ t)%list).
  destruct (f a (h ++ t)%list) as [r t']. cbn [snd] in *.
  apply Forall_app. split; assumption.
Qed.

Lemma quiet_when (b : bool) (m : M unit) : quiet m -> quiet (when b m).
Proof. destruct b; [trivial | intros _; apply quiet_ret]. Qed.

Lemma quiet_for_each {A} (l : list A) (body : A -> M unit) :
  (forall x, quiet (body x)) -> quiet (for_each l body).
Proof.
  intros H. induction l as [|x l IH]; cbn [for_each].
  - apply quiet_ret.
  - apply quiet_bind; [apply H | intros _; exact IH].
Qed.

Lemma quiet_finally {A} (body : M A) (cleanup : M unit) :
  quiet body -> quiet cleanup -> quiet (finally body cleanup).
Proof.
  intros Hb Hc h. unfold finally. specialize (Hb h).
  destruct (body h) as [r t]. specialize (Hc (h ++ t)%list).
  destruct (cleanup (h ++ t)%list) as [[u|e] t']; cbn [snd] in *;
    apply Forall_app; split; assumption.
Qed.

Lemma quiet_call (w : world) (e : event) :
  is_rewrite e = false -> quiet (call w e).
Proof. intros H h. cbn. repeat constructor. exact H. Qed.

Lemma quiet_record (e : event) : is_rewrite e = false -> quiet (record e).
Proof. intros H h. cbn. repeat constructor. exact H. Qed.

Lemma quiet_run (w : world) (cmd : string) : quiet (run w cmd).
Proof. intros h. cbn. repeat constructor. Qed.

Lemma quiet_exists (w : world) (path : string) : quiet (exists_ w path).
Proof. intros h. cbn. repeat constructor. Qed.

Lemma quiet_load_yaml (w : world) (name : string) : quiet (load_yaml w name).
Proof. intros h. cbn. repeat constructor. Qed.

Lemma quiet_safe_sudo (w : world) (cmd : string) : quiet (safe_sudo w cmd).
Proof. now apply quiet_call. Qed.

Lemma quiet_append (w : world) (file : string) (content : text) :
  quiet (append w file content).
Proof. now apply quiet_call. Qed.

Lemma quiet_cur_gems (w : world) (env : fabric_env) : quiet (_cur_gems w env).
Proof.
  apply quiet_bind; [apply quiet_run | intros; apply quiet_ret].
Qed.

Lemma quiet_ruby_loop (w : world) (env : fabric_env)
    (gems : list pyobj) (installed : list string) :
  quiet (ruby_loop w env installed gems).
Proof.
  revert installed. induction gems as [|gem gems IH]; intros installed;
    cbn [ruby_loop]; [apply quiet_ret|].
  apply quiet_bind.
  - destruct (gem_in gem installed); [apply quiet_ret | apply quiet_cur_gems].
  - intros installed'. apply quiet_bind; [|intros _; apply IH].
    destruct (gem_in gem installed'); apply quiet_safe_sudo.
Qed.

Ltac quiet_steps :=
  repeat first
    [ apply quiet_ret | apply quiet_lift | apply quiet_run
    | apply quiet_exists | apply quiet_append | apply quiet_safe_sudo
    | apply quiet_load_yaml
    | apply quiet_when | apply quiet_for_each; intros ?
    | apply quiet_bind; [|intros ?] ].

Lemma quiet_r_installer (w : world) (config : pyobj) :
  quiet (_r_library_installer w config).
Proof. unfold _r_library_installer. quiet_steps. Qed.

Lemma quiet_clojure_installer (w : world) (config : pyobj) :
  quiet (_clojure_library_installer w config).
Proof. unfold _clojure_library_installer. quiet_steps. Qed.

Lemma quiet_haskell_installer (w : world) (env : fabric_env) (config : pyobj) :
  quiet (_haskell_library_installer w env config).
Proof. unfold _haskell_library_installer. quiet_steps. Qed.

End QuietFacts.

(** ** Stepping through a run *)
Section StepFacts.
Import Fabfile.
Variable w : world.

Lemma bind_call_ok {B} (e : event) (f : unit -> M B) (h : list event) :
  fails w h e = None ->
  bind (call w e) f h
  = (fst (f tt (h ++ [e])%list), e :: snd (f tt (h ++ [e])%list)).
Proof. intros H. erewrite bind_ok by (unfold call; now rewrite H). reflexivity. Qed.

Lemma bind_call_fail {B} (e : event) (f : unit -> M B) (h : list event)
    (x : exn) :
  fails w h e = Some x -> bind (call w e) f h = (Raise x, [e]).
Proof. intros H. apply bind_raise. unfold call. now rewrite H. Qed.

Lemma bind_record {B} (e : event) (f : unit -> M B) (h : list event) :
  bind (record e) f h
  = (fst (f tt (h ++ [e])%list), e :: snd (f tt (h ++ [e])%list)).
Proof. erewrite bind_ok by reflexivity. reflexivity. Qed.

Lemma bind_run_ok {B} (cmd : string) (f : string -> M B) (h : list event) :
  fails w h (EvRun cmd) = None ->
  bind (run w cmd) f h
  = (fst (f (run_output w h cmd) (h ++ [EvRun cmd])%list),
     EvRun cmd :: snd (f (run_output w h cmd) (h ++ [EvRun cmd])%list)).
Proof. intros H. erewrite bind_ok by (unfold run; now rewrite H). reflexivity. Qed.

Lemma bind_run_fail {B} (cmd : string) (f : string -> M B) (h : list event)
    (x : exn) :
  fails w h (EvRun cmd) = Some x -> bind (run w cmd) f h = (Raise x, [EvRun cmd]).
Proof. intros H. apply bind_raise. unfold run. now rewrite H. Qed.

Lemma bind_rewrite_ok {B} (name : string) (items : pyobj) (f : pyobj -> M B)
    (h : list event) :
  fails w h (EvRewrite name items) = None ->
  bind (rewrite w name items) f h
  = (fst (f (rewrite_config_items w name items)
            (h ++ [EvRewrite name items])%list),
     EvRewrite name items
       :: snd (f (rewrite_config_items w name items)
                 (h ++ [EvRewrite name items])%list)).
Proof.
  intros H. erewrite bind_ok by (unfold rewrite; now rewrite H). reflexivity.
Qed.

Lemma bind_rewrite_fail {B} (name : string) (items : pyobj) (f : pyobj -> M B)
    (h : list event) (x : exn) :
  fails w h (EvRewrite name items) = Some x ->
  bind (rewrite w name items) f h = (Raise x, [EvRewrite name items]).
Proof. intros H. apply bind_raise. unfold rewrite. now rewrite H. Qed.

Lemma bind_load_yaml_ok {B} (name : string) (data : pyobj) (f : pyobj -> M B)
    (h : list event) :
  fails w h (EvLoadYaml name) = None ->
  yaml_files w name = Some data ->
  bind (load_yaml w name) f h
  = (fst (f data (h ++ [EvLoadYaml name])%list),
     EvLoadYaml name :: snd (f data (h ++ [EvLoadYaml name])%list)).
Proof.
  intros H Hy. erewrite bind_ok by (unfold load_yaml; now rewrite H, Hy).
  reflexivity.
Qed.

Lemma load_yaml_ok_inv {B} (name : string) (f : pyobj -> M B) (h : list event)
    (b : B) :
  fst (bind (load_yaml w name) f h) = Ok b ->
  fails w h (EvLoadYaml name) = None
  /\ exists data, yaml_files w name = Some data.
Proof.
  unfold bind, load_yaml.
  destruct (fails w h (EvLoadYaml name)); [discriminate|].
  destruct (yaml_files w name); [eauto | discriminate].
Qed.

(** A loop whose body makes one call on each round makes the calls of
    its rounds, in order. *)
Lemma for_each_trace {A} (ev : A -> event) (body : A -> M unit) (l : list A) :
  (forall x h, fst (body x h) = Ok tt -> snd (body x h) = [ev x]) ->
  forall h, fst (for_each l body h) = Ok tt ->
            snd (for_each l body h) = map ev l.
Proof.
  intros Hbody. induction l as [|x l IH]; intros h H; [reflexivity|].
  cbn [for_each] in *. unfold bind in *.
  specialize (Hbody x h).
  destruct (body x h) as [[[]|e] t]; [|discriminate].
  cbn [fst snd] in Hbody. rewrite (Hbody eq_refl) in *.
  specialize (IH (h ++ [ev x])%list).
  destruct (for_each l body (h ++ [ev x])%list) as [r t'].
  cbn [fst snd] in *. now rewrite IH.
Qed.

Lemma safe_sudo_trace (cmd : string) (h : list event) :
  snd (safe_sudo w cmd h) = [EvSafeSudo cmd].
Proof. reflexivity. Qed.

Lemma run_unit_trace (cmd : string) (h : list event) :
  fst (bind (run w cmd) (fun _ => ret tt) h) = Ok tt ->
  snd (bind (run w cmd) (fun _ => ret tt) h) = [EvRun cmd].
Proof.
  unfold bind, run. now destruct (fails w h (EvRun cmd)).
Qed.

Lemma hook_calls_app (t1 t2 : list event) :
  Traces.hook_calls (t1 ++ t2)%list
  = (Traces.hook_calls t1 + Traces.hook_calls t2)%nat.
Proof.
  unfold Traces.hook_calls. now rewrite List.filter_app, length_app.
Qed.

Lemma hook_calls_quiet (t : list event) :
  Forall (fun e => is_rewrite e = false) t -> Traces.hook_calls t = 0%nat.
Proof.
  unfold Traces.hook_calls. induction 1 as [|e t He _ IH]; [reflexivity|].
  cbn [List.filter]. now rewrite He.
Qed.

Lemma quiet_map {A} (ev : A -> event) (l : list A) :
  (forall x, is_rewrite (ev x) = false) ->
  Forall (fun e => is_rewrite e = false) (map ev l).
Proof. intros H. apply Forall_map. apply Forall_forall. intros x _. apply H. Qed.

End StepFacts.

(** One step of a run that returns: the call at its head has returned,
    and the hypothesis and the goal move on to what follows it. *)
Ltac run_step H :=
  match type of H with
  | fst (Fabfile.bind (Fabfile.lift ?r) _ _) = Ok _ =>
      let E := fresh "E" in
      destruct r eqn:E;
      [rewrite bind_lift_ok in * | discriminate H]
  | fst (Fabfile.bind (Fabfile.record _) _ _) = Ok _ =>
      rewrite bind_record in *; cbn [fst snd] in *
  | fst (Fabfile.bind (Fabfile.log _ _) _ _) = Ok _ =>
      unfold Fabfile.log in H; unfold Fabfile.log;
      rewrite bind_record in *; cbn [fst snd] in *
  | fst (Fabfile.bind (Fabfile.call ?w ?e) _ ?h) = Ok _ =>
      let E := fresh "E" in
      destruct (Fabfile.fails w h e) eqn:E;
      [rewrite (bind_call_fail w _ _ _ _ E) in H; discriminate H
      | rewrite (bind_call_ok w _ _ _ E) in *; cbn [fst snd] in * ]
  | fst (Fabfile.bind (Fabfile.safe_sudo ?w ?c) _ ?h) = Ok _ =>
      let E := fresh "E" in
      unfold Fabfile.safe_sudo in H at 1;
      destruct (Fabfile.fails w h (Fabfile.EvSafeSudo c)) eqn:E;
      [rewrite (bind_call_fail w _ _ _ _ E) in H; discriminate H
      | fold (Fabfile.safe_sudo w c) in H;
        unfold Fabfile.safe_sudo in *;
        rewrite (bind_call_ok w _ _ _ E) in *; cbn [fst snd] in * ]
  | fst (Fabfile.bind (Fabfile.run ?w ?c) _ ?h) = Ok _ =>
      let E := fresh "E" in
      destruct (Fabfile.fails w h (Fabfile.EvRun c)) eqn:E;
      [rewrite (bind_run_fail w _ _ _ _ E) in H; discriminate H
      | rewrite (bind_run_ok w _ _ _ E) in *; cbn [fst snd] in * ]
  | fst (Fabfile.bind (Fabfile.rewrite ?w ?n ?i) _ ?h) = Ok _ =>
      let E := fresh "E" in
      destruct (Fabfile.fails w h (Fabfile.EvRewrite n i)) eqn:E;
      [rewrite (bind_rewrite_fail w _ _ _ _ _ E) in H; discriminate H
      | rewrite (bind_rewrite_ok w _ _ _ _ E) in *; cbn [fst snd] in * ]
  | fst (Fabfile.bind (Fabfile.load_yaml ?w ?n) _ ?h) = Ok _ =>
      let E := fresh "E" in
      let Ey := fresh "Ey" in
      let data := fresh "config" in
      destruct (load_yaml_ok_inv w _ _ _ _ H) as [E [data Ey]];
      rewrite (bind_load_yaml_ok w _ _ _ _ E Ey) in *;
      cbn [fst snd] in *
  end.

(** ** The lines of the output of [gem list] *)
Section GemLinesFacts.
Import Fabfile Calls.

Lemma append_assoc (a b c : string) : (a ++ b) ++ c = a ++ b ++ c.
Proof.
  induction a as [|x a IH]; [reflexivity|].
  rewrite !append_cons. now f_equal.
Qed.

Lemma split_lines_plain (a : string) :
  has_char 10 a = false -> split_lines a = [a].
Proof.
  induction a as [|c a IH]; [reflexivity|]. cbn [has_char split_lines].
  intros H. apply orb_false_iff in H as [Hc Ha]. rewrite Hc.
  now rewrite (IH Ha).
Qed.

Lemma split_lines_app (a b : string) :
  has_char 10 a = false ->
  split_lines (a ++ PyStr.nl ++ b) = a :: split_lines b.
Proof.
  induction a as [|c a IH]; [reflexivity|].
  change (String c a ++ PyStr.nl ++ b) with (String c (a ++ PyStr.nl ++ b)).
  cbn [has_char split_lines].
  intros H. apply orb_false_iff in H as [Hc Ha]. rewrite Hc.
  now rewrite (IH Ha).
Qed.

Lemma has_char_app (n : nat) (a b : string) :
  has_char n (a ++ b) = has_char n a || has_char n b.
Proof.
  induction a as [|c a IH]; [reflexivity|].
  change (String c a ++ b) with (String c (a ++ b)). cbn [has_char].
  now rewrite IH, orb_assoc.
Qed.

Lemma rstrip_cr_app_cr (a : string) : rstrip_cr (a ++ cr) = rstrip_cr a.
Proof.
  induction a as [|c a IH]; [reflexivity|].
  change (String c a ++ cr) with (String c (a ++ cr)). cbn [rstrip_cr].
  now rewrite IH.
Qed.

Lemma gem_lines_plain (a : string) : plain_line a -> gem_lines a = [a].
Proof.
  intros (Hne & Hlf & Hcr). unfold gem_lines.
  rewrite (split_lines_plain a Hlf). cbn [map]. rewrite Hcr.
  rewrite filter_cons_True by exact Hne. reflexivity.
Qed.

Lemma gem_lines_app (a b : string) :
  plain_line a -> gem_lines (a ++ PyStr.nl ++ b) = a :: gem_lines b.
Proof.
  intros (Hne & Hlf & Hcr). unfold gem_lines.
  rewrite (split_lines_app a b Hlf). cbn [map]. rewrite Hcr.
  rewrite filter_cons_True by exact Hne. reflexivity.
Qed.

Lemma gem_lines_app_cr (a b : string) :
  plain_line a -> gem_lines (a ++ (cr ++ PyStr.nl) ++ b) = a :: gem_lines b.
Proof.
  intros (Hne & Hlf & Hcr). unfold gem_lines.
  replace (a ++ (cr ++ PyStr.nl) ++ b) with ((a ++ cr) ++ PyStr.nl ++ b)
    by (now rewrite <- !append_assoc).
  rewrite split_lines_app
    by (rewrite has_char_app, Hlf; reflexivity).
  cbn [map]. rewrite rstrip_cr_app_cr, Hcr.
  rewrite filter_cons_True by exact Hne. reflexivity.
Qed.

Lemma join_cons (sep x y : string) (l : list string) :
  PyStr.join sep (x :: y :: l) = x ++ sep ++ PyStr.join sep (y :: l).
Proof. reflexivity. Qed.

Lemma gem_lines_lines (names : list string) :
  Forall plain_line names ->
  gem_lines (PyStr.join PyStr.nl names) = names
  /\ gem_lines (PyStr.join PyStr.nl names ++ PyStr.nl) = names.
Proof.
  induction 1 as [|x l Hx Hl [IH1 IH2]]; [now split|].
  destruct l as [|y l].
  - unfold PyStr.join. cbn [String.concat]. split.
    + now apply gem_lines_plain.
    + change (x ++ PyStr.nl) with (x ++ PyStr.nl ++ "").
      now rewrite gem_lines_app.
  - rewrite !join_cons. split.
    + now rewrite gem_lines_app, IH1.
    + rewrite (append_assoc x), (append_assoc PyStr.nl).
      now rewrite gem_lines_app, IH2.
Qed.

End GemLinesFacts.

(** ** The library installers and the rewrite hook *)
Section HookFacts.
Import Fabfile Traces.
Variable w : world.
Variable env : fabric_env.

Lemma bind_finally_ok_inv {A B} (body : M A) (cleanup : M unit)
    (f : A -> M B) (h : list event) (b : B) :
  fst (bind (finally body cleanup) f h) = Ok b ->
  exists a,
    fst (body h) = Ok a
    /\ fst (cleanup (h ++ snd (body h))%list) = Ok tt
    /\ bind (finally body cleanup) f h
       = (fst (f a (h ++ snd (body h)
                      ++ snd (cleanup (h ++ snd (body h))%list))%list),
          (snd (body h) ++ snd (cleanup (h ++ snd (body h))%list)
             ++ snd (f a (h ++ snd (body h)
                            ++ snd (cleanup (h ++ snd (body h))%list))%list))%list).
Proof.
  unfold bind, finally. destruct (body h) as [r t]. cbn [fst snd].
  destruct (cleanup (h ++ t)%list) as [[[]|e] t']; [|discriminate].
  destruct r as [a|e]; [|discriminate]. cbn [fst snd].
  intros H. exists a. repeat split.
  destruct (f a (h ++ t ++ t')%list). cbn [fst snd].
  now rewrite app_assoc.
Qed.

Lemma bind_assoc {A B C} (m : M A) (f : A -> M B) (g : B -> M C)
    (h : list event) :
  bind (bind m f) g h = bind m (fun x => bind (f x) g) h.
Proof.
  unfold bind. destruct (m h) as [[a|e] t]; [|reflexivity].
  destruct (f a (h ++ t)%list) as [[b|e] t']; [|reflexivity].
  rewrite app_assoc. destruct (g b ((h ++ t) ++ t')%list) as [r t''].
  now rewrite app_assoc.
Qed.

Lemma call_trace (e : event) (h : list event) : snd (call w e h) = [e].
Proof. reflexivity. Qed.

Ltac start_installer iname file :=
  unfold _do_library_installs; rewrite for_each_one;
  change (iname ++ ".yaml") with file.

Ltac pick_installer :=
  cbn [lookup_installer lib_installers String.eqb Ascii.eqb Bool.eqb] in *;
  rewrite bind_lift_ok in *.

Lemma python_installer_trace (h : list event) :
  fst (_do_library_installs w env ["python-libs"] h) = Ok tt ->
  exists config pypi pnames version_ext,
    yaml_files w "python-libs.yaml" = Some config
    /\ Py.getitem config "pypi" = Ok pypi
    /\ iter_items (rewrite_config_items w "python" pypi) = Ok pnames
    /\ snd (_do_library_installs w env ["python-libs"] h)
       = ([EvLoadYaml "python-libs.yaml";
           EvSafeSudo ("easy_install" ++ version_ext ++ " -U pip");
           EvRewrite "python" pypi]
            ++ map (fun pname => EvSafeSudo (pip_install_cmd w pname)) pnames)%list.
Proof.
  start_installer "python-libs" "python-libs.yaml".
  intros H. run_step H. pick_installer.
  unfold _python_library_installer in *.
  run_step H. run_step H. run_step H. run_step H. run_step H.
  eexists _, _, _, _. split_and!; [(eassumption || reflexivity)..|].
  cbn [app]. do 3 f_equal.
  apply (for_each_trace (fun pname => EvSafeSudo (pip_install_cmd w pname)));
    [reflexivity | exact H].
Qed.

Lemma perl_installer_trace (h : list event) :
  fst (_do_library_installs w env ["perl-libs"] h) = Ok tt ->
  exists config cpan libs sudo_str system_install,
    yaml_files w "perl-libs.yaml" = Some config
    /\ Py.getitem config "cpan" = Ok cpan
    /\ iter_items (rewrite_config_items w "perl" cpan) = Ok libs
    /\ snd (_do_library_installs w env ["perl-libs"] h)
       = ([EvLoadYaml "perl-libs.yaml";
           EvMakeTmpDir;
           EvRun (in_dir (tmp_dir w)
                    ("wget --no-check-certificate -O cpanm " ++ cpanm_url));
           EvRun (in_dir (tmp_dir w) "chmod a+rwx cpanm");
           EvSafeSudo (in_dir (tmp_dir w)
                         ("mv cpanm " ++ system_install ++ "/bin"));
           EvRemoveTmpDir;
           EvRewrite "perl" cpan]
            ++ map (fun lib => EvRun (cpanm_cmd w sudo_str lib)) libs)%list.
Proof.
  start_installer "perl-libs" "perl-libs.yaml".
  intros H. run_step H. pick_installer.
  unfold _perl_library_installer in *.
  run_step H.
  destruct (bind_finally_ok_inv _ _ _ _ _ H) as (a & Hbody & Hclean & Heq).
  rewrite Heq in *. cbn [fst snd] in *. clear Heq.
  run_step Hbody. run_step Hbody. run_step Hbody.
  rewrite !safe_sudo_trace, !call_trace in *. cbn [app] in *.
  run_step H. run_step H. run_step H. run_step H.
  eexists _, _, _, _, _. split_and!; [(eassumption || reflexivity)..|].
  cbn [app]. do 7 f_equal.
  apply (for_each_trace (fun lib => EvRun (cpanm_cmd w _ lib))); [|exact H].
  intros lib h'. apply run_unit_trace.
Qed.

Lemma gem_in_has (gem : pyobj) (installed : list string) :
  gem_in gem installed = true <-> has_gem installed gem.
Proof.
  unfold gem_in, has_gem. split.
  - destruct gem; try discriminate. intros H.
    apply bool_decide_eq_true in H. eauto.
  - intros (s & -> & Hin). now apply bool_decide_eq_true.
Qed.

Lemma gem_in_lacks (gem : pyobj) (installed : list string) :
  gem_in gem installed = false <-> ~ has_gem installed gem.
Proof.
  rewrite <- gem_in_has. destruct (gem_in gem installed); split;
    congruence.
Qed.

Lemma ruby_loop_rounds (gems : list pyobj) (installed : list string)
    (h : list event) :
  fst (ruby_loop w env installed gems h) = Ok tt ->
  ruby_rounds (ruby_ext env) (shown w) (gems_listed w env) installed h gems
    (snd (ruby_loop w env installed gems h)).
Proof.
  revert installed h. induction gems as [|gem gems IH]; intros installed h H.
  - constructor.
  - cbn [ruby_loop] in *.
    destruct (gem_in gem installed) eqn:Hknown.
    + rewrite bind_ret_l in *. rewrite Hknown in *.
      apply gem_in_has in Hknown.
      unfold gem_update_cmd in *. run_step H.
      apply rounds_known; [exact Hknown|]. now apply IH.
    + apply gem_in_lacks in Hknown.
      unfold _cur_gems, gem_list_cmd in *. rewrite bind_assoc in *.
      run_step H. rewrite bind_ret_l in *.
      change (gem_lines (run_output w h ("gem" ++ gem_ext env ++ " list --no-versions")))
        with (gems_listed w env h) in *.
      destruct (gem_in gem (gems_listed w env h)) eqn:Hfound.
      * apply gem_in_has in Hfound.
        unfold gem_update_cmd in *.
        run_step H. rewrite <- app_assoc in *. cbn [app] in *.
        apply rounds_found; [exact Hknown | exact Hfound |]. now apply IH.
      * apply gem_in_lacks in Hfound.
        unfold gem_install_cmd in *.
        run_step H. rewrite <- app_assoc in *. cbn [app] in *.
        apply rounds_missing; [exact Hknown | exact Hfound |]. now apply IH.
Qed.

Lemma ruby_rounds_quiet (ext : string) (text : pyobj -> string)
    (listed : list event -> list string) (installed : list string)
    (h : list event) (gems : list pyobj) (t : list event) :
  ruby_rounds ext text listed installed h gems t ->
  Forall (fun e => is_rewrite e = false) t.
Proof. induction 1; repeat constructor; assumption. Qed.

Lemma ruby_loop_returns (gems : list pyobj) (installed : list string)
    (h : list event) :
  (forall h e, fails w h e = None) ->
  fst (ruby_loop w env installed gems h) = Ok tt.
Proof.
  intros Hfails. revert installed h.
  induction gems as [|gem gems IH]; intros installed h; [reflexivity|].
  cbn [ruby_loop].
  destruct (gem_in gem installed) eqn:Hknown.
  - rewrite bind_ret_l. rewrite Hknown.
    unfold safe_sudo; rewrite bind_call_ok by apply Hfails; apply IH.
  - unfold _cur_gems. rewrite bind_assoc, bind_run_ok by apply Hfails.
    cbn [fst]. rewrite bind_ret_l. clear Hknown.
    destruct (gem_in gem _);
      unfold safe_sudo; rewrite bind_call_ok by apply Hfails; apply IH.
Qed.

Lemma ruby_installer_returns (config gems : pyobj) (gem_names : list pyobj)
    (h : list event) :
  (forall h e, fails w h e = None) ->
  Py.getitem config "gems" = Ok gems ->
  iter_items (rewrite_config_items w "ruby" gems) = Ok gem_names ->
  fst (_ruby_library_installer w env config h) = Ok tt.
Proof.
  intros Hfails Hg Hi. unfold _ruby_library_installer, _cur_gems.
  rewrite bind_assoc, bind_run_ok by apply Hfails. cbn [fst].
  rewrite bind_ret_l, Hg, bind_lift_ok, bind_rewrite_ok by apply Hfails.
  cbn [fst]. rewrite Hi, bind_lift_ok. now apply ruby_loop_returns.
Qed.

(** C7.  A run of the Ruby installer that returns has queried the
    installed gems once, with [gem list --no-versions], before it hands
    the configured gems to the hook; after that, for each gem in turn, it
    queries again only when the gem is not in the set at hand, gives
    [gem update] of the gem to [safe_sudo] when the set, as it then
    stands, has the gem, and [gem install] of it when it has not.  The set
    is read off the output of the query, which lists one gem a line.  And
    the run does return when no call raises and the configuration has its
    list of gems. *)
Theorem ruby_installer_rounds (config : pyobj) (h : list event) :
  let query := "gem" ++ ruby_ext env ++ " list --no-versions" in
  let listed := fun h' => gem_lines (run_output w h' query) in
  (fst (_ruby_library_installer w env config h) = Ok tt ->
   exists gems gem_names t,
     Py.getitem config "gems" = Ok gems
     /\ iter_items (rewrite_config_items w "ruby" gems) = Ok gem_names
     /\ snd (_ruby_library_installer w env config h)
        = EvRun query :: EvRewrite "ruby" gems :: t
     /\ ruby_rounds (ruby_ext env) (shown w) listed (listed h)
          (h ++ [EvRun query; EvRewrite "ruby" gems])%list gem_names t)
  /\ (forall names : list string,
        Forall Calls.plain_line names ->
        gem_lines (PyStr.join PyStr.nl names) = names
        /\ gem_lines (PyStr.join PyStr.nl names ++ PyStr.nl) = names)
  /\ (forall gems gem_names,
        (forall h e, fails w h e = None) ->
        Py.getitem config "gems" = Ok gems ->
        iter_items (rewrite_config_items w "ruby" gems) = Ok gem_names ->
        fst (_ruby_library_installer w env config h) = Ok tt).
Proof.
  cbv zeta.
  split_and!;
    [| apply gem_lines_lines
     | intros gems gem_names; apply ruby_installer_returns].
  unfold _ruby_library_installer, _cur_gems, gem_list_cmd. intros H.
  rewrite bind_assoc in *. run_step H. rewrite bind_ret_l in *.
  run_step H. run_step H. run_step H.
  rewrite <- app_assoc in *. cbn [app] in *.
  eexists _, _, _. split_and!; [(eassumption || reflexivity).. |].
  now apply ruby_loop_rounds.
Qed.

Lemma ruby_installer_trace (h : list event) :
  fst (_do_library_installs w env ["ruby-libs"] h) = Ok tt ->
  exists config gems gem_names t,
    yaml_files w "ruby-libs.yaml" = Some config
    /\ Py.getitem config "gems" = Ok gems
    /\ iter_items (rewrite_config_items w "ruby" gems) = Ok gem_names
    /\ snd (_do_library_installs w env ["ruby-libs"] h)
       = ([EvLoadYaml "ruby-libs.yaml"; EvRun (gem_list_cmd env);
           EvRewrite "ruby" gems] ++ t)%list
    /\ ruby_rounds (ruby_ext env) (shown w) (gems_listed w env)
         (gems_listed w env (h ++ [EvLoadYaml "ruby-libs.yaml"])%list)
         (h ++ [EvLoadYaml "ruby-libs.yaml"; EvRun (gem_list_cmd env);
                EvRewrite "ruby" gems])%list
         gem_names t.
Proof.
  start_installer "ruby-libs" "ruby-libs.yaml".
  intros H. run_step H. pick_installer.
  unfold _ruby_library_installer, _cur_gems in *.
  rewrite bind_assoc in *. run_step H. rewrite bind_ret_l in *.
  run_step H. run_step H. run_step H.
  rewrite <- !app_assoc in *. cbn [app] in *.
  eexists _, _, _, _. split_and!; [(eassumption || reflexivity).. |].
  now apply ruby_loop_rounds.
Qed.

Lemma quiet_bind_lift_ok {A B} (a : A) (f : A -> M B) :
  quiet (f a) -> quiet (bind (lift (Ok a)) f).
Proof. intros H h. rewrite bind_lift_ok. apply H. Qed.

Lemma unhooked_installer_quiet (iname : string) :
  iname ∈ unhooked_installers ->
  quiet (_do_library_installs w env [iname]).
Proof.
  unfold unhooked_installers. rewrite !elem_of_cons, elem_of_nil.
  intros Hin.
  assert (Hq : quiet (config <-- load_yaml w (iname ++ ".yaml") ;;
                      installer <-- lift (lookup_installer (lib_installers w env)
                                            iname) ;;
                      installer config)).
  2: { intros h. unfold _do_library_installs. rewrite for_each_one. apply Hq. }
  apply quiet_bind; [apply quiet_load_yaml|].
  intros config.
  destruct Hin as [->|[->|[->|[]]]];
    cbn [lookup_installer lib_installers String.eqb Ascii.eqb Bool.eqb];
    apply quiet_bind_lift_ok.
  - apply quiet_r_installer.
  - apply quiet_clojure_installer.
  - apply quiet_haskell_installer.
Qed.

(** C6, as amended.  A run of the Python, Ruby or Perl installer that
    returns has called the rewrite hook exactly once, on the package list
    of the configuration just loaded, and every command of its loop over
    the packages comes after that call; the R, Clojure and Haskell
    installers never call the hook. *)
Theorem library_installers_rewrite_hook (h : list event) :
  (forall iname category key,
      (iname, (category, key)) ∈ hooked_installers ->
      fst (_do_library_installs w env [iname] h) = Ok tt ->
      exists config items names pre loop,
        yaml_files w (iname ++ ".yaml") = Some config
        /\ Py.getitem config key = Ok items
        /\ iter_items (rewrite_config_items w category items) = Ok names
        /\ snd (_do_library_installs w env [iname] h)
           = (EvLoadYaml (iname ++ ".yaml")
                :: pre ++ EvRewrite category items :: loop)%list
        /\ hook_calls (snd (_do_library_installs w env [iname] h)) = 1%nat
        /\ Forall (fun e => is_rewrite e = false) pre
        /\ Forall (fun e => is_rewrite e = false) loop
        /\ (iname = "python-libs" ->
            loop = map (fun pname =>
                          EvSafeSudo (pip_cmd w ++ " install --upgrade "
                                        ++ shown w pname)) names)
        /\ (iname = "perl-libs" ->
            exists sudo_str,
              loop = map (fun lib =>
                            EvRun ("cpanm " ++ sudo_str
                                     ++ " --skip-installed --notest "
                                     ++ shown w lib ++ " < /dev/null")) names)
        /\ (iname = "ruby-libs" ->
            exists listed installed h',
              ruby_rounds (ruby_ext env) (shown w) listed installed h'
                names loop))
  /\ (forall iname,
        iname ∈ unhooked_installers ->
        hook_calls (snd (_do_library_installs w env [iname] h)) = 0%nat).
Proof.
  split.
  - intros iname category key. unfold hooked_installers.
    rewrite !elem_of_cons, elem_of_nil.
    intros [E|[E|[E|[]]]] H; inversion E; subst; clear E.
    + destruct (python_installer_trace h H)
        as (config & pypi & pnames & ext & Hy & Hg & Hi & Ht).
      exists config, pypi, pnames,
        [EvSafeSudo ("easy_install" ++ ext ++ " -U pip")],
        (map (fun pname => EvSafeSudo (pip_install_cmd w pname)) pnames).
      assert (Hq : Forall (fun e => is_rewrite e = false)
                     (map (fun pname => EvSafeSudo (pip_install_cmd w pname))
                        pnames)) by now apply quiet_map.
      split_and!; try assumption; try discriminate.
      * rewrite Ht. cbn [app]. unfold hook_calls in *. cbn [List.filter is_rewrite].
        cbn [List.length]. f_equal. now apply hook_calls_quiet.
      * repeat constructor.
      * reflexivity.
    + destruct (ruby_installer_trace h H)
        as (config & gems & gem_names & t & Hy & Hg & Hi & Ht & Hr).
      exists config, gems, gem_names, [EvRun (gem_list_cmd env)], t.
      assert (Hq := ruby_rounds_quiet _ _ _ _ _ _ _ Hr).
      split_and!; try assumption; try discriminate.
      * rewrite Ht. cbn [app]. unfold hook_calls in *. cbn [List.filter is_rewrite].
        cbn [List.length]. f_equal. now apply hook_calls_quiet.
      * repeat constructor.
      * intros _. eauto.
    + destruct (perl_installer_trace h H)
        as (config & cpan & libs & sudo_str & sys & Hy & Hg & Hi & Ht).
      exists config, cpan, libs,
        [EvMakeTmpDir;
         EvRun (in_dir (tmp_dir w)
                  ("wget --no-check-certificate -O cpanm " ++ cpanm_url));
         EvRun (in_dir (tmp_dir w) "chmod a+rwx cpanm");
         EvSafeSudo (in_dir (tmp_dir w) ("mv cpanm " ++ sys ++ "/bin"));
         EvRemoveTmpDir],
        (map (fun lib => EvRun (cpanm_cmd w sudo_str lib)) libs).
      assert (Hq : Forall (fun e => is_rewrite e = false)
                     (map (fun lib => EvRun (cpanm_cmd w sudo_str lib)) libs))
        by now apply quiet_map.
      split_and!; try assumption; try discriminate.
      * rewrite Ht. cbn [app]. unfold hook_calls in *. cbn [List.filter is_rewrite].
        cbn [List.length]. f_equal. now apply hook_calls_quiet.
      * repeat constructor.
      * intros _. eauto.
  - intros iname Hin. apply hook_calls_quiet.
    now apply unhooked_installer_quiet.
Qed.

End HookFacts.

Section HookExamples.
Import Fabfile Traces Examples MoreExamples.

Lemma library_installers_rewrite_hook_witness :
  fst (_do_library_installs (world_with_yaml "python-libs.yaml" python_config)
         python_env ["python-libs"] []) = Ok tt
  /\ hook_calls
       (snd (_do_library_installs
               (world_with_yaml "python-libs.yaml" python_config)
               python_env ["python-libs"] [])) = 1%nat.
Proof.
  assert (Hok : fst (_do_library_installs
                       (world_with_yaml "python-libs.yaml" python_config)
                       python_env ["python-libs"] []) = Ok tt)
    by (vm_compute; reflexivity).
  split; [exact Hok|].
  destruct (proj1 (library_installers_rewrite_hook
              (world_with_yaml "python-libs.yaml" python_config)
              python_env [])
              "python-libs" "python" "pypi"
              (list_elem_of_here _ _) Hok)
    as (config & items & names & pre & loop & _ & _ & _ & _ & Hcalls & _).
  exact Hcalls.
Defined.

(** C6, as stated, fails: the Clojure installer runs its command for the
    configured library and never calls the hook. *)
Lemma clojure_installer_skips_hook :
  _do_library_installs (world_with_yaml "clojure-libs.yaml" clojure_config)
    [] ["clojure-libs"] []
  = (Ok tt, [EvLoadYaml "clojure-libs.yaml"; EvRun "cljr install incanter"])
  /\ hook_calls [EvLoadYaml "clojure-libs.yaml"; EvRun "cljr install incanter"]
     = 0%nat.
Proof. split; vm_compute; reflexivity. Qed.

Lemma ruby_installer_rounds_witness :
  exists t,
    snd (_ruby_library_installer gem_world [] ruby_config [])
    = EvRun "gem list --no-versions"
        :: EvRewrite "ruby" (names ["rake"; "bio"; "rake"]) :: t
    /\ ruby_rounds "" (shown gem_world)
         (fun h => gem_lines (run_output gem_world h "gem list --no-versions"))
         ["rake"]
         [EvRun "gem list --no-versions";
          EvRewrite "ruby" (names ["rake"; "bio"; "rake"])]
         [PStr "rake"; PStr "bio"; PStr "rake"] t.
Proof.
  assert (Hok : fst (_ruby_library_installer gem_world [] ruby_config [])
                = Ok tt) by (vm_compute; reflexivity).
  destruct (proj1 (ruby_installer_rounds gem_world [] ruby_config []) Hok)
    as (gems & gem_names & t & Hgems & Hnames & Htrace & Hrounds).
  vm_compute in Hgems. inversion Hgems; subst gems.
  vm_compute in Hnames. inversion Hnames; subst gem_names.
  exists t. split; [exact Htrace | exact Hrounds].
Defined.

(** The run of the Ruby installer on a host that has [rake] and lacks
    [bio], with the gems [rake], [bio], [rake] configured. *)
Example ruby_installer_run :
  _ruby_library_installer gem_world [] ruby_config []
  = (Ok tt,
     [EvRun "gem list --no-versions";
      EvRewrite "ruby" (names ["rake"; "bio"; "rake"]);
      EvSafeSudo "gem update rake";
      EvRun "gem list --no-versions";
      EvSafeSudo "gem install bio";
      EvSafeSudo "gem update rake"]).
Proof. vm_compute. reflexivity. Qed.

(** A gem that is not a string is never found in the set, so the
    installer queries again and installs it, under the text Python's [str]
    gives it. *)
Example ruby_installer_run_number :
  _ruby_library_installer gem_world [] mixed_ruby_config []
  = (Ok tt,
     [EvRun "gem list --no-versions";
      EvRewrite "ruby" (PList [PStr "rake"; PInt 3]);
      EvSafeSudo "gem update rake";
      EvRun "gem list --no-versions";
      EvSafeSudo "gem install 3"]).
Proof. vm_compute. reflexivity. Qed.

End HookExamples.

(** ** The phase orchestrator *)
Section OrchestratorFacts.
Import Fabfile.
Variable w : world.
Variable env : fabric_env.

Lemma filter_sublist {A} (f : A -> bool) (l : list A) :
  sublist (List.filter f l) l.
Proof.
  induction l as [|x l IH]; cbn [List.filter]; [constructor|].
  destruct (f x); now constructor.
Qed.

Lemma all_phases_NoDup : NoDup all_phases.
Proof.
  unfold all_phases. repeat constructor; rewrite ?elem_of_cons, elem_of_nil;
    intros H; repeat (destruct H as [H|H]; [discriminate|]); exact H.
Qed.

(** Six guarded blocks in a row do what a loop over the blocks whose guard
    holds does. *)
Lemma guarded_blocks (b : phase -> bool) (m : phase -> M unit)
    (h : list event) :
  (when (b Packages) (m Packages) ;;;
   when (b Custom) (m Custom) ;;;
   when (b ChefRecipes) (m ChefRecipes) ;;;
   when (b Libraries) (m Libraries) ;;;
   when (b PostInstall) (m PostInstall) ;;;
   when (b Cleanup) (m Cleanup)) h
  = for_each (List.filter b all_phases) m h.
Proof.
  unfold all_phases. cbn [List.filter]. revert h.
  destruct (b Packages), (b Custom), (b ChefRecipes), (b Libraries),
    (b PostInstall), (b Cleanup);
    cbn [when for_each]; intros h;
    repeat first
      [ reflexivity
      | rewrite bind_ret_l
      | apply bind_ext; intros [] ?
      | rewrite bind_ret_r ].
Qed.

(** C1.  [_perform_install] runs, after the main configuration is read,
    the phases that the target selects, each once and in the order
    packages, custom, chef_recipes, libraries, post_install, cleanup: with
    no target these are all six, with the target [libraries] the library
    installs alone, and in general the phases whose name the target is. *)
Theorem perform_install_phases (target flavor : option string)
    (h : list event) :
  _perform_install w env target flavor h = orchestrate w env target flavor h
  /\ phases_for None = all_phases
  /\ phases_for (Some "libraries") = [Libraries]
  /\ NoDup (phases_for target)
  /\ sublist (phases_for target) all_phases
  /\ (forall p, p ∈ phases_for target <->
                (target = None \/ target = Some (phase_name p)))
  /\ _perform_install w env (Some "libraries") flavor h
     = (config <-- _read_main_config w ;;
        _do_library_installs w env (snd (fst config))) h.
Proof.
  assert (Hrun : forall t, _perform_install w env t flavor h
                           = orchestrate w env t flavor h).
  { intros t. unfold _perform_install, orchestrate. apply bind_ext.
    intros [[pkg_install lib_install] custom_ignore] h'.
    apply (guarded_blocks (fun p => selected t (phase_name p))
             (run_phase w env t flavor (pkg_install, lib_install, custom_ignore))). }
  split_and!.
  - apply Hrun.
  - reflexivity.
  - reflexivity.
  - apply (sublist_NoDup _ all_phases); [apply all_phases_NoDup | apply filter_sublist].
  - apply filter_sublist.
  - intros p. unfold phases_for.
    rewrite list_elem_of_In, List.filter_In, <- list_elem_of_In.
    unfold selected.
    split.
    + intros [_ H]. destruct target as [t|]; [right|now left].
      apply String.eqb_eq in H. now subst.
    + intros H. split.
      * unfold all_phases. destruct p; rewrite !elem_of_cons; tauto.
      * destruct H as [->| ->]; [reflexivity | apply String.eqb_refl].
  - rewrite Hrun. unfold orchestrate. apply bind_ext.
    intros [[pkg_install lib_install] custom_ignore] h'.
    change (phases_for (Some "libraries")) with [Libraries].
    rewrite for_each_one. reflexivity.
Qed.

End OrchestratorFacts.

(** ** Custom installs and the ignore list *)
Section CustomInstallsFacts.
Import Fabfile Examples.
Variable w : world.
Variable env : fabric_env.

Lemma contains_names (p : string) (l : list string) :
  Py.contains p (names l) = Ok (bool_decide (p ∈ l)).
Proof.
  unfold names. cbn [Py.contains]. f_equal.
  induction l as [|x l IH]; cbn [map existsb]; [reflexivity|].
  rewrite IH. destruct (String.eqb_spec x p) as [->|Hne].
  - symmetry. apply bool_decide_eq_true. left.
  - cbn [orb]. apply bool_decide_ext. rewrite elem_of_cons.
    split; [tauto|]. intros [E|E]; [congruence | exact E].
Qed.

Lemma drop_ignored_names (ignored packages : list string) :
  drop_ignored (names ignored) packages
  = Ok (List.filter (fun p => negb (bool_decide (p ∈ ignored))) packages).
Proof.
  induction packages as [|p packages IH]; [reflexivity|].
  cbn [drop_ignored List.filter]. change (names ignored) with (PList (map PStr ignored)).
  cbn iota. fold (names ignored). rewrite contains_names, IH. cbn [res_bind].
  now destruct (negb (bool_decide (p ∈ ignored))).
Qed.

Lemma insert_members_known (k p : string) (members : list string)
    (m : gmap string string) :
  m !! p = Some k ->
  foldl (fun m p => <[p := k]> m) m members !! p = Some k.
Proof.
  revert m. induction members as [|q members IH]; intros m H; [exact H|].
  cbn [foldl]. apply IH. destruct (decide (q = p)) as [->|Hne].
  - apply lookup_insert_eq.
  - now rewrite lookup_insert_ne.
Qed.

Lemma insert_members_member (k p : string) (members : list string)
    (m : gmap string string) :
  p ∈ members ->
  foldl (fun m p => <[p := k]> m) m members !! p = Some k.
Proof.
  revert m. induction members as [|q members IH]; intros m H.
  - now apply elem_of_nil in H.
  - cbn [foldl]. apply elem_of_cons in H as [->|H].
    + apply insert_members_known, lookup_insert_eq.
    + now apply IH.
Qed.

Lemma insert_members_other (k p : string) (members : list string)
    (m : gmap string string) :
  p ∉ members ->
  foldl (fun m p => <[p := k]> m) m members !! p = m !! p.
Proof.
  revert m. induction members as [|q members IH]; intros m H; [reflexivity|].
  cbn [foldl]. rewrite not_elem_of_cons in H. destruct H as [Hne H].
  rewrite IH by exact H. now apply lookup_insert_ne.
Qed.

(** Every member of a group is a key of the reverse mapping, and what the
    mapping gives for it is a group that has it. *)
Lemma reverse_mapping_from (groups : list (string * list string))
    (m : gmap string string) (p : string) :
  (p ∈ flatten_groups groups \/ is_Some (m !! p)) ->
  exists g,
    foldl (fun m '(k, members) => foldl (fun m p => <[p := k]> m) m members)
      m groups !! p = Some g
    /\ (m !! p = Some g \/ exists members, (g, members) ∈ groups /\ p ∈ members).
Proof.
  revert m. induction groups as [|[k members] groups IH]; intros m H.
  - destruct H as [H|[g H]]; [now apply elem_of_nil in H|].
    exists g. split; [exact H | now left].
  - cbn [foldl].
    destruct (decide (p ∈ members)) as [Hin|Hnin].
    + destruct (IH (foldl (fun m p => <[p := k]> m) m members)) as (g & Hg & Hor).
      { right. rewrite (insert_members_member k p members m Hin). eauto. }
      exists g. split; [exact Hg|]. right.
      destruct Hor as [Hm|(members' & Hin' & Hp)].
      * rewrite (insert_members_member k p members m Hin) in Hm.
        inversion Hm; subst. exists members. split; [left | exact Hin].
      * exists members'. split; [now right | exact Hp].
    + destruct (IH (foldl (fun m p => <[p := k]> m) m members)) as (g & Hg & Hor).
      { rewrite (insert_members_other k p members m Hnin).
        destruct H as [H|H]; [left | now right].
        unfold flatten_groups in H. cbn [map List.concat snd] in H.
        apply elem_of_app in H as [H|H]; [contradiction | exact H]. }
      exists g. split; [exact Hg|].
      rewrite (insert_members_other k p members m Hnin) in Hor.
      destruct Hor as [Hm|(members' & Hin' & Hp)]; [now left | right].
      exists members'. split; [now right | exact Hp].
Qed.

Lemma reverse_mapping_member (groups : list (string * list string))
    (p : string) :
  p ∈ flatten_groups groups ->
  exists g members,
    reverse_mapping groups !! p = Some g /\ (g, members) ∈ groups /\ p ∈ members.
Proof.
  intros H. destruct (reverse_mapping_from groups ∅ p (or_introl H))
    as (g & Hg & [Hm|(members & Hin & Hp)]).
  - now rewrite lookup_empty in Hm.
  - now exists g, members.
Qed.

Lemma iter_items_names (l : list string) :
  iter_items (names l) = Ok (map PStr l).
Proof. reflexivity. Qed.

(** C2, as amended.  With the groups of [custom.yaml] resolved to a
    flattened list and a reverse mapping, [_custom_installs] hands to the
    flavor hook the flattened list without the members of the ignore
    list, and its loop goes over what the hook returns: over that same
    list, so over no ignored package, when the hook returns its list
    unchanged.  It hands to [install_custom] the whole reverse mapping,
    which has an entry for every resolved package, the ignored ones
    included. *)
Theorem custom_installs_ignore_list (to_install : pyobj)
    (ignored : list string) (groups chosen : list (string * list string)) :
  group_files w "custom.yaml" = Some groups ->
  select_groups (Some to_install) groups = Ok chosen ->
  let packages := flatten_groups chosen in
  let pkg_to_group := reverse_mapping chosen in
  let kept := List.filter (fun p => negb (bool_decide (p ∈ ignored))) packages in
  (forall h,
      _custom_installs w env to_install (names ignored) h
      = (ensure_local_install w env ;;;
         call w (EvLoadYaml "custom.yaml") ;;;
         items <-- rewrite w "custom" (names kept) ;;
         ps <-- lift (iter_items items) ;;
         for_each ps (fun p =>
           match p with
           | PStr s => install_custom w env s true (Some pkg_to_group) None
           | _ => call w EvSetupLogging ;;; raise AttributeError
           end)) h)
  /\ (forall p, p ∈ ignored -> p ∉ kept)
  /\ (forall p, p ∈ kept <-> (p ∈ packages /\ p ∉ ignored))
  /\ (rewrite_config_items w "custom" (names kept) = names kept ->
      forall h,
        _custom_installs w env to_install (names ignored) h
        = (ensure_local_install w env ;;;
           call w (EvLoadYaml "custom.yaml") ;;;
           call w (EvRewrite "custom" (names kept)) ;;;
           for_each kept (fun p =>
             install_custom w env p true (Some pkg_to_group) None)) h)
  /\ (forall p,
        p ∈ packages ->
        exists g members,
          pkg_to_group !! p = Some g /\ (g, members) ∈ chosen /\ p ∈ members).
Proof.
  intros Hgroups Hchosen packages pkg_to_group kept.
  assert (Hkept : forall p, p ∈ kept <-> (p ∈ packages /\ p ∉ ignored)).
  { intros p. unfold kept.
    rewrite list_elem_of_In, List.filter_In, <- list_elem_of_In.
    rewrite negb_true_iff, bool_decide_eq_false. reflexivity. }
  assert (Hrun : forall h,
      _custom_installs w env to_install (names ignored) h
      = (ensure_local_install w env ;;;
         call w (EvLoadYaml "custom.yaml") ;;;
         items <-- rewrite w "custom" (names kept) ;;
         ps <-- lift (iter_items items) ;;
         for_each ps (install_custom_item w env pkg_to_group)) h).
  { intros h. unfold _custom_installs, _yaml_to_packages.
    rewrite Hgroups, Hchosen.
    apply bind_ext. intros [] h1.
    rewrite bind_assoc. apply bind_ext. intros [] h2.
    rewrite bind_assoc, bind_lift_ok, bind_ret_l.
    fold packages. fold pkg_to_group.
    rewrite drop_ignored_names. fold kept.
    now rewrite bind_lift_ok. }
  split_and!.
  - exact Hrun.
  - intros p Hp Hin. apply Hkept in Hin. tauto.
  - exact Hkept.
  - intros Hsame h. rewrite Hrun.
    apply bind_ext. intros [] h1. apply bind_ext. intros [] h2.
    unfold bind, rewrite, call.
    destruct (fails w h2 (EvRewrite "custom" (names kept))); [reflexivity|].
    rewrite Hsame, iter_items_names. unfold lift.
    rewrite app_nil_r. cbn [app].
    assert (Hloop : forall l h',
              for_each (map PStr l) (install_custom_item w env pkg_to_group) h'
              = for_each l (fun p =>
                  install_custom w env p true (Some pkg_to_group) None) h').
    { induction l as [|x l IH]; intros h'; [reflexivity|].
      cbn [map for_each install_custom_item]. apply bind_ext.
      intros [] h''. apply IH. }
    rewrite Hloop.
    now destruct (for_each kept _ _).
  - intros p. apply reverse_mapping_member.
Qed.

End CustomInstallsFacts.

Section CustomInstallsExamples.
Import Fabfile Examples Calls MoreExamples.

Lemma custom_installs_ignore_list_witness :
  (forall p, p ∈ ["bwa"] -> p ∉ ["emboss"; "samtools-dev"])
  /\ exists g members,
       reverse_mapping [("bio_general", ["emboss"; "bwa"; "samtools-dev"])] !! "bwa"
       = Some g
       /\ (g, members) ∈ [("bio_general", ["emboss"; "bwa"; "samtools-dev"])]
       /\ "bwa" ∈ members.
Proof.
  destruct (custom_installs_ignore_list custom_world custom_env
              (names ["bio_general"]) ["bwa"] custom_groups
              [("bio_general", ["emboss"; "bwa"; "samtools-dev"])]
              eq_refl eq_refl)
    as (_ & Hignored & _ & _ & Hmapping).
  split; [exact Hignored|].
  apply Hmapping. apply elem_of_cons. right. apply elem_of_cons. now left.
Defined.

(** C2, as stated, fails: under a flavor whose hook adds [bwa] to the
    list it is given, the loop of the custom phase goes over [bwa] and
    installs it, although [bwa] is in the ignore list. *)
Lemma custom_installs_hook_adds_ignored :
  fst (_custom_installs hooked_world custom_env (names ["bio_general"])
         (names ["bwa"]) []) = Ok tt
  /\ snd (_custom_installs hooked_world custom_env (names ["bio_general"])
            (names ["bwa"]) []) !! 2%nat
     = Some (EvRewrite "custom" (names ["emboss"; "samtools-dev"]))
  /\ iter_items (rewrite_config_items hooked_world "custom"
                   (names ["emboss"; "samtools-dev"]))
     = Ok [PStr "emboss"; PStr "samtools-dev"; PStr "bwa"]
  /\ install_calls
       (snd (_custom_installs hooked_world custom_env (names ["bio_general"])
               (names ["bwa"]) []))
     = [("bio_general", "install_emboss");
        ("bio_general", "install_samtools_dev");
        ("bio_general", "install_bwa")].
Proof. split_and!; vm_compute; reflexivity. Qed.

(** The custom phase on that configuration, with [bwa] ignored. *)
Example custom_installs_run :
  snd (_custom_installs custom_world custom_env (names ["bio_general"])
         (names ["bwa"]) [])
  = [EvExists "/opt/install";
     EvLoadYaml "custom.yaml";
     EvRewrite "custom" (names ["emboss"; "samtools-dev"]);
     EvSetupLogging;
     EvLog "info" (Fmt "{0} {1} time: {2}"
                     [PStr "Custom install for '{0}'"; PList [PStr "emboss"];
                      PStr "start"]);
     EvLog "debug" (Fmt "Import %s" [PStr "emboss"]);
     EvImport "cloudbio.custom.bio_general";
     EvInstall "bio_general" "install_emboss" custom_env;
     EvLog "info" (Fmt "{0} {1} time: {2}"
                     [PStr "Custom install for '%s'"; PList [PStr "emboss"];
                      PStr "end"]);
     EvSetupLogging;
     EvLog "info" (Fmt "{0} {1} time: {2}"
                     [PStr "Custom install for '{0}'";
                      PList [PStr "samtools-dev"]; PStr "start"]);
     EvLog "debug" (Fmt "Import %s" [PStr "samtools-dev"]);
     EvImport "cloudbio.custom.bio_general";
     EvInstall "bio_general" "install_samtools_dev" custom_env;
     EvLog "info" (Fmt "{0} {1} time: {2}"
                     [PStr "Custom install for '%s'";
                      PList [PStr "samtools_dev"]; PStr "end"])].
Proof. vm_compute. reflexivity. Qed.

End CustomInstallsExamples.

(** ** The custom dispatcher *)
Section DispatcherFacts.
Import Fabfile Examples.
Variable w : world.
Variable env : fabric_env.







End DispatcherFacts.

Section DispatcherExamples.
Import Fabfile Examples.


(** C3 against the code.  A name that the reverse mapping does not have
    and for which there is no module makes [install_custom] raise
    [KeyError], not [ImportError]: the handler of the failed import reads
    the mapping at that name to word its message.  The same happens for a
    listed name with a hyphen whose module lacks the entry function, where
    the handler reads the mapping at the name with the underscore.  A
    listed name whose module is missing does raise [ImportError].  No
    command goes to the remote host in any of the three runs. *)
Theorem install_custom_unresolved_names :
  install_custom custom_world custom_env "novoalign" false None None []
  = (Raise (KeyError "novoalign"),
     [EvSetupLogging;
      EvLog "info" (Fmt "{0} {1} time: {2}"
                      [PStr "Custom install for '{0}'";
                       PList [PStr "novoalign"]; PStr "start"]);
      EvConfigureFabricEnvironment None;
      EvLoadYaml "custom.yaml";
      EvLog "debug" (Fmt "Import %s" [PStr "novoalign"]);
      EvImport "cloudbio.custom.novoalign"])
  /\ fst (install_custom partial_module_world custom_env "samtools-dev" false
            None None [])
     = Raise (KeyError "samtools_dev")
  /\ fst (install_custom no_modules_world custom_env "bwa" false None None [])
     = Raise (ImportError "Need to write a bio_general module in custom.")
  /\ Forall (fun e => is_remote e = false)
       (snd (install_custom partial_module_world custom_env "samtools-dev"
               false None None []))
  /\ Forall (fun e => is_remote e = false)
       (snd (install_custom no_modules_world custom_env "bwa" false None None [])).
Proof.
  split_and!; try (vm_compute; reflexivity);
    vm_compute; repeat constructor.
Qed.

End DispatcherExamples.

Section OrchestratorExamples.
Import Fabfile Examples.

(** The run with the target [libraries]: the configuration is read and
    the library phase runs, nothing else. *)
Example perform_install_libraries_run :
  _perform_install libraries_world plain_env (Some "libraries") None []
  = (Ok tt,
     [EvLoadYaml "main.yaml"; main_log;
      EvLoadYaml "clojure-libs.yaml"; EvRun "cljr install incanter"]).
Proof. vm_compute. reflexivity. Qed.

(** The run without a target: the six phases in their order. *)
Example perform_install_all_run :
  _perform_install libraries_world plain_env None None []
  = (Ok tt,
     [EvLoadYaml "main.yaml"; main_log;
      EvNativePackages (names ["minimal"]);
      EvUpdateBiolinuxLog None None;
      EvExists "/opt/install"; EvLoadYaml "custom.yaml";
      EvRewrite "custom" (names []);
      EvLoadYaml "chef_recipes.yaml"; EvRewrite "chef_recipes" (names []);
      EvLoadYaml "clojure-libs.yaml"; EvRun "cljr install incanter";
      EvEditionPostInstall (names ["minimal"]); EvFlavorPostInstall;
      EvCleanupSpace]).
Proof. vm_compute. reflexivity. Qed.

End OrchestratorExamples.

(** * Further properties *)

(** ** The comment stripper *)
Section StripFacts.
Import ChefUtils.

Lemma is_slash_eq (c : ascii) : is_slash c = true -> c = "/"%char.
Proof.
  unfold is_slash. intros H. apply Nat.eqb_eq in H.
  rewrite <- (ascii_nat_embedding c), H. reflexivity.
Qed.

Lemma is_star_eq (c : ascii) : is_star c = true -> c = "*"%char.
Proof.
  unfold is_star. intros H. apply Nat.eqb_eq in H.
  rewrite <- (ascii_nat_embedding c), H. reflexivity.
Qed.

Lemma greedy_split (p : ascii -> bool) (s : string) :
  exists taken, s = taken ++ snd (greedy p s).
Proof.
  induction s as [|c s [taken IH]]; [now exists ""|].
  cbn [greedy]. destruct (p c); [|now exists ""].
  destruct (greedy p s) as [n r]. cbn [snd] in *.
  exists (String c taken). rewrite append_cons. now f_equal.
Qed.

Lemma lazy_until_close_split (s : string) (n : nat) (r : string) :
  lazy_until_close s = Some (n, r) -> exists body, s = body ++ "*/" ++ r.
Proof.
  revert n r. induction s as [|c s IH]; intros n r H; [discriminate|].
  cbn [lazy_until_close] in H. destruct s as [|d s']; [discriminate|].
  destruct (is_star c && is_slash d) eqn:Hcd.
  - apply andb_prop in Hcd as [Hc Hd].
    apply is_star_eq in Hc. apply is_slash_eq in Hd. subst.
    inversion H; subst. now exists "".
  - destruct (lazy_until_close (String d s')) as [[n' r']|]; [|discriminate].
    inversion H; subst. destruct (IH n' r eq_refl) as [body Hb].
    exists (String c body). rewrite append_cons. now f_equal.
Qed.

(** Where the pattern matches there is a line comment or a block
    comment. *)
Lemma match_here_forms (s : string) (n : nat) :
  match_here s = Some n ->
  (exists pre post, s = pre ++ "//" ++ post)
  \/ (exists pre body post, s = pre ++ "/*" ++ body ++ "*/" ++ post).
Proof.
  unfold match_here. intros H.
  destruct (greedy_split hspace s) as [ws Hws].
  destruct (greedy hspace s) as [n1 r1]. cbn [snd] in Hws.
  destruct r1 as [|c1 [|c2 r2]]; try discriminate.
  destruct (is_slash c1) eqn:H1; [|discriminate].
  apply is_slash_eq in H1. subst c1.
  destruct (is_star c2) eqn:H2.
  - apply is_star_eq in H2. subst c2.
    destruct (lazy_until_close r2) as [[n2 r3]|] eqn:Hl; [|discriminate].
    apply lazy_until_close_split in Hl as [body Hb].
    right. exists ws, body, r3. rewrite Hws, Hb. reflexivity.
  - destruct (is_slash c2) eqn:H3; [|discriminate].
    apply is_slash_eq in H3. subst c2.
    left. exists ws, r2. rewrite Hws. reflexivity.
Qed.

Lemma search_from_forms (s : string) (i : nat) (m : nat * nat) :
  search_from i s = Some m ->
  (exists pre post, s = pre ++ "//" ++ post)
  \/ (exists pre body post, s = pre ++ "/*" ++ body ++ "*/" ++ post).
Proof.
  revert i. induction s as [|c s IH]; intros i H; cbn [search_from] in H.
  - destruct (match_here "") as [n|] eqn:Hm; [|discriminate].
    now apply match_here_forms in Hm.
  - destruct (match_here (String c s)) as [n|] eqn:Hm.
    + now apply match_here_forms in Hm.
    + apply IH in H as [(pre & post & E)|(pre & body & post & E)].
      * left. exists (String c pre), post. rewrite append_cons. now f_equal.
      * right. exists (String c pre), body, post. rewrite append_cons. now f_equal.
Qed.

Lemma strip_unchanged (content : string) :
  search content = None -> strip_comments content = content.
Proof.
  intros H. unfold strip_comments.
  destruct (String.length content); cbn [strip_loop]; [reflexivity|].
  now rewrite H.
Qed.

(** X1.  Stripping twice is stripping once: what [strip_comments] returns
    is left as it is by a second pass. *)
Theorem strip_comments_idempotent (content : string) :
  strip_comments (strip_comments content) = strip_comments content.
Proof. apply strip_unchanged, strip_comments_done. Qed.

(** X2.  [strip_comments] leaves a text as it is exactly when the text
    holds no two slashes in a row and no slash-star that a star-slash
    follows; a single slash, as in a path, or a block comment that is never
    closed, stays. *)
Theorem strip_comments_fixed_points (content : string) :
  strip_comments content = content
  <-> ((forall pre post, content <> pre ++ "//" ++ post)
       /\ (forall pre body post,
             content <> pre ++ "/*" ++ body ++ "*/" ++ post)).
Proof.
  split.
  - intros E. pose proof (strip_comments_done content) as Hd.
    rewrite E in Hd. split.
    + intros pre post ->. now apply (search_line_comment pre post).
    + intros pre body post ->. now apply (search_block_comment pre body post).
  - intros [Hline Hblock]. apply strip_unchanged.
    destruct (search content) as [m|] eqn:Hs; [exfalso|reflexivity].
    apply search_from_forms in Hs as [(pre & post & E)|(pre & body & post & E)].
    + now apply (Hline pre post).
    + now apply (Hblock pre body post).
Qed.

End StripFacts.

Section StripSubsequence.
Import ChefUtils.

Lemma chars_append (a b : string) :
  list_ascii_of_string (a ++ b)
  = (list_ascii_of_string a ++ list_ascii_of_string b)%list.
Proof.
  induction a as [|c a IH]; [reflexivity|].
  rewrite append_cons. cbn [list_ascii_of_string app]. now rewrite IH.
Qed.

Lemma chars_take (n : nat) (s : string) :
  list_ascii_of_string (PyStr.take n s) = take n (list_ascii_of_string s).
Proof.
  revert s. induction n as [|n IH]; intros [|c s]; try reflexivity.
  cbn [PyStr.take list_ascii_of_string take]. now rewrite IH.
Qed.

Lemma chars_drop (n : nat) (s : string) :
  list_ascii_of_string (PyStr.drop n s) = drop n (list_ascii_of_string s).
Proof.
  revert s. induction n as [|n IH]; intros [|c s]; try reflexivity.
  cbn [PyStr.drop list_ascii_of_string drop]. apply IH.
Qed.

Lemma cut_sublist {A} (l : list A) (st en : nat) :
  (st <= en)%nat -> sublist (take st l ++ drop en l)%list l.
Proof.
  intros H. rewrite <- (take_drop st l) at 3.
  apply sublist_app; [reflexivity|].
  replace en with (st + (en - st))%nat by lia.
  rewrite <- drop_drop. apply sublist_drop.
Qed.

Lemma strip_loop_sublist (fuel : nat) (content : string) :
  sublist (list_ascii_of_string (strip_loop fuel content))
    (list_ascii_of_string content).
Proof.
  revert content. induction fuel as [|fuel IH]; intros content;
    cbn [strip_loop]; [reflexivity|].
  destruct (search content) as [[st en]|] eqn:Hs; [|reflexivity].
  etransitivity; [apply IH|].
  rewrite chars_append, chars_take, chars_drop.
  apply cut_sublist. apply search_from_bounds in Hs. lia.
Qed.

(** X3.  Stripping only deletes: the characters of what [strip_comments]
    returns are characters of the content, in the order they had there, so
    the result is never longer than the content. *)
Theorem strip_comments_only_deletes (content : string) :
  sublist (list_ascii_of_string (strip_comments content))
    (list_ascii_of_string content)
  /\ (String.length (strip_comments content) <= String.length content)%nat.
Proof.
  assert (H := strip_loop_sublist (String.length content) content).
  split; [exact H|].
  apply sublist_length in H.
  assert (Hlen : forall s, List.length (list_ascii_of_string s) = String.length s).
  { induction s as [|c s IH]; [reflexivity|]. cbn. now rewrite IH. }
  rewrite !Hlen in H. exact H.
Qed.

End StripSubsequence.

(** ** More on [build_chef_properties] *)
Section ChefMoreFacts.
Import ChefUtils ChefFold.

Lemma fold_origin (env : fabric_env) (m : gmap string pyobj) (k : string)
    (v : pyobj) :
  fold m env !! k = Some v ->
  m !! k = Some v
  \/ exists key s, (key, EStr s) ∈ env /\ k = chef_key key /\ v = PStr s.
Proof.
  revert m. induction env as [|[key value] env IH]; intros m H; [now left|].
  unfold fold in H. cbn [foldl] in H.
  apply IH in H as [H|(key' & s' & Hin & Hk & Hv)].
  - unfold store in H. cbn [fst snd] in H.
    destruct (m !! key); [now left|].
    destruct value as [s| | | | |]; cbn in H; try (now left).
    destruct (decide (chef_key key = k)) as [E|E].
    + rewrite E, lookup_insert_eq in H. inversion H; subst.
      right. exists key, s. split_and!; [left | reflexivity..].
    + rewrite lookup_insert_ne in H by exact E. now left.
  - right. exists key', s'. split_and!; [now right | assumption..].
Qed.

(** X4.  [build_chef_properties] never drops a key of [node_extra.json],
    and whatever the result holds that the file did not give is a string
    of the environment under the storage key of its entry. *)
Theorem build_chef_properties_keys
    (json_loads : string -> res pyobj) (files : string -> option string)
    (env : fabric_env) (config_file : string) (m : gmap string pyobj) :
  _parse_json json_loads files config_file = Ok (PDict m) ->
  exists m' : gmap string pyobj,
    build_chef_properties json_loads files env config_file = Ok (PDict m')
    /\ (forall k, is_Some (m !! k) -> is_Some (m' !! k))
    /\ (forall k v,
          m' !! k = Some v ->
          m !! k = Some v
          \/ exists key s,
               (key, EStr s) ∈ env /\ k = chef_key key /\ v = PStr s).
Proof.
  intros Hparse. exists (fold m env).
  unfold build_chef_properties. rewrite Hparse. cbn [res_bind].
  split_and!; [apply chef_loop_dict | intros k; apply fold_keeps |
               intros k v; apply fold_origin].
Qed.

(** Whether some string entry of [env] is stored under [k]. *)
Lemma stored_under_dec (env : fabric_env) (k : string) :
  (exists key s, (key, EStr s) ∈ env /\ chef_key key = k)
  \/ (forall key s, (key, EStr s) ∈ env -> chef_key key <> k).
Proof.
  induction env as [|[key value] env [IH|IH]].
  - right. intros key s H. now apply elem_of_nil in H.
  - left. destruct IH as (key' & s & Hin & E). exists key', s. split; [now right | exact E].
  - destruct (isinstance_str value) as [s|] eqn:Hs.
    + destruct value; try discriminate. inversion Hs; subst.
      destruct (decide (chef_key key = k)) as [E|E].
      * left. exists key, s. split; [left | exact E].
      * right. intros key' s' H. apply elem_of_cons in H as [H|H].
        -- inversion H; subst. exact E.
        -- now apply (IH key' s').
    + right. intros key' s' H. apply elem_of_cons in H as [H|H].
      * inversion H; subst. discriminate.
      * now apply (IH key' s').
Qed.

(** X5.  When no key of a string entry is in the file or is the storage
    key of an entry, and the entries stored under one key agree, the
    result of [build_chef_properties] does not depend on the order in which
    the environment yields its items. *)
Theorem build_chef_properties_order
    (json_loads : string -> res pyobj) (files : string -> option string)
    (env env' : fabric_env) (config_file : string) (m : gmap string pyobj) :
  _parse_json json_loads files config_file = Ok (PDict m) ->
  env ≡ₚ env' ->
  (forall key s, (key, EStr s) ∈ env -> m !! key = None) ->
  (forall key s key' s',
      (key, EStr s) ∈ env -> (key', EStr s') ∈ env -> chef_key key' <> key) ->
  (forall key s key' s',
      (key, EStr s) ∈ env -> (key', EStr s') ∈ env ->
      chef_key key' = chef_key key -> s' = s) ->
  build_chef_properties json_loads files env config_file
  = build_chef_properties json_loads files env' config_file.
Proof.
  intros Hparse Hperm Hfree Hne Hagree.
  unfold build_chef_properties. rewrite Hparse. cbn [res_bind].
  rewrite !chef_loop_dict. do 2 f_equal. apply map_eq. intros k.
  assert (Hin : forall x, x ∈ env <-> x ∈ env')
    by (intros x; now rewrite Hperm).
  destruct (stored_under_dec env k) as [(key & s & Hkey & <-)|Hnone].
  - rewrite (fold_stored env m key s), (fold_stored env' m key s); eauto.
    + apply Hin, Hkey.
    + intros key' s' H. apply Hin in H. eauto.
    + intros key' s' H. apply Hin in H. eauto.
  - rewrite (fold_frame env m k), (fold_frame env' m k); eauto.
    intros key s H. apply Hin in H. eauto.
Qed.

Lemma prefix_split (p s : string) :
  String.prefix p s = true -> s = p ++ PyStr.drop (String.length p) s.
Proof.
  revert s. induction p as [|c p IH]; intros s H; [reflexivity|].
  destruct s as [|d s]; [discriminate|]. cbn [String.prefix] in H.
  destruct (ascii_dec c d) as [->|]; [|discriminate].
  rewrite append_cons. cbn [String.length PyStr.drop]. f_equal. now apply IH.
Qed.

Lemma append_cancel_l (p a b : string) : p ++ a = p ++ b -> a = b.
Proof.
  induction p as [|c p IH]; [trivial|].
  rewrite !append_cons. intros H. inversion H. now apply IH.
Qed.

(** X6.  Two entries of the environment share a storage key only if they
    have the same key, or if one key is the other with
    [chef_cloudbiolinux_] put before it; and the storage key of a key with
    the prefix [chef_] gives the key back when the prefix is put back. *)
Theorem chef_key_clashes (k1 k2 : string) :
  (chef_key k1 = chef_key k2 ->
   k1 = k2
   \/ k1 = "chef_cloudbiolinux_" ++ k2
   \/ k2 = "chef_cloudbiolinux_" ++ k1)
  /\ (PyStr.startswith "chef_" k1 = true -> "chef_" ++ chef_key k1 = k1).
Proof.
  split.
  - unfold chef_key, PyStr.startswith.
    destruct (String.prefix "chef_" k1) eqn:H1;
      destruct (String.prefix "chef_" k2) eqn:H2; intros E.
    + left. rewrite (prefix_split _ _ H1), (prefix_split _ _ H2). now rewrite E.
    + right. left. rewrite (prefix_split _ _ H1), E. reflexivity.
    + right. right. rewrite (prefix_split _ _ H2), <- E. reflexivity.
    + left. now apply append_cancel_l in E.
  - intros H. unfold chef_key. rewrite H. symmetry. now apply prefix_split.
Qed.

(** The keys of the strings of a list, as [key in json_properties] sees
    them. *)
Lemma chef_loop_list (l : list pyobj) (env : fabric_env) :
  chef_loop (PList l) env
  = if forallb (fun kv =>
                  existsb (fun x => match x with
                                    | PStr s => String.eqb s kv.1
                                    | _ => false
                                    end) l
                  || negb (is_string_entry kv)) env
    then Ok (PList l) else Raise TypeError.
Proof.
  induction env as [|[key value] env IH]; [reflexivity|].
  cbn [chef_loop chef_step Py.contains res_bind forallb fst snd].
  unfold is_string_entry at 1. cbn [snd].
  destruct (existsb _ l); cbn [orb andb].
  - exact IH.
  - destruct (isinstance_str value); cbn [negb andb Py.setitem res_bind];
      [reflexivity | exact IH].
Qed.

(** X7.  When [node_extra.json] holds a list, [build_chef_properties]
    returns the list as it is if every string entry of the environment has
    its key among the strings of the list, and raises [TypeError]
    otherwise; when it holds a number, a boolean or a null, any entry in
    the environment makes it raise [TypeError]. *)
Theorem build_chef_properties_not_a_dict
    (json_loads : string -> res pyobj) (files : string -> option string)
    (env : fabric_env) (config_file : string) (parsed : pyobj) :
  _parse_json json_loads files config_file = Ok parsed ->
  (forall l,
      parsed = PList l ->
      build_chef_properties json_loads files env config_file
      = if forallb (fun kv =>
                      existsb (fun x => match x with
                                        | PStr s => String.eqb s kv.1
                                        | _ => false
                                        end) l
                      || negb (is_string_entry kv)) env
        then Ok (PList l) else Raise TypeError)
  /\ (match parsed with
      | PNone | PBool _ | PInt _ | PFloat _ => True
      | _ => False
      end ->
      env <> [] ->
      build_chef_properties json_loads files env config_file = Raise TypeError).
Proof.
  intros Hparse. unfold build_chef_properties. rewrite Hparse. cbn [res_bind].
  split.
  - intros l ->. apply chef_loop_list.
  - intros Hscalar Hne. destruct env as [|[key value] env]; [contradiction|].
    destruct parsed; try contradiction; reflexivity.
Qed.

End ChefMoreFacts.

(** ** More on the CloudMan launcher *)
Section CloudmanMoreFacts.
Import Cloudman.
Variable eval_template : fabric_env -> pyobj -> res pyobj.
Variable yaml_dump : pyobj -> string.
Variable env : fabric_env.

Lemma set_property_dict (m : gmap string pyobj) (property : string)
    (value : pyobj) :
  exists m' : gmap string pyobj,
    _set_property_if_needed (PDict m) property value = Ok (PDict m')
    /\ m' !! property = Some (default value (m !! property))
    /\ (forall k, k <> property -> m' !! k = m !! k).
Proof.
  unfold _set_property_if_needed. cbn [Py.contains res_bind].
  destruct (m !! property) as [v|] eqn:Hp.
  - rewrite bool_decide_true by eauto. exists m. now split_and!.
  - rewrite bool_decide_false by (intros [? ?]; congruence).
    exists (<[property := value]> m). cbn [Py.setitem]. split_and!.
    + reflexivity.
    + apply lookup_insert_eq.
    + intros k Hk. now apply lookup_insert_ne.
Qed.

(** X8.  [_prepare_user_data] fills in, and never replaces: in what it
    hands to [yaml.dump], every property the options gave under
    [user_data] is as given, except [skip_cloudman]; [access_key] and
    [secret_key] come from the launcher, [cluster_name] from the template
    and [password] from the options or the default, each only when
    [user_data] did not have it; and [skip_cloudman] is set to true
    whenever the options do not hold a true [skip_cloudman] of their
    own. *)
Theorem prepare_user_data_fills
    (launcher : vm_launcher) (options : gmap string pyobj)
    (cloudman_options user_data : gmap string pyobj) (cluster_name : pyobj) :
  options !! "cloudman" = Some (PDict cloudman_options) ->
  default (PDict ∅) (cloudman_options !! "user_data") = PDict user_data ->
  eval_template env
    (default (PStr DEFAULT_CLOUDMAN_CLUSTER_NAME)
       (cloudman_options !! "cluster_name")) = Ok cluster_name ->
  exists filled : gmap string pyobj,
    _prepare_user_data eval_template yaml_dump env launcher (PDict options)
    = Ok (yaml_dump (PDict filled))
    /\ (forall k v, k <> "skip_cloudman" ->
                    user_data !! k = Some v -> filled !! k = Some v)
    /\ filled !! "access_key"
       = Some (default (access_id launcher) (user_data !! "access_key"))
    /\ filled !! "secret_key"
       = Some (default (secret_key launcher) (user_data !! "secret_key"))
    /\ filled !! "cluster_name"
       = Some (default cluster_name (user_data !! "cluster_name"))
    /\ filled !! "password"
       = Some (default
                 (default (PStr DEFAULT_CLOUDMAN_PASSWORD)
                    (cloudman_options !! "password"))
                 (user_data !! "password"))
    /\ filled !! "skip_cloudman"
       = (if Py.truthy (default (PBool false) (options !! "skip_cloudman"))
          then user_data !! "skip_cloudman"
          else Some (PBool true))
    /\ (forall k,
          k ∉ ["access_key"; "secret_key"; "cluster_name"; "password";
               "skip_cloudman"] ->
          filled !! k = user_data !! k).
Proof.
  intros Hopts Hud Htemplate.
  unfold _prepare_user_data. cbn [Py.get res_bind].
  rewrite Hopts.
  change (default PNone (Some (PDict cloudman_options)))
    with (PDict cloudman_options).
  cbn [res_bind Py.get]. rewrite Hud.
  destruct (set_property_dict user_data "access_key" (access_id launcher))
    as (m1 & -> & H1 & H1'). cbn [res_bind].
  destruct (set_property_dict m1 "secret_key" (secret_key launcher))
    as (m2 & -> & H2 & H2'). cbn [res_bind].
  rewrite Htemplate. cbn [res_bind].
  destruct (set_property_dict m2 "cluster_name" cluster_name)
    as (m3 & -> & H3 & H3'). cbn [res_bind].
  destruct (set_property_dict m3 "password"
              (default (PStr DEFAULT_CLOUDMAN_PASSWORD)
                 (cloudman_options !! "password")))
    as (m4 & -> & H4 & H4'). cbn [res_bind].
  assert (Hak : m4 !! "access_key"
                = Some (default (access_id launcher) (user_data !! "access_key")))
    by (rewrite H4', H3', H2' by done; exact H1).
  assert (Hsk : m4 !! "secret_key"
                = Some (default (secret_key launcher) (user_data !! "secret_key")))
    by (rewrite H4', H3', H2, H1' by done; reflexivity).
  assert (Hcn : m4 !! "cluster_name"
                = Some (default cluster_name (user_data !! "cluster_name")))
    by (rewrite H4', H3, H2', H1' by done; reflexivity).
  assert (Hpw : m4 !! "password"
                = Some (default
                          (default (PStr DEFAULT_CLOUDMAN_PASSWORD)
                             (cloudman_options !! "password"))
                          (user_data !! "password")))
    by (rewrite H4, H3', H2', H1' by done; reflexivity).
  assert (Hother : forall k,
             k ∉ ["access_key"; "secret_key"; "cluster_name"; "password"] ->
             m4 !! k = user_data !! k).
  { intros k Hk. rewrite !not_elem_of_cons in Hk.
    destruct Hk as (? & ? & ? & ? & _).
    rewrite H4', H3', H2', H1' by done. reflexivity. }
  assert (Hkept : forall k v, user_data !! k = Some v -> m4 !! k = Some v).
  { intros k v Hk.
    destruct (decide (k = "access_key")) as [->|];
      [rewrite Hak, Hk; reflexivity|].
    destruct (decide (k = "secret_key")) as [->|];
      [rewrite Hsk, Hk; reflexivity|].
    destruct (decide (k = "cluster_name")) as [->|];
      [rewrite Hcn, Hk; reflexivity|].
    destruct (decide (k = "password")) as [->|];
      [rewrite Hpw, Hk; reflexivity|].
    rewrite Hother, Hk; [reflexivity|].
    rewrite !not_elem_of_cons. split_and!; try done. apply not_elem_of_nil. }
  destruct (Py.truthy (default (PBool false) (options !! "skip_cloudman")))
    eqn:Hskip; cbn [res_bind Py.setitem].
  - exists m4. split_and!; try done.
    + intros k v _. apply Hkept.
    + apply Hother. rewrite !not_elem_of_cons. split_and!; try done.
      apply not_elem_of_nil.
    + intros k Hk. apply Hother. rewrite !not_elem_of_cons in *.
      destruct Hk as (? & ? & ? & ? & ? & _). split_and!; try done.
      apply not_elem_of_nil.
  - exists (<["skip_cloudman" := PBool true]> m4).
    split_and!; try done.
    + intros k v Hk Hv. rewrite lookup_insert_ne by done. now apply Hkept.
    + now rewrite lookup_insert_ne.
    + now rewrite lookup_insert_ne.
    + now rewrite lookup_insert_ne.
    + now rewrite lookup_insert_ne.
    + apply lookup_insert_eq.
    + intros k Hk. rewrite !not_elem_of_cons in Hk.
      destruct Hk as (? & ? & ? & ? & ? & _).
      rewrite lookup_insert_ne by done. apply Hother.
      rewrite !not_elem_of_cons. split_and!; try done. apply not_elem_of_nil.
Qed.

(** X9.  Unless [image_id] is the marker [__use_snaps__], [cloudman_launch]
    does not look at the snapshot manifest: it does the same whatever files
    there are, and a request it makes carries the [image_id] of the
    options ([None] when they have none) and their [size_id]. *)
Theorem cloudman_launch_plain_image
    (yaml_files yaml_files' : string -> option pyobj)
    (launcher : vm_launcher) (options cloudman_options image : pyobj) :
  Py.get options "cloudman" PNone = Ok cloudman_options ->
  Py.get cloudman_options "image_id" PNone = Ok image ->
  is_use_snaps image = false ->
  cloudman_launch yaml_files eval_template yaml_dump env launcher options
  = cloudman_launch yaml_files' eval_template yaml_dump env launcher options
  /\ (forall request,
        cloudman_launch yaml_files eval_template yaml_dump env launcher options
        = Ok request ->
        node_name request = "cloudman"
        /\ image_id request = image
        /\ Py.get cloudman_options "size_id" PNone = Ok (size_id request)).
Proof.
  intros Hopts Himage Hplain. unfold cloudman_launch.
  rewrite Hopts. cbn [res_bind]. rewrite Himage. cbn [res_bind].
  rewrite Hplain. cbn [res_bind]. split; [reflexivity|].
  intros request H.
  destruct (Py.get cloudman_options "size_id" PNone) as [size|];
    [cbn [res_bind] in H | discriminate H].
  destruct (_prepare_user_data eval_template yaml_dump env launcher options);
    [cbn [res_bind] in H | discriminate H].
  inversion H; subst. now split_and!.
Qed.

(** X10.  With the marker, a [bucket_source] that is not a string makes
    [cloudman_launch] raise [AttributeError]; a manifest that is not there
    makes it raise the exception that names the path looked at, which is
    [snaps.yaml] under the bucket, with one slash between the two; and a
    manifest without the key [clouds] makes it raise [KeyError]. *)
Theorem cloudman_launch_manifest_errors
    (yaml_files : string -> option pyobj)
    (launcher : vm_launcher) (options cloudman_options image bucket : pyobj) :
  Py.get options "cloudman" PNone = Ok cloudman_options ->
  Py.get cloudman_options "image_id" PNone = Ok image ->
  is_use_snaps image = true ->
  Py.get cloudman_options "bucket_source" PNone = Ok bucket ->
  let launch :=
    cloudman_launch yaml_files eval_template yaml_dump env launcher options in
  ((forall s, bucket <> PStr s) -> launch = Raise AttributeError)
  /\ (forall s,
        bucket = PStr s ->
        let path := if String.eqb s "" || PyStr.endswith "/" s
                    then s ++ "snaps.yaml" else s ++ "/snaps.yaml" in
        (yaml_files path = None ->
         launch = Raise (Exception (msg_no_snaps path)))
        /\ (forall manifest,
              yaml_files path = Some (PDict manifest) ->
              manifest !! "clouds" = None ->
              launch = Raise (KeyError "clouds"))).
Proof.
  intros Hopts Himage Hmarker Hbucket launch. subst launch.
  unfold cloudman_launch. rewrite Hopts. cbn [res_bind].
  rewrite Himage. cbn [res_bind]. rewrite Hmarker.
  unfold image_from_snaps. rewrite Hbucket. cbn [res_bind].
  split.
  - intros Hns. destruct bucket; try reflexivity. now contradiction (Hns s).
  - intros s ->. cbn zeta. unfold join.
    change ("/" ++ "snaps.yaml") with "/snaps.yaml".
    destruct (String.eqb s "" || PyStr.endswith "/" s); cbn [res_bind];
      (split; [intros ->; reflexivity |
               intros manifest -> Hc; cbn [Py.getitem res_bind];
               now rewrite Hc]).
Qed.

End CloudmanMoreFacts.

(** ** Runs that make no call of some kind *)
Section AvoidsFacts.
Import Fabfile Calls.
Variable P : event -> bool.

Lemma avoids_ret {A} (a : A) : avoids P (ret a).
Proof. intros h. constructor. Qed.

Lemma avoids_raise {A} (e : exn) : avoids P (@raise A e).
Proof. intros h. constructor. Qed.

Lemma avoids_lift {A} (r : res A) : avoids P (lift r).
Proof. intros h. constructor. Qed.

Lemma avoids_bind {A B} (m : M A) (f : A -> M B) :
  avoids P m -> (forall a, avoids P (f a)) -> avoids P (bind m f).
Proof.
  intros Hm Hf h. unfold bind. specialize (Hm h).
  destruct (m h) as [[a|e] t]; [|exact Hm].
  specialize (Hf a (h ++ t)%list).
  destruct (f a (h ++ t)%list) as [r t']. cbn [snd] in *.
  apply Forall_app. split; assumption.
Qed.

Lemma avoids_when (b : bool) (m : M unit) : avoids P m -> avoids P (when b m).
Proof. destruct b; [trivial | intros _; apply avoids_ret]. Qed.

Lemma avoids_for_each {A} (l : list A) (body : A -> M unit) :
  (forall x, avoids P (body x)) -> avoids P (for_each l body).
Proof.
  intros H. induction l as [|x l IH]; cbn [for_each].
  - apply avoids_ret.
  - apply avoids_bind; [apply H | intros _; exact IH].
Qed.

Lemma avoids_call (w : world) (e : event) : P e = false -> avoids P (call w e).
Proof. intros H h. cbn. repeat constructor. exact H. Qed.

Lemma avoids_record (e : event) : P e = false -> avoids P (record e).
Proof. intros H h. cbn. repeat constructor. exact H. Qed.

Lemma avoids_log (level : string) (msg : text) :
  P (EvLog level msg) = false -> avoids P (log level msg).
Proof. apply avoids_record. Qed.

Lemma avoids_run (w : world) (cmd : string) :
  P (EvRun cmd) = false -> avoids P (run w cmd).
Proof. intros H h. cbn. repeat constructor. exact H. Qed.

Lemma avoids_load_yaml (w : world) (name : string) :
  P (EvLoadYaml name) = false -> avoids P (load_yaml w name).
Proof. intros H h. cbn. repeat constructor. exact H. Qed.

Lemma avoids_rewrite (w : world) (name : string) (items : pyobj) :
  P (EvRewrite name items) = false -> avoids P (rewrite w name items).
Proof. intros H h. cbn. repeat constructor. exact H. Qed.

Lemma avoids_import (w : world) (mod_name : string) :
  P (EvImport ("cloudbio.custom." ++ mod_name)) = false ->
  avoids P (import_custom w mod_name).
Proof. intros H h. cbn. repeat constructor. exact H. Qed.

Lemma avoids_not_in {A} (m : M A) (h : list event) (e : event) :
  avoids P m -> P e = true -> e ∉ snd (m h).
Proof.
  intros Hm He Hin. specialize (Hm h).
  rewrite Forall_forall in Hm. specialize (Hm e Hin). congruence.
Qed.

End AvoidsFacts.

(** ** The dispatch table and [_do_library_installs] *)
Section DispatchTableFacts.
Import Fabfile Calls.
Variable w : world.
Variable env : fabric_env.

Lemma lookup_installer_unknown (iname : string) :
  iname ∉ installer_names ->
  lookup_installer (lib_installers w env) iname = Raise (KeyError iname).
Proof.
  unfold installer_names. rewrite !not_elem_of_cons.
  intros (H1 & H2 & H3 & H4 & H5 & H6 & _).
  unfold lib_installers. cbn [lookup_installer].
  repeat match goal with
         | |- context [String.eqb ?k iname] =>
             let E := fresh in
             destruct (String.eqb_spec k iname) as [E|E];
             [symmetry in E; contradiction|]
         end.
  reflexivity.
Qed.

Lemma lookup_installer_known (iname : string) :
  iname ∈ installer_names ->
  exists installer, lookup_installer (lib_installers w env) iname = Ok installer.
Proof.
  unfold installer_names. rewrite !elem_of_cons, elem_of_nil.
  intros [->|[->|[->|[->|[->|[->|[]]]]]]]; eexists; reflexivity.
Qed.

(** X11.  The dispatch table has the six names and no other: for any other
    name [_do_library_installs] loads the configuration file of that name
    and then raises [KeyError], if the file could be read, without a call
    of any other kind; it never returns. *)
Theorem library_installs_unknown_name (iname : string) (h : list event) :
  iname ∉ installer_names ->
  snd (_do_library_installs w env [iname] h) = [EvLoadYaml (iname ++ ".yaml")]
  /\ fst (_do_library_installs w env [iname] h) <> Ok tt
  /\ (forall config,
        fails w h (EvLoadYaml (iname ++ ".yaml")) = None ->
        yaml_files w (iname ++ ".yaml") = Some config ->
        fst (_do_library_installs w env [iname] h) = Raise (KeyError iname)).
Proof.
  intros Hin. unfold _do_library_installs. rewrite for_each_one.
  rewrite (lookup_installer_unknown iname Hin).
  unfold bind, load_yaml, lift.
  destruct (fails w h (EvLoadYaml (iname ++ ".yaml"))) as [x|].
  - split_and!; [reflexivity | discriminate | discriminate].
  - destruct (yaml_files w (iname ++ ".yaml")) as [config|].
    + split_and!; [reflexivity | discriminate | reflexivity].
    + split_and!; [reflexivity | discriminate | discriminate].
Qed.

Lemma for_each_app {A} (l1 l2 : list A) (body : A -> M unit)
    (h : list event) :
  for_each (l1 ++ l2)%list body h
  = (for_each l1 body ;;; for_each l2 body) h.
Proof.
  revert h. induction l1 as [|x l1 IH]; intros h; cbn [app for_each].
  - now rewrite bind_ret_l.
  - rewrite bind_assoc. apply bind_ext. intros [] h'. apply IH.
Qed.

(** X12.  Installing the libraries of two lists in a row is installing
    those of the first list and then, if that returned, those of the
    second: when an installer of the first list raises, nothing of the
    second list is touched. *)
Theorem library_installs_in_sequence (l1 l2 : list string) (h : list event) :
  _do_library_installs w env (l1 ++ l2)%list h
  = (_do_library_installs w env l1 ;;; _do_library_installs w env l2) h
  /\ (forall e,
        fst (_do_library_installs w env l1 h) = Raise e ->
        _do_library_installs w env (l1 ++ l2)%list h
        = _do_library_installs w env l1 h).
Proof.
  assert (Happ : _do_library_installs w env (l1 ++ l2)%list h
                 = (_do_library_installs w env l1 ;;;
                    _do_library_installs w env l2) h)
    by apply for_each_app.
  split; [exact Happ|].
  intros e He. rewrite Happ. unfold bind.
  destruct (_do_library_installs w env l1 h) as [[[]|e'] t];
    [discriminate He | reflexivity].
Qed.

End DispatchTableFacts.

(** ** The order of the libraries *)
Section SortedFacts.
Import Fabfile.

Lemma insert_sorted_perm (x : string) (l : list string) :
  PyStr.insert_sorted x l ≡ₚ x :: l.
Proof.
  induction l as [|y l IH]; [reflexivity|].
  cbn [PyStr.insert_sorted]. destruct (String.leb x y); [reflexivity|].
  rewrite IH. apply Permutation_swap.
Qed.

Lemma sorted_perm (l : list string) : PyStr.sorted l ≡ₚ l.
Proof.
  induction l as [|x l IH]; [reflexivity|].
  unfold PyStr.sorted in *. cbn [foldr]. now rewrite insert_sorted_perm, IH.
Qed.

Lemma insert_sorted_Sorted (x : string) (l : list string) :
  Sorted String.le l -> Sorted String.le (PyStr.insert_sorted x l).
Proof.
  induction 1 as [|y l Hs IH Hhd]; cbn [PyStr.insert_sorted].
  - repeat constructor.
  - destruct (String.leb x y) eqn:Hxy.
    + constructor; [now constructor|]. constructor.
      unfold String.le. now rewrite Hxy.
    + constructor; [exact IH|].
      assert (Hyx : String.le y x).
      { destruct (String.leb_total x y) as [H|H]; [congruence|].
        unfold String.le. now rewrite H. }
      destruct l as [|z l]; cbn [PyStr.insert_sorted].
      * now constructor.
      * destruct (String.leb x z); constructor; [exact Hyx|].
        now inversion Hhd.
Qed.

Lemma sorted_Sorted (l : list string) : Sorted String.le (PyStr.sorted l).
Proof.
  induction l as [|x l IH]; [constructor|].
  unfold PyStr.sorted in *. cbn [foldr]. now apply insert_sorted_Sorted.
Qed.

Lemma sorted_of_perm (l l' : list string) :
  l ≡ₚ l' -> PyStr.sorted l = PyStr.sorted l'.
Proof.
  intros H. apply (Sorted_unique String.le); try apply sorted_Sorted.
  now rewrite !sorted_perm.
Qed.

Lemma or_empty_names (l : list string) :
  iter_names (or_empty (names l)) = Ok l.
Proof.
  unfold or_empty. destruct (Py.truthy (names l)) eqn:Ht;
    [apply iter_names_names|].
  destruct l; [reflexivity | discriminate Ht].
Qed.

Lemma read_main_config_libraries (w : world) (h : list event)
    (m : gmap string pyobj) (l : list string)
    (r : pyobj * list string * pyobj) :
  fails w h (EvLoadYaml "main.yaml") = None ->
  yaml_files w "main.yaml" = Some (PDict m) ->
  m !! "libraries" = Some (names l) ->
  fst (_read_main_config w h) = Ok r ->
  snd (fst r) = PyStr.sorted l.
Proof.
  intros Hf Hy Hl H.
  rewrite (read_main_config_result w h m Hf Hy) in H. cbn [Py.getitem] in H.
  rewrite Hl in H.
  destruct (m !! "packages") as [packages|]; [cbn [res_bind] in H | discriminate H].
  destruct (iter_names (or_empty packages)); [cbn [res_bind] in H | discriminate H].
  rewrite or_empty_names in H. cbn [res_bind] in H.
  inversion H; subst. reflexivity.
Qed.

(** X13.  The list of libraries that [_read_main_config] returns is the
    list of [main.yaml] put in ascending order, so the libraries are
    installed in the order of their names, whatever the order in which the
    file lists them: two files that list the same libraries give the same
    list. *)
Theorem read_main_config_library_order (w : world) (h : list event)
    (m : gmap string pyobj) (l : list string)
    (r : pyobj * list string * pyobj) :
  fails w h (EvLoadYaml "main.yaml") = None ->
  yaml_files w "main.yaml" = Some (PDict m) ->
  m !! "libraries" = Some (names l) ->
  fst (_read_main_config w h) = Ok r ->
  Sorted String.le (snd (fst r))
  /\ snd (fst r) ≡ₚ l
  /\ (forall w' h' m' l' r',
        fails w' h' (EvLoadYaml "main.yaml") = None ->
        yaml_files w' "main.yaml" = Some (PDict m') ->
        m' !! "libraries" = Some (names l') ->
        fst (_read_main_config w' h') = Ok r' ->
        l ≡ₚ l' ->
        snd (fst r') = snd (fst r)).
Proof.
  intros Hf Hy Hl H.
  rewrite (read_main_config_libraries w h m l r Hf Hy Hl H).
  split_and!; [apply sorted_Sorted | apply sorted_perm |].
  intros w' h' m' l' r' Hf' Hy' Hl' H' Hperm.
  rewrite (read_main_config_libraries w' h' m' l' r' Hf' Hy' Hl' H').
  symmetry. now apply sorted_of_perm.
Qed.

End SortedFacts.

(** ** More on the phases *)
Section PhaseFacts.
Import Fabfile Calls.
Variable w : world.
Variable env : fabric_env.

Lemma avoids_bind_lift_ok {A B} (P : event -> bool) (a : A) (f : A -> M B) :
  avoids P (f a) -> avoids P (bind (lift (Ok a)) f).
Proof. intros H h. rewrite bind_lift_ok. apply H. Qed.

Lemma avoids_bind_lift {A B} (P : event -> bool) (r : res A) (f : A -> M B) :
  (forall a, r = Ok a -> avoids P (f a)) -> avoids P (bind (lift r) f).
Proof.
  intros H. destruct r as [a|e].
  - apply avoids_bind_lift_ok. now apply H.
  - intros h. constructor.
Qed.

Lemma read_main_config_installs_nothing :
  avoids is_install (_read_main_config w).
Proof.
  unfold _read_main_config.
  repeat first
    [ apply avoids_ret | apply avoids_lift
    | apply avoids_load_yaml; reflexivity
    | apply avoids_log; reflexivity
    | apply avoids_bind; [|intros ?] ].
Qed.

(** X14.  With a target that is none of the six phase names,
    [_perform_install] reads the main configuration and does nothing else:
    it returns what the reading returns, and installs nothing. *)
Theorem perform_install_unknown_target (t : string)
    (flavor : option string) (h : list event) :
  t ∉ map phase_name all_phases ->
  _perform_install w env (Some t) flavor h
  = (config <-- _read_main_config w ;; ret tt) h
  /\ Forall (fun e => is_install e = false)
       (snd (_perform_install w env (Some t) flavor h)).
Proof.
  intros Ht.
  assert (Hsel : forall p, selected (Some t) (phase_name p) = false).
  { intros p. unfold selected. apply String.eqb_neq. intros ->.
    apply Ht. apply list_elem_of_fmap. exists p. split; [reflexivity|].
    unfold all_phases. destruct p; rewrite !elem_of_cons; tauto. }
  assert (Heq : _perform_install w env (Some t) flavor h
                = (config <-- _read_main_config w ;; ret tt) h).
  { unfold _perform_install. apply bind_ext.
    intros [[pkg_install lib_install] custom_ignore] h'.
    rewrite (guarded_blocks (fun p => selected (Some t) (phase_name p))
               (run_phase w env (Some t) flavor
                  (pkg_install, lib_install, custom_ignore))).
    unfold all_phases. cbn [List.filter]. now rewrite !Hsel. }
  split; [exact Heq|]. rewrite Heq.
  apply (avoids_bind is_install);
    [apply read_main_config_installs_nothing | intros; apply avoids_ret].
Qed.

Lemma avoids_seq {A B} (P : event -> bool) (m : M A) (k : M B) :
  avoids P m -> avoids P k -> avoids P (m ;;; k).
Proof. intros Hm Hk. apply avoids_bind; [exact Hm | intros _; exact Hk]. Qed.

(** X15.  In the cleanup phase, the image is prepared for EC2 only when
    [env.is_ec2_image] reads [true] or [yes], and the three [sudo] commands
    that install [cloud-init] run only when, moreover, the distribution is
    [ubuntu]. *)
Theorem cleanup_phase_ec2_steps (h : list event) :
  ((exists e, e ∈ snd (cleanup_phase w env h) /\ is_ec2_step e = true) ->
   ec2_image env)
  /\ (forall cmd, EvSudo cmd ∈ snd (cleanup_phase w env h) ->
        ec2_image env /\ ubuntu env).
Proof.
  assert (Hno : forall r,
            (forall b, r = Ok b -> b = false) ->
            forall k : bool -> M unit,
              (forall b, b = false -> avoids is_ec2_step (k b)) ->
              avoids is_ec2_step (call w EvCleanupSpace ;;; (b <-- lift r ;; k b))).
  { intros r Hr k Hk. apply avoids_seq; [now apply avoids_call|].
    apply avoids_bind_lift. intros b Hb. apply Hk. now apply Hr. }
  assert (Hec2 : ec2_image env \/ avoids is_ec2_step (cleanup_phase w env)).
  { unfold cleanup_phase, ec2_image.
    destruct (env_get env "is_ec2_image") as [v|] eqn:Hv.
    - destruct (env_string v) as [s|x] eqn:Hs; cbn [res_bind].
      + destruct (bool_decide (PyStr.upper s ∈ ["TRUE"; "YES"])) eqn:Hd.
        * left. exists v, s. split_and!; [reflexivity | exact Hs |].
          exact (bool_decide_eq_true_1 _ Hd).
        * right. apply Hno; [congruence|]. intros b ->. apply avoids_ret.
      + right. apply Hno; [discriminate|]. intros b ->. apply avoids_ret.
    - right. apply Hno; [congruence|]. intros b ->. apply avoids_ret. }
  split.
  - intros (e & Hin & He). destruct Hec2 as [H|H]; [exact H|].
    now destruct (avoids_not_in _ _ h e H He).
  - intros cmd Hin.
    assert (Hec2' : ec2_image env).
    { destruct Hec2 as [H|H]; [exact H|].
      now destruct (avoids_not_in _ _ h (EvSudo cmd) H eq_refl). }
    split; [exact Hec2'|].
    assert (Hub : ubuntu env \/ avoids is_sudo (cleanup_phase w env)).
    { unfold cleanup_phase, ubuntu, env_attr.
      destruct (env_get env "distribution") as [d|] eqn:Hd.
      - destruct (env_eq_str d "ubuntu") eqn:Hu.
        + left. now exists d.
        + right. apply avoids_seq; [now apply avoids_call|].
          apply avoids_bind; [apply avoids_lift|]. intros b.
          apply avoids_when. apply avoids_bind_lift_ok. rewrite Hu.
          cbn [when]. apply avoids_seq; [apply avoids_ret|].
          now apply avoids_call.
      - right. apply avoids_seq; [now apply avoids_call|].
        apply avoids_bind; [apply avoids_lift|]. intros b.
        apply avoids_when. apply avoids_bind_lift. intros d Hd'.
        discriminate Hd'. }
    destruct Hub as [H|H]; [exact H|].
    now destruct (avoids_not_in _ _ h (EvSudo cmd) H eq_refl).
Qed.

(** X16.  A run of the packages phase that returns has installed the native
    packages, then, when [env.nixpkgs] is true in the sense of Python (any
    non-empty string is), set up the Nix sources and installed the Nix
    packages, and updated the log last.  An environment without [nixpkgs]
    stops the phase with [AttributeError], after the native packages. *)
Theorem packages_phase_steps (target flavor : option string)
    (pkg_install : pyobj) (h : list event) :
  (fst (packages_phase w env target flavor pkg_install h) = Ok tt ->
   exists v,
     env_get env "nixpkgs" = Some v
     /\ snd (packages_phase w env target flavor pkg_install h)
        = (EvNativePackages pkg_install
             :: (if env_truthy v
                 then [EvNixSources; EvNixPackages pkg_install] else [])
             ++ [EvUpdateBiolinuxLog target flavor])%list)
  /\ (env_get env "nixpkgs" = None ->
      fails w h (EvNativePackages pkg_install) = None ->
      packages_phase w env target flavor pkg_install h
      = (Raise AttributeError, [EvNativePackages pkg_install])).
Proof.
  unfold packages_phase, env_attr. split.
  - intros H. run_step H.
    destruct (env_get env "nixpkgs") as [v|] eqn:Hv.
    + rewrite bind_lift_ok in *. exists v. split; [reflexivity|].
      destruct (env_truthy v); cbn [when] in *.
      * rewrite bind_assoc in *. run_step H. run_step H.
        pose proof (call_trace w (EvUpdateBiolinuxLog target flavor)) as Ht.
        now rewrite Ht.
      * rewrite bind_ret_l in *.
        pose proof (call_trace w (EvUpdateBiolinuxLog target flavor)) as Ht.
        now rewrite Ht.
    + rewrite bind_lift_raise in H. discriminate H.
  - intros Hv Hf. rewrite Hv. rewrite (bind_call_ok w _ _ _ Hf).
    now rewrite bind_lift_raise.
Qed.

End PhaseFacts.

(** ** Chef recipes *)
Section ChefRecipeFacts.
Import Fabfile Calls.
Variable w : world.
Variable env : fabric_env.

Lemma bind_for_each_calls {A B} (ev : A -> event) (l : list A)
    (k : unit -> M B) (h : list event) (b : B) :
  fst (bind (for_each l (fun x => call w (ev x))) k h) = Ok b ->
  bind (for_each l (fun x => call w (ev x))) k h
  = (fst (k tt (h ++ map ev l)%list),
     (map ev l ++ snd (k tt (h ++ map ev l)%list))%list).
Proof.
  revert h. induction l as [|x l IH]; intros h H; cbn [for_each map] in *.
  - rewrite bind_ret_l. rewrite app_nil_r. now destruct (k tt h).
  - rewrite bind_assoc in *. run_step H.
    rewrite (IH _ H). cbn [fst snd].
    now rewrite <- app_assoc.
Qed.

(** X17.  Without the [provision] library, [install_chef_recipe] never
    configures Chef, adds no recipe and provisions nothing; when the setup
    calls before it do not fail, it logs an error and returns normally, so
    the caller cannot tell that nothing was installed. *)
Theorem install_chef_recipe_without_provision (recipe : pyobj)
    (automated : bool) (flavor : option string) :
  provision_installed w = false ->
  avoids is_chef (install_chef_recipe w env recipe automated flavor)
  /\ (forall h,
        fails w h EvSetupLogging = None ->
        (automated = false ->
         fails w (h ++ [EvSetupLogging])%list
           (EvConfigureFabricEnvironment flavor) = None) ->
        fst (install_chef_recipe w env recipe automated flavor h) = Ok tt
        /\ exists msg,
             last (snd (install_chef_recipe w env recipe automated flavor h))
             = Some (EvLog "error" msg)).
Proof.
  intros Hprov. unfold install_chef_recipe. rewrite Hprov. split.
  - apply avoids_bind; [now apply avoids_call | intros _].
    apply avoids_bind;
      [apply avoids_when; now apply avoids_call | intros _].
    apply avoids_bind; [now apply avoids_log | intros _].
    now apply avoids_log.
  - intros h Hs Hc. rewrite (bind_call_ok w _ _ _ Hs). cbn [fst snd].
    destruct automated; cbn [negb when].
    + rewrite bind_ret_l. unfold _print_time_stats, log.
      rewrite bind_record. cbn. split; [reflexivity | now eexists].
    + rewrite (bind_call_ok w _ _ _ (Hc eq_refl)). cbn [fst snd].
      unfold _print_time_stats, log.
      rewrite bind_record. cbn. split; [reflexivity | now eexists].
Qed.

(** X18.  A run of [install_chef_recipe] that returns, with the
    [provision] library installed, has made these calls and no other:
    the logging setup, the configuration of the environment unless the
    call is automated, the configuration of Chef with the properties of
    [node_extra.json] and the directories under [env.chef_dir]
    ([config/chef] by default), one [add_recipe] per recipe in the order
    given (a recipe that is not a list counts as one), and one
    [provision] after them. *)
Theorem install_chef_recipe_steps (recipe : pyobj) (automated : bool)
    (flavor : option string) (h : list event) :
  provision_installed w = true ->
  fst (install_chef_recipe w env recipe automated flavor h) = Ok tt ->
  exists json chef_dir omnibus,
    ChefUtils.build_chef_properties (json_loads w) (files w) env
      "node_extra.json" = Ok json
    /\ match env_get env "chef_dir" with
       | Some v => env_string v = Ok chef_dir
       | None => chef_dir = "config/chef"
       end
    /\ match env_get env "use_chef_omnibus_installer" with
       | Some v => env_string v = Ok omnibus
       | None => omnibus = "false"
       end
    /\ snd (install_chef_recipe w env recipe automated flavor h)
       = ([EvSetupLogging]
            ++ (if automated then []
                else [EvConfigureFabricEnvironment flavor])
            ++ [time_stats (Fmt "Chef provision for recipe(s) '{0}'" [recipe])
                  "start";
                EvChefConfigure json
                  (os_path_join chef_dir "cookbooks")
                  (os_path_join chef_dir "data_bags")
                  (os_path_join chef_dir "roles")
                  (bool_decide (PyStr.upper omnibus ∈ ["TRUE"; "YES"]))]
            ++ map EvChefAddRecipe (recipe_list recipe)
            ++ [EvProvision;
                time_stats (Fmt "Chef provision for recipe(s) '%s'" [recipe])
                  "end"])%list.
Proof.
  intros Hprov H. unfold install_chef_recipe in *. rewrite Hprov in *.
  run_step H.
  assert (Hgen : forall h0 pre,
    fst ((_print_time_stats
            (Fmt "Chef provision for recipe(s) '{0}'" [recipe]) "start" ;;;
          _configure_chef w env ;;;
          for_each (recipe_list recipe)
            (fun recipe_to_add => call w (EvChefAddRecipe recipe_to_add)) ;;;
          call w EvProvision ;;;
          _print_time_stats
            (Fmt "Chef provision for recipe(s) '%s'" [recipe]) "end") h0)
    = Ok tt ->
    exists json chef_dir omnibus,
      ChefUtils.build_chef_properties (json_loads w) (files w) env
        "node_extra.json" = Ok json
      /\ match env_get env "chef_dir" with
         | Some v => env_string v = Ok chef_dir
         | None => chef_dir = "config/chef"
         end
      /\ match env_get env "use_chef_omnibus_installer" with
         | Some v => env_string v = Ok omnibus
         | None => omnibus = "false"
         end
      /\ (pre ++ snd ((_print_time_stats
            (Fmt "Chef provision for recipe(s) '{0}'" [recipe]) "start" ;;;
          _configure_chef w env ;;;
          for_each (recipe_list recipe)
            (fun recipe_to_add => call w (EvChefAddRecipe recipe_to_add)) ;;;
          call w EvProvision ;;;
          _print_time_stats
            (Fmt "Chef provision for recipe(s) '%s'" [recipe]) "end") h0))%list
         = (pre
            ++ [time_stats (Fmt "Chef provision for recipe(s) '{0}'" [recipe])
                  "start";
                EvChefConfigure json
                  (os_path_join chef_dir "cookbooks")
                  (os_path_join chef_dir "data_bags")
                  (os_path_join chef_dir "roles")
                  (bool_decide (PyStr.upper omnibus ∈ ["TRUE"; "YES"]))]
            ++ map EvChefAddRecipe (recipe_list recipe)
            ++ [EvProvision;
                time_stats (Fmt "Chef provision for recipe(s) '%s'" [recipe])
                  "end"])%list).
  { clear H. intros h0 pre H.
    unfold _print_time_stats in H at 1. unfold _print_time_stats at 1.
    run_step H.
    unfold _configure_chef in *.
    rewrite bind_assoc in *. run_step H.
    rewrite bind_assoc in *. run_step H.
    rewrite bind_assoc in *. run_step H.
    run_step H.
    pose proof (bind_for_each_calls _ _ _ _ _ H) as Hfe.
    rewrite Hfe in *. cbn [fst snd] in *. clear Hfe.
    run_step H.
    exists a, a0, a1. split_and!.
    - reflexivity.
    - destruct (env_get env "chef_dir"); [exact E1|].
      inversion E1. reflexivity.
    - destruct (env_get env "use_chef_omnibus_installer"); [exact E2|].
      inversion E2. reflexivity.
    - reflexivity. }
  destruct automated; cbn [negb when] in *.
  - rewrite bind_ret_l in *.
    destruct (Hgen _ [] H) as (json & chef_dir & omnibus & Hj & Hc & Ho & Ht).
    exists json, chef_dir, omnibus. split_and!; try assumption.
    cbn [app] in Ht |- *. f_equal. exact Ht.
  - run_step H.
    destruct (Hgen _ [] H) as (json & chef_dir & omnibus & Hj & Hc & Ho & Ht).
    exists json, chef_dir, omnibus. split_and!; try assumption.
    cbn [app] in Ht |- *. do 2 f_equal. exact Ht.
Qed.

End ChefRecipeFacts.

(** ** The library installers, one by one *)
Section InstallerFacts.
Import Fabfile Calls Traces.
Variable w : world.
Variable env : fabric_env.

Lemma bind_exists_ok_inv {B} (path : string) (f : bool -> M B)
    (h : list event) (b : B) :
  fst (bind (exists_ w path) f h) = Ok b ->
  bind (exists_ w path) f h
  = (fst (f (path_exists w h path) (h ++ [EvExists path])%list),
     EvExists path :: snd (f (path_exists w h path) (h ++ [EvExists path])%list)).
Proof.
  unfold bind, exists_. destruct (fails w h (EvExists path)); [discriminate|].
  intros _. now destruct (f (path_exists w h path) (h ++ [EvExists path])%list).
Qed.

(** X19.  A run of [_r_library_installer] that returns has removed a
    script left by an earlier run, written the new script in five appends,
    run it once with [Rscript], and removed it as its last step; the
    members of [cran] and [bioc] go into the script between double
    quotes, each as [%s] formats it, string or not.  The
    package lists are read while the script is being written: a
    configuration without [cran] raises [KeyError] after the first two
    appends, and the script is then left on the machine. *)
Theorem r_installer_steps (config : pyobj) (h : list event) :
  (fst (_r_library_installer w config h) = Ok tt ->
   exists cranrepo biocrepo cran_pkgs bioc_pkgs,
     Py.getitem config "cranrepo" = Ok cranrepo
     /\ Py.getitem config "biocrepo" = Ok biocrepo
     /\ res_bind (Py.getitem config "cran") iter_items = Ok cran_pkgs
     /\ res_bind (Py.getitem config "bioc") iter_items = Ok bioc_pkgs
     /\ snd (_r_library_installer w config h)
        = (EvExists R_out_file
             :: (if path_exists w h R_out_file
                 then [EvRun ("rm -f " ++ R_out_file)] else [])
             ++ [EvRun ("touch " ++ R_out_file);
                 EvAppend R_out_file (Fmt R_repo_info [cranrepo; biocrepo]);
                 EvAppend R_out_file (Fmt R_install_fn []);
                 EvAppend R_out_file (Fmt R_std_install [quoted_list w cran_pkgs]);
                 EvAppend R_out_file (Fmt R_bioc_install [quoted_list w bioc_pkgs]);
                 EvAppend R_out_file (Fmt R_final_update []);
                 EvSafeSudo ("Rscript " ++ R_out_file);
                 EvRun ("rm -f " ++ R_out_file)])%list)
  /\ (forall cranrepo biocrepo,
        (forall h' e, fails w h' e = None) ->
        path_exists w h R_out_file = false ->
        Py.getitem config "cranrepo" = Ok cranrepo ->
        Py.getitem config "biocrepo" = Ok biocrepo ->
        Py.getitem config "cran" = Raise (KeyError "cran") ->
        _r_library_installer w config h
        = (Raise (KeyError "cran"),
           [EvExists R_out_file;
            EvRun ("touch " ++ R_out_file);
            EvAppend R_out_file (Fmt R_repo_info [cranrepo; biocrepo]);
            EvAppend R_out_file (Fmt R_install_fn [])])).
Proof.
  unfold _r_library_installer, append. split.
  - intros H.
    pose proof (bind_exists_ok_inv _ _ _ _ H) as Hex.
    rewrite Hex in *. cbn [fst snd] in *. clear Hex.
    assert (Hrest : forall h0 pre,
      fst ((run w ("touch " ++ R_out_file) ;;;
            cranrepo <-- lift (Py.getitem config "cranrepo") ;;
            biocrepo <-- lift (Py.getitem config "biocrepo") ;;
            call w (EvAppend R_out_file (Fmt R_repo_info [cranrepo; biocrepo])) ;;;
            call w (EvAppend R_out_file (Fmt R_install_fn [])) ;;;
            cran <-- lift (Py.getitem config "cran") ;;
            cran_pkgs <-- lift (iter_items cran) ;;
            call w (EvAppend R_out_file (Fmt R_std_install [R_vector w cran_pkgs])) ;;;
            bioc <-- lift (Py.getitem config "bioc") ;;
            bioc_pkgs <-- lift (iter_items bioc) ;;
            call w (EvAppend R_out_file (Fmt R_bioc_install [R_vector w bioc_pkgs])) ;;;
            call w (EvAppend R_out_file (Fmt R_final_update [])) ;;;
            safe_sudo w ("Rscript " ++ R_out_file) ;;;
            run w ("rm -f " ++ R_out_file) ;;;
            ret tt) h0) = Ok tt ->
      exists cranrepo biocrepo cran_pkgs bioc_pkgs,
        Py.getitem config "cranrepo" = Ok cranrepo
        /\ Py.getitem config "biocrepo" = Ok biocrepo
        /\ res_bind (Py.getitem config "cran") iter_items = Ok cran_pkgs
        /\ res_bind (Py.getitem config "bioc") iter_items = Ok bioc_pkgs
        /\ (pre ++ snd ((run w ("touch " ++ R_out_file) ;;;
            cranrepo <-- lift (Py.getitem config "cranrepo") ;;
            biocrepo <-- lift (Py.getitem config "biocrepo") ;;
            call w (EvAppend R_out_file (Fmt R_repo_info [cranrepo; biocrepo])) ;;;
            call w (EvAppend R_out_file (Fmt R_install_fn [])) ;;;
            cran <-- lift (Py.getitem config "cran") ;;
            cran_pkgs <-- lift (iter_items cran) ;;
            call w (EvAppend R_out_file (Fmt R_std_install [R_vector w cran_pkgs])) ;;;
            bioc <-- lift (Py.getitem config "bioc") ;;
            bioc_pkgs <-- lift (iter_items bioc) ;;
            call w (EvAppend R_out_file (Fmt R_bioc_install [R_vector w bioc_pkgs])) ;;;
            call w (EvAppend R_out_file (Fmt R_final_update [])) ;;;
            safe_sudo w ("Rscript " ++ R_out_file) ;;;
            run w ("rm -f " ++ R_out_file) ;;;
            ret tt) h0))%list
           = (pre
              ++ [EvRun ("touch " ++ R_out_file);
                  EvAppend R_out_file (Fmt R_repo_info [cranrepo; biocrepo]);
                  EvAppend R_out_file (Fmt R_install_fn []);
                  EvAppend R_out_file (Fmt R_std_install [quoted_list w cran_pkgs]);
                  EvAppend R_out_file (Fmt R_bioc_install [quoted_list w bioc_pkgs]);
                  EvAppend R_out_file (Fmt R_final_update []);
                  EvSafeSudo ("Rscript " ++ R_out_file);
                  EvRun ("rm -f " ++ R_out_file)])%list).
    { clear H. intros h0 pre H.
      run_step H.
      run_step H.
      run_step H.
      run_step H.
      run_step H. run_step H. run_step H. run_step H. run_step H.
      run_step H. run_step H. run_step H. run_step H. run_step H.
      do 4 eexists. cbn [res_bind].
      split_and!;
        [reflexivity | reflexivity | eassumption | eassumption | reflexivity]. }
    destruct (path_exists w h R_out_file); cbn [when] in *.
    + rewrite bind_assoc in *. run_step H. rewrite bind_ret_l in *.
      destruct (Hrest _ [EvRun ("rm -f " ++ R_out_file)] H)
        as (cranrepo & biocrepo & cran_pkgs & bioc_pkgs
            & H1 & H2 & H3 & H4 & Ht).
      exists cranrepo, biocrepo, cran_pkgs, bioc_pkgs.
      split_and!; try assumption. cbn [app] in Ht |- *. f_equal. exact Ht.
    + rewrite bind_ret_l in *.
      destruct (Hrest _ [] H)
        as (cranrepo & biocrepo & cran_pkgs & bioc_pkgs
            & H1 & H2 & H3 & H4 & Ht).
      exists cranrepo, biocrepo, cran_pkgs, bioc_pkgs.
      split_and!; try assumption. cbn [app] in Ht |- *. f_equal. exact Ht.
  - intros cranrepo biocrepo Hf Hp H1 H2 H3.
    unfold bind at 1, exists_ at 1. rewrite Hf, Hp. cbn [when].
    rewrite bind_ret_l.
    rewrite (bind_run_ok w _ _ _ (Hf _ _)). rewrite H1, bind_lift_ok.
    rewrite H2, bind_lift_ok.
    rewrite (bind_call_ok w _ _ _ (Hf _ _)). cbn [fst snd].
    rewrite (bind_call_ok w _ _ _ (Hf _ _)). cbn [fst snd].
    rewrite H3, bind_lift_raise. reflexivity.
Qed.

(** X20.  A run of [_clojure_library_installer] that returns has run one
    [cljr install] per member of the [cljr] entry, in the order of the
    entry, and nothing else; a member that is not a string is written
    into the command as Python's [str] gives it. *)
Theorem clojure_installer_steps (config : pyobj) (h : list event) :
  fst (_clojure_library_installer w config h) = Ok tt ->
  exists libs,
    res_bind (Py.getitem config "cljr") iter_items = Ok libs
    /\ snd (_clojure_library_installer w config h)
       = map (fun lib => EvRun ("cljr install " ++ shown w lib)) libs.
Proof.
  unfold _clojure_library_installer. intros H.
  run_step H. run_step H. eexists. cbn [res_bind]. split; [eassumption|].
  apply (for_each_trace (fun lib => EvRun ("cljr install " ++ shown w lib)));
    [|exact H].
  intros x h0. apply run_unit_trace.
Qed.

(** X21.  A run of [_haskell_library_installer] that returns has run
    [cabal update] and then one [cabal install] per library of the [cabal]
    entry, in order.  [env.use_sudo] is read inside the loop, so it must be
    set only when there is a library to install. *)
Theorem haskell_installer_steps (config : pyobj) (h : list event) :
  fst (_haskell_library_installer w env config h) = Ok tt ->
  exists libs,
    res_bind (Py.getitem config "cabal") iter_items = Ok libs
    /\ (libs <> [] -> exists v, env_get env "use_sudo" = Some v)
    /\ snd (_haskell_library_installer w env config h)
       = EvRun "cabal update"
           :: map (fun lib =>
                     EvRun ("cabal install " ++ cabal_sudo env ++ " --global "
                              ++ shown w lib)) libs.
Proof.
  unfold _haskell_library_installer. intros H.
  run_step H. run_step H. run_step H.
  match goal with
  | Hl : iter_items _ = Ok ?l |- _ => exists l; rename l into libs
  end.
  cbn [res_bind]. split_and!; [assumption | |].
  - destruct libs as [|lib libs]; [congruence|]. intros _.
    cbn [for_each] in H. unfold env_attr in H.
    destruct (env_get env "use_sudo") as [v|]; [now exists v|].
    rewrite bind_assoc, bind_lift_raise in H. discriminate H.
  - f_equal.
    apply (for_each_trace
             (fun lib =>
                EvRun ("cabal install " ++ cabal_sudo env ++ " --global "
                         ++ shown w lib)));
      [|exact H].
    intros x h0. unfold cabal_sudo, env_attr.
    destruct (env_get env "use_sudo") as [v|].
    + rewrite bind_lift_ok. apply run_unit_trace.
    + rewrite bind_lift_raise. discriminate.
Qed.

Lemma ruby_rounds_commands (listed : list event -> list string)
    (installed : list string) (h : list event)
    (gems : list pyobj) (t : list event) :
  ruby_rounds (ruby_ext env) (shown w) listed installed h gems t ->
  Forall2 (gem_command w env) gems (List.filter is_safe_sudo t)
  /\ Forall (fun e => is_run e = true -> e = gem_query env) t
  /\ (List.length (List.filter is_run t) <= List.length gems)%nat.
Proof.
  induction 1 as [installed h
                 |installed h gem gems t Hin _ (IH1 & IH2 & IH3)
                 |installed h gem gems t Hout Hin _ (IH1 & IH2 & IH3)
                 |installed h gem gems t Hout Hin _ (IH1 & IH2 & IH3)];
    cbn [List.filter is_safe_sudo is_run List.length].
  - split_and!; [constructor | constructor | lia].
  - split_and!.
    + constructor; [now left | exact IH1].
    + constructor; [discriminate | exact IH2].
    + lia.
  - split_and!.
    + constructor; [now left | exact IH1].
    + constructor; [reflexivity|]. constructor; [discriminate | exact IH2].
    + lia.
  - split_and!.
    + constructor; [now right | exact IH1].
    + constructor; [reflexivity|]. constructor; [discriminate | exact IH2].
    + lia.
Qed.

(** X22.  A run of [_ruby_library_installer] that returns has given
    exactly one command to [safe_sudo] per gem of the rewritten list, in
    the order of the list, each an update or an install of that gem; its
    only other commands are queries of the installed gems, at most one per
    gem after the first. *)
Theorem ruby_installer_commands (config : pyobj) (h : list event) :
  fst (_ruby_library_installer w env config h) = Ok tt ->
  exists gems gem_names,
    Py.getitem config "gems" = Ok gems
    /\ iter_items (rewrite_config_items w "ruby" gems) = Ok gem_names
    /\ Forall2 (gem_command w env) gem_names
         (List.filter is_safe_sudo (snd (_ruby_library_installer w env config h)))
    /\ Forall (fun e => is_run e = true -> e = gem_query env)
         (snd (_ruby_library_installer w env config h))
    /\ (List.length
          (List.filter is_run (snd (_ruby_library_installer w env config h)))
        <= 1 + List.length gem_names)%nat.
Proof.
  unfold _ruby_library_installer, _cur_gems. intros H.
  rewrite bind_assoc in *. run_step H. rewrite bind_ret_l in *.
  run_step H. run_step H. run_step H.
  do 2 eexists. split_and!; [reflexivity | eassumption | | |];
    destruct (ruby_rounds_commands _ _ _ _ _ (ruby_loop_rounds w env _ _ _ H))
      as (H1 & H2 & H3);
    cbn [List.filter is_safe_sudo is_run List.length].
  - exact H1.
  - constructor; [reflexivity|]. constructor; [discriminate | exact H2].
  - lia.
Qed.

End InstallerFacts.

(** ** The list of the installed gems *)
Section GemLines.
Import Fabfile Calls.

(** X23.  The list [_cur_gems] makes of the output of [gem list] is the
    list of the gems: lines that are not empty and do not end in a
    carriage return come back as they were, whether the output separates
    them by line feeds or by a carriage return and a line feed, and
    whether or not the last line is terminated. *)
Theorem gem_lines_round_trip (l : list string) :
  Forall plain_line l ->
  gem_lines (PyStr.join PyStr.nl l) = l
  /\ gem_lines (PyStr.join (cr ++ PyStr.nl) l) = l
  /\ gem_lines (PyStr.join PyStr.nl l ++ PyStr.nl) = l
  /\ gem_lines (PyStr.join (cr ++ PyStr.nl) l ++ cr ++ PyStr.nl) = l.
Proof.
  induction 1 as [|x l Hx Hl (IH1 & IH2 & IH3 & IH4)];
    [now split_and!|].
  destruct l as [|y l].
  - unfold PyStr.join. cbn [String.concat]. split_and!.
    + now apply gem_lines_plain.
    + now apply gem_lines_plain.
    + change (x ++ PyStr.nl) with (x ++ PyStr.nl ++ "").
      now rewrite gem_lines_app.
    + change (x ++ cr ++ PyStr.nl) with (x ++ (cr ++ PyStr.nl) ++ "").
      now rewrite gem_lines_app_cr.
  - rewrite !join_cons. split_and!.
    + now rewrite gem_lines_app, IH1.
    + now rewrite gem_lines_app_cr, IH2.
    + rewrite (append_assoc x), (append_assoc PyStr.nl).
      now rewrite gem_lines_app, IH3.
    + rewrite (append_assoc x), (append_assoc (cr ++ PyStr.nl)).
      now rewrite gem_lines_app_cr, IH4.
Qed.

End GemLines.

(** ** Custom programs *)
Section CustomFacts.
Import Fabfile Calls.
Variable w : world.
Variable env : fabric_env.

(** X24.  An automated [install_custom] does not load the environment,
    reads no configuration file and runs no command on the machine: apart
    from logging, it only imports the module and calls the install
    function. *)
Theorem install_custom_automated_calls (p : string)
    (pkg_to_group : option (gmap string string)) (flavor : option string) :
  avoids is_setup_or_remote (install_custom w env p true pkg_to_group flavor).
Proof.
  unfold install_custom, _print_time_stats.
  apply avoids_bind; [now apply avoids_call | intros _].
  apply avoids_bind; [now apply avoids_log | intros _].
  apply avoids_bind; [apply avoids_ret | intros m].
  apply avoids_bind; [now apply avoids_log | intros _].
  destruct m as [m|]; [|apply avoids_raise].
  apply avoids_bind; [now apply avoids_import | intros [attributes|]].
  - destruct (bool_decide _).
    + apply avoids_bind; [now apply avoids_call | intros _].
      now apply avoids_log.
    + apply avoids_bind; [apply avoids_lift | intros g]. apply avoids_raise.
  - apply avoids_bind; [apply avoids_lift | intros g]. apply avoids_raise.
Qed.

(** X25.  An automated [install_custom] that is given no mapping from
    programs to groups (the default of the parameter) raises [TypeError]
    when it looks the program up, whatever the program: it has logged, and
    has imported and installed nothing. *)
Theorem install_custom_without_mapping (p : string)
    (flavor : option string) (h : list event) :
  fails w h EvSetupLogging = None ->
  install_custom w env p true None flavor h
  = (Raise TypeError,
     [EvSetupLogging;
      time_stats (Fmt "Custom install for '{0}'" [PStr (PyStr.lower p)]) "start";
      EvLog "debug" (Fmt "Import %s" [PStr (PyStr.lower p)])]).
Proof.
  intros Hs. unfold install_custom, _print_time_stats, log.
  rewrite (bind_call_ok w _ _ _ Hs). rewrite bind_record. cbn [fst snd].
  rewrite bind_ret_l. rewrite bind_record. reflexivity.
Qed.

(** X26.  The filter that [_custom_installs] and
    [_provision_chef_recipes] apply to the packages keeps all of them when
    [ignore] is [None], and never adds or reorders: its result is a
    sublist of the packages.  With a string for [ignore] it drops every
    package whose name occurs inside the string; with a number it raises
    [TypeError] as soon as there is a package to test. *)
Theorem drop_ignored_filters (packages : list string) :
  drop_ignored PNone packages = Ok packages
  /\ (forall s,
        drop_ignored (PStr s) packages
        = Ok (List.filter (fun p => negb (PyStr.contains p s)) packages))
  /\ (forall n,
        packages = [] \/ drop_ignored (PInt n) packages = Raise TypeError)
  /\ (forall ignore kept,
        drop_ignored ignore packages = Ok kept -> sublist kept packages).
Proof.
  split_and!.
  - induction packages as [|p l IH]; [reflexivity|].
    cbn [drop_ignored res_bind]. now rewrite IH.
  - intros s. induction packages as [|p l IH]; [reflexivity|].
    cbn [drop_ignored res_bind Py.contains List.filter]. rewrite IH.
    cbn [res_bind]. reflexivity.
  - intros n. destruct packages as [|p l]; [now left | right; reflexivity].
  - induction packages as [|p l IH]; intros ignore kept H.
    + inversion H. constructor.
    + cbn [drop_ignored] in H.
      destruct (match ignore with
                | PNone => Ok true
                | _ => res_bind (Py.contains p ignore) (fun b => Ok (negb b))
                end) as [keep|]; [cbn [res_bind] in H | discriminate H].
      destruct (drop_ignored ignore l) as [rest|] eqn:Hr;
        [cbn [res_bind] in H | discriminate H].
      specialize (IH ignore rest Hr). inversion H; subst.
      destruct keep; [now apply sublist_skip | now apply sublist_cons].
Qed.

End CustomFacts.

(** ** The entry points and the version of fabric *)
Section EntryFacts.
Import Fabfile Calls Entry.
Variable w : world.
Variable configure : fabric_env -> option string -> fabric_env.
Variable env : fabric_env.

(** X27.  Both entry points check the version of fabric after the logging
    is set up and before anything else: when the check raises, whatever
    the reason, [install_biolinux] and [install_libraries] raise the same
    error without having loaded the environment, read a configuration
    file or installed anything. *)
Theorem entry_points_version_gate (target flavor : option string)
    (language : string) (h : list event) (x : entry_exn) :
  _check_fabric_version env = ERaise x ->
  fails w h EvSetupLogging = None ->
  install_biolinux w configure env target flavor h
  = (ERaise x, [EvSetupLogging; time_stats (Fmt "Config" []) "start"])
  /\ install_libraries w configure env language h
     = (ERaise x, [EvSetupLogging]).
Proof.
  intros Hc Hs. unfold install_biolinux, install_libraries.
  unfold ebind, elift, epure, call, _print_time_stats, log, record.
  rewrite Hs, Hc. split; reflexivity.
Qed.

Lemma major_component_app (a b : string) :
  has_char 46 a = false ->
  major_component (a ++ String (ascii_of_nat 46) b) = a.
Proof.
  induction a as [|c a IH]; [reflexivity|].
  change (String c a ++ String (ascii_of_nat 46) b)
    with (String c (a ++ String (ascii_of_nat 46) b)).
  cbn [has_char major_component]. intros H.
  apply orb_false_iff in H as [Hc Ha]. rewrite Hc. now rewrite (IH Ha).
Qed.

Lemma major_component_plain (a : string) :
  has_char 46 a = false -> major_component a = a.
Proof.
  induction a as [|c a IH]; [reflexivity|].
  cbn [has_char major_component]. intros H.
  apply orb_false_iff in H as [Hc Ha]. rewrite Hc. now rewrite (IH Ha).
Qed.

Lemma digit_facts (c : ascii) :
  is_digit c = true ->
  is_space c = false
  /\ (nat_of_ascii c =? 45)%nat = false
  /\ (nat_of_ascii c =? 43)%nat = false
  /\ (nat_of_ascii c =? 46)%nat = false
  /\ (0 <= Z.of_nat (nat_of_ascii c - 48))%Z.
Proof.
  unfold is_digit, is_space. cbv zeta. intros H.
  apply andb_true_iff in H as [H1 H2].
  apply Nat.leb_le in H1. apply Nat.leb_le in H2.
  split_and!.
  - apply orb_false_iff. split; [apply Nat.eqb_neq; lia|].
    apply andb_false_iff. right. apply Nat.leb_gt. lia.
  - apply Nat.eqb_neq; lia.
  - apply Nat.eqb_neq; lia.
  - apply Nat.eqb_neq; lia.
  - lia.
Qed.

Lemma digits_no_dot (a : string) :
  forallb is_digit (list_ascii_of_string a) = true -> has_char 46 a = false.
Proof.
  induction a as [|c a IH]; [reflexivity|].
  cbn [list_ascii_of_string forallb has_char]. intros H.
  apply andb_true_iff in H as [Hc Ha].
  destruct (digit_facts c Hc) as (_ & _ & _ & Hdot & _).
  now rewrite Hdot, (IH Ha).
Qed.

Lemma rstrip_digits (a : string) :
  forallb is_digit (list_ascii_of_string a) = true -> rstrip a = a.
Proof.
  induction a as [|c a IH]; [reflexivity|].
  cbn [list_ascii_of_string forallb rstrip]. intros H.
  apply andb_true_iff in H as [Hc Ha]. rewrite (IH Ha).
  destruct (digit_facts c Hc) as (Hsp & _).
  destruct a; [now rewrite Hsp | reflexivity].
Qed.

Lemma digits_value_zeros (a : string) :
  forallb (fun c => (nat_of_ascii c =? 48)%nat) (list_ascii_of_string a) = true ->
  digits_value a 0 = Some 0%Z.
Proof.
  induction a as [|c a IH]; [reflexivity|].
  cbn [list_ascii_of_string forallb digits_value]. intros H.
  apply andb_true_iff in H as [Hc Ha]. apply Nat.eqb_eq in Hc.
  unfold is_digit. rewrite Hc. cbn. now apply IH.
Qed.

Lemma zeros_digits (a : string) :
  forallb (fun c => (nat_of_ascii c =? 48)%nat) (list_ascii_of_string a) = true ->
  forallb is_digit (list_ascii_of_string a) = true.
Proof.
  induction a as [|c a IH]; [reflexivity|].
  cbn [list_ascii_of_string forallb]. intros H.
  apply andb_true_iff in H as [Hc Ha]. apply Nat.eqb_eq in Hc.
  rewrite (IH Ha). unfold is_digit. now rewrite Hc.
Qed.

Lemma py_int_digits (c : ascii) (a : string) :
  forallb is_digit (list_ascii_of_string (String c a)) = true ->
  py_int (String c a) = digits_value (String c a) 0.
Proof.
  intros H. unfold py_int. rewrite (rstrip_digits _ H).
  cbn [list_ascii_of_string forallb] in H.
  apply andb_true_iff in H as [Hc Ha].
  destruct (digit_facts c Hc) as (Hsp & Hm & Hp & _).
  cbn [lstrip]. now rewrite Hsp, Hm, Hp.
Qed.

(** X28.  The check reads the version up to its first dot and nothing
    after it.  A version whose major component is written in digits and
    starts with a digit from 1 to 9 passes, whatever follows the dot; a
    version whose major component is written in zeros only is refused with
    [NotImplementedError]. *)
Theorem check_fabric_version_major (major rest : string) :
  env_get env "version" = Some (EStr (major ++ "." ++ rest)) ->
  major <> EmptyString ->
  forallb is_digit (list_ascii_of_string major) = true ->
  _check_fabric_version env
  = if forallb (fun c => (nat_of_ascii c =? 48)%nat)
         (list_ascii_of_string major)
    then ERaise (NotImplementedError msg_old_fabric)
    else EOk tt.
Proof.
  intros Hv Hne Hd. unfold _check_fabric_version, env_attr.
  change (major ++ "." ++ rest)
    with (major ++ String (ascii_of_nat 46) rest) in Hv.
  rewrite Hv. cbn [env_string].
  rewrite (major_component_app major rest (digits_no_dot _ Hd)).
  destruct major as [|c a]; [congruence|].
  rewrite (py_int_digits c a Hd).
  destruct (forallb (fun c0 => (nat_of_ascii c0 =? 48)%nat)
              (list_ascii_of_string (String c a))) eqn:Hz.
  - now rewrite (digits_value_zeros _ Hz).
  - (* some digit is not a zero: the value is positive *)
    assert (Hpos : forall s acc,
              forallb is_digit (list_ascii_of_string s) = true ->
              (0 <= acc)%Z ->
              (forallb (fun c0 => (nat_of_ascii c0 =? 48)%nat)
                 (list_ascii_of_string s) = false \/ (1 <= acc)%Z) ->
              exists v, digits_value s acc = Some v /\ (1 <= v)%Z).
    { clear. induction s as [|c s IH]; intros acc Hd Hacc Hor.
      - destruct Hor as [Hor|Hor]; [discriminate Hor|].
        exists acc. now split.
      - cbn [list_ascii_of_string forallb digits_value] in *.
        apply andb_true_iff in Hd as [Hc Hs]. rewrite Hc.
        destruct (digit_facts c Hc) as (_ & _ & _ & _ & Hdz).
        apply IH; [exact Hs | lia |].
        destruct Hor as [Hor|Hor]; [|right; lia].
        apply andb_false_iff in Hor as [Hor|Hor]; [|now left].
        right. apply Nat.eqb_neq in Hor.
        unfold is_digit in Hc. cbv zeta in Hc.
        apply andb_true_iff in Hc as [H1 H2]. apply Nat.leb_le in H1.
        lia. }
    destruct (Hpos (String c a) 0%Z Hd ltac:(lia) (or_introl Hz))
      as (v & -> & Hv1).
    destruct (v <? 1)%Z eqn:Hlt; [apply Z.ltb_lt in Hlt; lia | reflexivity].
Qed.

End EntryFacts.

(** ** The archive of CloudMan *)
Section BundleFacts.
Import Bundle.
Variable w : machine.

Lemma lbind_llift_ok {A B} (a : A) (f : A -> L B) (h : list action) :
  lbind (llift (Ok a)) f h = f a h.
Proof.
  unfold lbind, llift. rewrite app_nil_r. now destruct (f a h).
Qed.

Lemma lbind_ok {A B} (m : L A) (f : A -> L B) (h t : list action) (a : A) :
  m h = (Ok a, t) ->
  lbind m f h = (fst (f a (h ++ t)%list), (t ++ snd (f a (h ++ t)%list))%list).
Proof.
  intros H. unfold lbind. rewrite H. now destruct (f a (h ++ t)%list).
Qed.

Lemma lbind_perform_ok {B} (a : action) (f : unit -> L B) (h : list action) :
  raises w h a = None ->
  lbind (perform w a) f h
  = (fst (f tt (h ++ [a])%list), a :: snd (f tt (h ++ [a])%list)).
Proof.
  intros H. unfold lbind, perform. rewrite H.
  now destruct (f tt (h ++ [a])%list).
Qed.

(** The inner [try ... finally]: whatever [tar] and [mv] do, the archive
    is removed from the directory after them. *)
Lemma archive_steps (path : string) (bucket_source : pyobj)
    (h : list action) :
  exists mid,
    snd (lfinally
           (perform w (Local path tar_cmd) ~~>
            cmd <~~ llift (format w "mv cm.tar.gz '%s'" [bucket_source]) ;;
            perform w (Local path cmd))
           (perform w (Local path rm_archive_cmd)) h)
    = (Local path tar_cmd :: mid ++ [Local path rm_archive_cmd])%list
    /\ (mid = [] \/ exists cmd, mid = [Local path cmd]).
Proof.
  unfold lfinally, lbind, perform, llift.
  destruct (raises w h (Local path tar_cmd)).
  - exists []. split; [|now left].
    now destruct (raises w _ (Local path rm_archive_cmd)).
  - destruct (format w "mv cm.tar.gz '%s'" [bucket_source]) as [cmd|].
    + exists [Local path cmd]. split; [|right; now exists cmd].
      destruct (raises w _ (Local path cmd));
        now destruct (raises w _ (Local path rm_archive_cmd)).
    + exists []. split; [|now left].
      now destruct (raises w _ (Local path rm_archive_cmd)).
Qed.

(** X29.  Once the repository is at hand, [bundle_cloudman] always cleans
    up, whether or not [tar] and [mv] succeed: after the [tar] command and
    at most one [mv], all run inside the repository, it removes
    [cm.tar.gz] there, and then, exactly when the repository is a clone it
    made itself, removes the clone; a repository given as a local path is
    never removed. *)
Theorem bundle_cloudman_cleans_up (options cloudman_options : pyobj)
    (repository path : string) (delete_repository : bool)
    (h fetched : list action) :
  Py.get options "cloudman" PNone = Ok cloudman_options ->
  Py.getitem cloudman_options "cloudman_repository" = Ok (PStr repository) ->
  fetch_repository w cloudman_options repository h
  = (Ok (path, delete_repository), fetched) ->
  exists mid removal,
    snd (bundle_cloudman w options h)
    = (fetched ++ Local path tar_cmd :: mid
         ++ Local path rm_archive_cmd :: removal)%list
    /\ (mid = [] \/ exists cmd, mid = [Local path cmd])
    /\ (delete_repository = false -> removal = [])
    /\ (forall cmd,
          delete_repository = true ->
          format w "rm -rf '%s'" [PStr path] = Ok cmd ->
          removal = [Local "" cmd]).
Proof.
  intros Ho Hr Hf. unfold bundle_cloudman.
  rewrite Ho, lbind_llift_ok, Hr, lbind_llift_ok.
  destruct cloudman_options as [| | | | | |m]; try discriminate Hr.
  cbn [Py.get]. rewrite lbind_llift_ok. cbn [as_string].
  rewrite lbind_llift_ok. rewrite (lbind_ok _ _ _ _ _ Hf). cbn [snd].
  set (bucket_source := default PNone (m !! "bucket_source")).
  destruct (archive_steps path bucket_source (h ++ fetched)%list)
    as (mid & Hmid & Hshape).
  unfold lfinally at 1.
  destruct (lfinally _ _ (h ++ fetched)%list) as [r t] eqn:Hinner.
  cbn [snd] in Hmid. subst t.
  destruct delete_repository.
  - destruct (format w "rm -rf '%s'" [PStr path]) as [cmd|] eqn:Hfmt.
    + exists mid, [Local "" cmd]. rewrite lbind_llift_ok.
      unfold perform.
      split_and!; [|exact Hshape | discriminate | now intros ? _ [= <-]].
      destruct (raises w _ (Local "" cmd)); cbn [snd app];
        rewrite <- ?app_assoc; reflexivity.
    + exists mid, []. unfold lbind, llift.
      split_and!; [|exact Hshape | discriminate | discriminate].
      cbn [snd app]. rewrite ?app_nil_r. reflexivity.
  - exists mid, []. unfold lret.
    split_and!; [|exact Hshape | reflexivity | discriminate].
    cbn [snd app]. rewrite ?app_nil_r. reflexivity.
Qed.

(** X30.  When the clone of a remote repository fails, [bundle_cloudman]
    raises what the clone raised and stops there: the temporary directory
    it made for the clone is left behind, since the clone is made before
    the [try] that removes it. *)
Theorem bundle_cloudman_failed_clone (options cloudman_options : pyobj)
    (repository template cmd : string) (h : list action) (x : exn) :
  Py.get options "cloudman" PNone = Ok cloudman_options ->
  Py.getitem cloudman_options "cloudman_repository" = Ok (PStr repository) ->
  PyStr.startswith "http" repository = true ->
  clone_command w cloudman_options repository = Ok template ->
  format w template [PStr repository; PStr (temp_directory w)] = Ok cmd ->
  raises w h Mkdtemp = None ->
  raises w (h ++ [Mkdtemp])%list (Local "" cmd) = Some x ->
  bundle_cloudman w options h = (Raise x, [Mkdtemp; Local "" cmd]).
Proof.
  intros Ho Hr Hs Hc Hf Hm Hx. unfold bundle_cloudman.
  rewrite Ho, lbind_llift_ok, Hr, lbind_llift_ok.
  destruct cloudman_options as [| | | | | |m]; try discriminate Hr.
  cbn [Py.get]. rewrite lbind_llift_ok. cbn [as_string].
  rewrite lbind_llift_ok.
  assert (Hfetch : fetch_repository w (PDict m) repository h
                   = (Raise x, [Mkdtemp; Local "" cmd])).
  { unfold fetch_repository. rewrite Hs.
    rewrite (lbind_perform_ok _ _ _ Hm). rewrite Hc, lbind_llift_ok.
    rewrite Hf, lbind_llift_ok. unfold lbind, perform. rewrite Hx.
    reflexivity. }
  unfold lbind. rewrite Hfetch. reflexivity.
Qed.

End BundleFacts.

(** * The further properties at concrete inputs *)
Section FurtherWitnesses.
Import ChefUtils Cloudman Fabfile Calls Entry Examples MoreExamples.

Lemma build_chef_properties_keys_witness :
  exists m' : gmap string pyobj,
    build_chef_properties JsonReader.loads (one_file port_json) small_env
      "node_extra.json" = Ok (PDict m')
    /\ is_Some (m' !! "port").
Proof.
  destruct (build_chef_properties_keys JsonReader.loads (one_file port_json)
              small_env "node_extra.json" {[ "port" := PInt 80 ]})
    as (m' & Hbuild & Hkeep & _).
  - vm_compute. reflexivity.
  - exists m'. split; [exact Hbuild|]. apply Hkeep. vm_compute. eauto.
Defined.

Ltac in_two_entries H :=
  unfold two_entries in H;
  repeat (apply elem_of_cons in H as [H|H]; [inversion H; subst; clear H|]);
  [..|now apply not_elem_of_nil in H].

Lemma build_chef_properties_order_witness :
  build_chef_properties JsonReader.loads (one_file port_json) two_entries
    "node_extra.json"
  = build_chef_properties JsonReader.loads (one_file port_json)
      two_entries_swapped "node_extra.json".
Proof.
  apply (build_chef_properties_order JsonReader.loads (one_file port_json)
           two_entries two_entries_swapped "node_extra.json"
           {[ "port" := PInt 80 ]}).
  - vm_compute. reflexivity.
  - apply perm_swap.
  - intros key s Hin. in_two_entries Hin; vm_compute; reflexivity.
  - intros key s key' s' Hin Hin'.
    in_two_entries Hin; in_two_entries Hin'; vm_compute; congruence.
  - intros key s key' s' Hin Hin'.
    in_two_entries Hin; in_two_entries Hin'; vm_compute; congruence.
Defined.

Lemma build_chef_properties_not_a_dict_witness :
  build_chef_properties list_reader (one_file "[]") two_entries
    "node_extra.json" = Raise TypeError.
Proof.
  rewrite (proj1 (build_chef_properties_not_a_dict list_reader
                    (one_file "[]") two_entries "node_extra.json"
                    (PList [PStr "user"; PInt 3]) eq_refl)
             [PStr "user"; PInt 3] eq_refl).
  reflexivity.
Defined.

Lemma prepare_user_data_fills_witness :
  exists filled : gmap string pyobj,
    _prepare_user_data plain_template no_dump [] some_launcher
      (PDict plain_options)
    = Ok (no_dump (PDict filled))
    /\ filled !! "password" = Some (PStr "secret")
    /\ filled !! "access_key" = Some (PStr "id")
    /\ filled !! "skip_cloudman" = Some (PBool true).
Proof.
  destruct (prepare_user_data_fills plain_template no_dump [] some_launcher
              plain_options plain_cloudman ∅
              (PStr DEFAULT_CLOUDMAN_CLUSTER_NAME))
    as (filled & Hrun & _ & Haccess & _ & _ & Hpassword & Hskip & _).
  - vm_compute. reflexivity.
  - vm_compute. reflexivity.
  - vm_compute. reflexivity.
  - exists filled. split_and!; [exact Hrun | exact Hpassword | exact Haccess
                               | exact Hskip].
Defined.

Lemma cloudman_launch_plain_image_witness :
  cloudman_launch (snaps_at snaps_single) plain_template no_dump []
    some_launcher (PDict plain_options)
  = cloudman_launch (fun _ => None) plain_template no_dump []
      some_launcher (PDict plain_options).
Proof.
  apply (cloudman_launch_plain_image plain_template no_dump []
           (snaps_at snaps_single) (fun _ => None) some_launcher
           (PDict plain_options) (PDict plain_cloudman) (PStr "ami-7")).
  - vm_compute. reflexivity.
  - vm_compute. reflexivity.
  - vm_compute. reflexivity.
Defined.

Lemma cloudman_launch_manifest_errors_witness :
  cloudman_launch (fun _ => None) plain_template no_dump [] some_launcher
    snaps_options
  = Raise (Exception (msg_no_snaps "/bucket/snaps.yaml")).
Proof.
  refine (proj1 (proj2 (cloudman_launch_manifest_errors plain_template
                          no_dump [] (fun _ => None) some_launcher
                          snaps_options _ (PStr "__USE_SNAPS__")
                          (PStr "/bucket") eq_refl eq_refl eq_refl eq_refl)
                   "/bucket" eq_refl) eq_refl).
Defined.

Lemma library_installs_unknown_name_witness :
  _do_library_installs (world_with_yaml "julia-libs.yaml" (PDict ∅)) []
    ["julia-libs"] []
  = (Raise (KeyError "julia-libs"), [EvLoadYaml "julia-libs.yaml"]).
Proof.
  destruct (library_installs_unknown_name
              (world_with_yaml "julia-libs.yaml" (PDict ∅)) []
              "julia-libs" [])
    as (Htrace & _ & Hraise).
  - apply (bool_decide_unpack _). vm_compute. exact I.
  - specialize (Hraise (PDict ∅) eq_refl eq_refl).
    destruct (_do_library_installs _ _ _ _) as [r t].
    cbn [fst snd] in *. now subst.
Defined.

Lemma read_main_config_library_order_witness :
  Sorted String.le ["python-libs"; "ruby-libs"]
  /\ ["python-libs"; "ruby-libs"] ≡ₚ ["ruby-libs"; "python-libs"].
Proof.
  destruct (read_main_config_library_order
              (world_with_yaml "main.yaml" (PDict main_unsorted)) []
              main_unsorted ["ruby-libs"; "python-libs"]
              (names ["minimal"], ["python-libs"; "ruby-libs"], PList []))
    as (Hsorted & Hperm & _).
  - reflexivity.
  - reflexivity.
  - vm_compute. reflexivity.
  - vm_compute. reflexivity.
  - split; [exact Hsorted | exact Hperm].
Defined.

Lemma perform_install_unknown_target_witness :
  Forall (fun e => is_install e = false)
    (snd (_perform_install libraries_world plain_env (Some "library") None [])).
Proof.
  apply (perform_install_unknown_target libraries_world plain_env
           "library" None []).
  apply (bool_decide_unpack _). vm_compute. exact I.
Defined.

Lemma install_chef_recipe_without_provision_witness :
  fst (install_chef_recipe libraries_world small_env (PStr "apache") true
         None []) = Ok tt.
Proof.
  destruct (proj2 (install_chef_recipe_without_provision libraries_world
                     small_env (PStr "apache") true None eq_refl)
              [] eq_refl) as [Hok _].
  - intros H. discriminate H.
  - exact Hok.
Defined.

Lemma install_chef_recipe_steps_witness :
  exists json,
    build_chef_properties JsonReader.loads (one_file port_json) small_env
      "node_extra.json" = Ok json
    /\ snd (install_chef_recipe chef_world small_env
              (PList [PStr "apache"; PStr "nginx"]) true None [])
       = [EvSetupLogging;
          time_stats (Fmt "Chef provision for recipe(s) '{0}'"
                        [PList [PStr "apache"; PStr "nginx"]]) "start";
          EvChefConfigure json "config/chef/cookbooks"
            "config/chef/data_bags" "config/chef/roles" false;
          EvChefAddRecipe (PStr "apache");
          EvChefAddRecipe (PStr "nginx");
          EvProvision;
          time_stats (Fmt "Chef provision for recipe(s) '%s'"
                        [PList [PStr "apache"; PStr "nginx"]]) "end"].
Proof.
  destruct (install_chef_recipe_steps chef_world small_env
              (PList [PStr "apache"; PStr "nginx"]) true None [])
    as (json & chef_dir & omnibus & Hjson & Hdir & Homnibus & Htrace).
  - reflexivity.
  - vm_compute. reflexivity.
  - exists json. split; [exact Hjson|].
    cbn in Hdir, Homnibus. subst chef_dir omnibus. exact Htrace.
Defined.

Lemma r_installer_steps_witness :
  snd (_r_library_installer chef_world mixed_r_config [])
  = [EvExists R_out_file;
     EvRun "touch install_packages.R";
     EvAppend R_out_file
       (Fmt R_repo_info [PStr "http://cran"; PStr "http://bioc"]);
     EvAppend R_out_file (Fmt R_install_fn []);
     EvAppend R_out_file
       (Fmt R_std_install
          [PStr (PyStr.quoted "ggplot2" ++ ", " ++ PyStr.quoted "7")]);
     EvAppend R_out_file (Fmt R_bioc_install [PStr (PyStr.quoted "limma")]);
     EvAppend R_out_file (Fmt R_final_update []);
     EvSafeSudo "Rscript install_packages.R";
     EvRun "rm -f install_packages.R"].
Proof.
  destruct (proj1 (r_installer_steps chef_world mixed_r_config []))
    as (cranrepo & biocrepo & cran_pkgs & bioc_pkgs
        & Hcranrepo & Hbiocrepo & Hcran & Hbioc & Htrace).
  - vm_compute. reflexivity.
  - rewrite Htrace.
    vm_compute in Hcranrepo. inversion Hcranrepo; subst cranrepo.
    vm_compute in Hbiocrepo. inversion Hbiocrepo; subst biocrepo.
    vm_compute in Hcran. inversion Hcran; subst cran_pkgs.
    vm_compute in Hbioc. inversion Hbioc; subst bioc_pkgs.
    vm_compute. reflexivity.
Defined.

Lemma clojure_installer_steps_witness :
  snd (_clojure_library_installer libraries_world mixed_clojure_config [])
  = [EvRun "cljr install incanter"; EvRun "cljr install 5"].
Proof.
  destruct (clojure_installer_steps libraries_world mixed_clojure_config [])
    as (libs & Hlibs & Htrace).
  - vm_compute. reflexivity.
  - rewrite Htrace. vm_compute in Hlibs. inversion Hlibs. reflexivity.
Defined.

Lemma haskell_installer_steps_witness :
  snd (_haskell_library_installer libraries_world sudo_env haskell_config [])
  = [EvRun "cabal update";
     EvRun "cabal install --root-cmd=sudo --global pandoc";
     EvRun "cabal install --root-cmd=sudo --global hlint"].
Proof.
  destruct (haskell_installer_steps libraries_world sudo_env haskell_config [])
    as (libs & Hlibs & _ & Htrace).
  - vm_compute. reflexivity.
  - rewrite Htrace. vm_compute in Hlibs. inversion Hlibs. reflexivity.
Defined.

Lemma ruby_installer_commands_witness :
  Forall2 (gem_command gem_world []) [PStr "rake"; PStr "bio"; PStr "rake"]
    (List.filter is_safe_sudo
       (snd (_ruby_library_installer gem_world [] ruby_config []))).
Proof.
  destruct (ruby_installer_commands gem_world [] ruby_config [])
    as (gems & gem_names & Hgems & Hnames & Hcommands & _).
  - vm_compute. reflexivity.
  - vm_compute in Hgems. inversion Hgems; subst gems.
    vm_compute in Hnames. inversion Hnames; subst gem_names.
    exact Hcommands.
Defined.

Lemma gem_lines_round_trip_witness :
  gem_lines (PyStr.join (cr ++ PyStr.nl) ["rake"; "bio"] ++ cr ++ PyStr.nl)
  = ["rake"; "bio"].
Proof.
  apply (gem_lines_round_trip ["rake"; "bio"]).
  repeat constructor; try discriminate.
Defined.

Lemma install_custom_without_mapping_witness :
  fst (install_custom custom_world custom_env "BWA" true None None [])
  = Raise TypeError.
Proof.
  rewrite (install_custom_without_mapping custom_world custom_env "BWA"
             None [] eq_refl).
  reflexivity.
Defined.

Lemma entry_points_version_gate_witness :
  fst (install_biolinux libraries_world keep_env old_fabric None None [])
  = ERaise (NotImplementedError msg_old_fabric)
  /\ fst (install_libraries libraries_world keep_env old_fabric "python" [])
     = ERaise (NotImplementedError msg_old_fabric).
Proof.
  destruct (entry_points_version_gate libraries_world keep_env old_fabric
              None None "python" [] (NotImplementedError msg_old_fabric)
              eq_refl eq_refl) as [H1 H2].
  rewrite H1, H2. split; reflexivity.
Defined.

Lemma check_fabric_version_major_witness :
  _check_fabric_version current_fabric = EOk tt
  /\ _check_fabric_version old_fabric
     = ERaise (NotImplementedError msg_old_fabric).
Proof.
  split.
  - rewrite (check_fabric_version_major current_fabric "1" "4.3" eq_refl);
      [reflexivity | discriminate | reflexivity].
  - rewrite (check_fabric_version_major old_fabric "0" "9.3" eq_refl);
      [reflexivity | discriminate | reflexivity].
Defined.

Lemma bundle_cloudman_cleans_up_witness :
  exists mid,
    snd (Bundle.bundle_cloudman quiet_machine local_bundle [])
    = (Bundle.Local "/src/cloudman" Bundle.tar_cmd
         :: mid ++ [Bundle.Local "/src/cloudman" Bundle.rm_archive_cmd])%list.
Proof.
  destruct (bundle_cloudman_cleans_up quiet_machine local_bundle
              (PDict {[ "cloudman_repository" := PStr "/src/cloudman";
                        "bucket_source" := PStr "/bucket" ]})
              "/src/cloudman" "/src/cloudman" false [] [])
    as (mid & removal & Htrace & _ & Hkept & _).
  - reflexivity.
  - reflexivity.
  - reflexivity.
  - exists mid. rewrite Htrace, (Hkept eq_refl). reflexivity.
Defined.

Lemma bundle_cloudman_failed_clone_witness :
  Bundle.bundle_cloudman offline_machine remote_bundle []
  = (Raise (Exception "git clone failed"),
     [Bundle.Mkdtemp;
      Bundle.Local ""
        "git clone  'http://host/cloudman.git' '/tmp/cm'"]).
Proof.
  apply (bundle_cloudman_failed_clone offline_machine remote_bundle
           remote_cloudman "http://host/cloudman.git"
           "git clone  '%s' '%s'"
           "git clone  'http://host/cloudman.git' '/tmp/cm'" []
           (Exception "git clone failed"));
    vm_compute; reflexivity.
Defined.

End FurtherWitnesses.
